(** * PayzCore for Shopify: webhook verification, payment store and
      payment routes, embedded from the TypeScript sources.

    The development follows the layout of the repository:
    - [Js]             the JavaScript string primitives the sources rely on;
    - [Crypto]         Node's [createHmac('sha256', _)] and hex digests;
    - [PayzCore]       src/services/payzcore.ts (types and tables);
    - [Store]          src/store.ts (Redis-backed payment mappings);
    - [VerifyPayzCore] src/middleware/verify-payzcore.ts;
    - [Shopify]        src/services/shopify.ts (Admin API client);
    - [Webhooks]       the PayzCore webhook handler (POST /webhooks/payzcore);
    - [Payment]        src/routes/payment.ts (status poll and tx-hash confirm);
    - [VerifyShopify]  src/middleware/verify-shopify.ts (query signature,
                       shop domains);
    - [Config]         src/config.ts;
    - [Auth]           src/routes/auth.ts (the OAuth routes);
    - [PaymentCreate]  src/routes/payment.ts (GET /payment/create, up to
                       the amount);
    - [PaymentPage]    public/js/payment.js (the hash check of the page).

    Strings are byte strings: a JavaScript string is represented by its
    UTF-8 encoding, which is what [Hmac.update] and Redis see. *)

From Stdlib Require Import ZArith List Ascii String Lia Bool DecimalString.
From stdpp Require Import base gmap strings.

Local Open Scope string_scope.
Local Open Scope list_scope.
Local Open Scope Z_scope.

(* ===================================================================== *)
(** * JavaScript string primitives *)
(* ===================================================================== *)

Module Js.

(** [!s] is [false] exactly for the non-empty strings. *)
Definition truthy (s : string) : bool :=
  match s with EmptyString => false | String _ _ => true end.

(** [a || b] on strings. *)
Definition or_else (a b : string) : string := if truthy a then a else b.

Definition code (c : ascii) : Z := Z.of_N (N_of_ascii c).

Definition bytes_of (s : string) : list Z := map code (list_ascii_of_string s).

Definition is_digit (c : ascii) : bool := (48 <=? code c) && (code c <=? 57).
Definition is_lower_hex (c : ascii) : bool := (97 <=? code c) && (code c <=? 102).
Definition is_upper_hex (c : ascii) : bool := (65 <=? code c) && (code c <=? 70).

(** The character class [[a-fA-F0-9]] (equally [[a-f0-9]] under the [i] flag). *)
Definition is_hex (c : ascii) : bool := is_digit c || is_lower_hex c || is_upper_hex c.

Fixpoint all_chars (p : ascii -> bool) (s : string) : bool :=
  match s with
  | EmptyString => true
  | String c r => p c && all_chars p r
  end.

Definition len (s : string) : Z := Z.of_nat (String.length s).

(** [String.prototype.toLowerCase], on the ASCII letters. *)
Definition lower_char (c : ascii) : ascii :=
  if (65 <=? code c) && (code c <=? 90)
  then ascii_of_N (Z.to_N (code c + 32)) else c.

Fixpoint toLowerCase (s : string) : string :=
  match s with
  | EmptyString => EmptyString
  | String c r => String (lower_char c) (toLowerCase r)
  end.

(** White space and line terminators removed by [String.prototype.trim],
    as UTF-8 byte sequences: TAB, LF, VT, FF, CR, SP, U+00A0, U+1680,
    U+2000..U+200A, U+2028, U+2029, U+202F, U+205F, U+3000, U+FEFF. *)
Definition white_space : list (list Z) :=
  [ [9]; [10]; [11]; [12]; [13]; [32];
    [194; 160]; [225; 154; 128];
    [226; 128; 128]; [226; 128; 129]; [226; 128; 130]; [226; 128; 131];
    [226; 128; 132]; [226; 128; 133]; [226; 128; 134]; [226; 128; 135];
    [226; 128; 136]; [226; 128; 137]; [226; 128; 138];
    [226; 128; 168]; [226; 128; 169]; [226; 128; 175];
    [226; 129; 159]; [227; 128; 128]; [239; 187; 191] ].

Fixpoint strip_prefix (p : list Z) (s : string) : option string :=
  match p, s with
  | [], _ => Some s
  | b :: p', String c r => if code c =? b then strip_prefix p' r else None
  | _ :: _, EmptyString => None
  end.

Fixpoint strip_any (ps : list (list Z)) (s : string) : option string :=
  match ps with
  | [] => None
  | p :: ps' =>
      match strip_prefix p s with
      | Some r => Some r
      | None => strip_any ps' s
      end
  end.

(** Drop leading white space; every strip removes at least one byte, so
    the length of the string bounds the number of rounds. *)
Fixpoint trim_start_fuel (ps : list (list Z)) (fuel : nat) (s : string) : string :=
  match fuel with
  | O => s
  | S k =>
      match strip_any ps s with
      | Some r => trim_start_fuel ps k r
      | None => s
      end
  end.

Definition rev_string (s : string) : string :=
  string_of_list_ascii (List.rev (list_ascii_of_string s)).

Definition trimStart (s : string) : string :=
  trim_start_fuel white_space (String.length s) s.

Definition trimEnd (s : string) : string :=
  rev_string (trim_start_fuel (map (@List.rev Z) white_space)
                              (String.length s) (rev_string s)).

Definition trim (s : string) : string := trimEnd (trimStart s).

(** [s.replace(/^0x/, '')]. *)
Definition strip_0x (s : string) : string :=
  match s with
  | String a (String b r) =>
      if Ascii.eqb a "0" && Ascii.eqb b "x" then r else s
  | _ => s
  end.

(** [s.split(', ')], scanning from the left; the accumulator holds the
    current piece reversed. *)
Fixpoint split_on (acc : list ascii) (s : string) : list string :=
  match s with
  | EmptyString => [string_of_list_ascii (List.rev acc)]
  | String c r =>
      match c, r with
      | ","%char, String " "%char r' =>
          string_of_list_ascii (List.rev acc) :: split_on [] r'
      | _, _ => split_on (c :: acc) r
      end
  end.

Definition split_comma (s : string) : list string := split_on [] s.

(** [xs.join(sep)]. *)
Fixpoint join (sep : string) (xs : list string) : string :=
  match xs with
  | [] => ""
  | [x] => x
  | x :: r => x +:+ sep +:+ join sep r
  end.

(** [[...new Set(xs)]]: first occurrences, in order. *)
Fixpoint dedup_acc (seen : list string) (xs : list string) : list string :=
  match xs with
  | [] => []
  | x :: r =>
      if existsb (String.eqb x) seen then dedup_acc seen r
      else x :: dedup_acc (x :: seen) r
  end.

Definition dedup (xs : list string) : list string := dedup_acc [] xs.

(** ** Timestamps

    [new Date(s).getTime()] is the engine's date parser: milliseconds
    since the epoch, or [NaN] ([None]).  Outside the ISO format its
    result is implementation-defined, so the code that calls it takes
    the parser as a parameter; [iso_utc] reads the UTC forms
    [YYYY-MM-DDTHH:mm:ssZ] and [YYYY-MM-DDTHH:mm:ss.sssZ], on which every
    engine agrees, and serves for concrete runs. *)

Definition digit_val (c : ascii) : option Z :=
  if is_digit c then Some (code c - 48) else None.

Fixpoint digits_acc (acc : Z) (cs : list ascii) : option Z :=
  match cs with
  | [] => Some acc
  | c :: r =>
      match digit_val c with
      | Some d => digits_acc (10 * acc + d) r
      | None => None
      end
  end.

Definition digits (cs : list ascii) : option Z :=
  match cs with [] => None | _ => digits_acc 0 cs end.

Definition is_leap (y : Z) : bool :=
  ((y mod 4 =? 0) && negb (y mod 100 =? 0)) || (y mod 400 =? 0).

Definition days_in_month (y m : Z) : Z :=
  if m =? 2 then (if is_leap y then 29 else 28)
  else if (m =? 4) || (m =? 6) || (m =? 9) || (m =? 11) then 30 else 31.

(** Days from 1970-01-01 to the given civil date. *)
Definition days_from_civil (y m d : Z) : Z :=
  let y' := if m <=? 2 then y - 1 else y in
  let era := y' / 400 in
  let yoe := y' - era * 400 in
  let mp := (m + 9) mod 12 in
  let doy := (153 * mp + 2) / 5 + d - 1 in
  let doe := yoe * 365 + yoe / 4 - yoe / 100 + doy in
  era * 146097 + doe - 719468.

Definition utc_ms (y mo d h mi s ms : Z) : option Z :=
  if (1 <=? mo) && (mo <=? 12) && (1 <=? d) && (d <=? days_in_month y mo)
     && (h <=? 23) && (mi <=? 59) && (s <=? 59)
  then Some ((((days_from_civil y mo d * 24 + h) * 60 + mi) * 60 + s) * 1000 + ms)
  else None.

Definition iso_utc (str : string) : option Z :=
  match list_ascii_of_string str with
  | y1 :: y2 :: y3 :: y4 :: "-"%char :: m1 :: m2 :: "-"%char :: d1 :: d2
      :: "T"%char :: h1 :: h2 :: ":"%char :: n1 :: n2 :: ":"%char :: s1 :: s2
      :: rest =>
      match digits [y1; y2; y3; y4], digits [m1; m2], digits [d1; d2],
            digits [h1; h2], digits [n1; n2], digits [s1; s2] with
      | Some y, Some mo, Some d, Some h, Some mi, Some s =>
          match rest with
          | ["Z"%char] => utc_ms y mo d h mi s 0
          | ["."%char; f1; f2; f3; "Z"%char] =>
              match digits [f1; f2; f3] with
              | Some ms => utc_ms y mo d h mi s ms
              | None => None
              end
          | _ => None
          end
      | _, _, _, _, _, _ => None
      end
  | _ => None
  end.

(** ** More of the standard library of the language *)

Definition is_alnum (c : ascii) : bool :=
  is_digit c || ((97 <=? code c) && (code c <=? 122))
  || ((65 <=? code c) && (code c <=? 90)).

(** [xs.includes(x)] on strings. *)
Definition includes (xs : list string) (x : string) : bool :=
  existsb (String.eqb x) xs.

(** [s.split(sep)] for a separator of one character. *)
Fixpoint split_at (sep : ascii) (acc : list ascii) (s : string) : list string :=
  match s with
  | EmptyString => [string_of_list_ascii (List.rev acc)]
  | String c r =>
      if Ascii.eqb c sep
      then string_of_list_ascii (List.rev acc) :: split_at sep [] r
      else split_at sep (c :: acc) r
  end.

Definition split_char (sep : ascii) (s : string) : list string := split_at sep [] s.

(** [s.replace(/\/+$/, '')]: the string without its trailing slashes. *)
Fixpoint drop_slashes (cs : list ascii) : list ascii :=
  match cs with
  | c :: r => if Ascii.eqb c "/" then drop_slashes r else cs
  | [] => []
  end.

Definition strip_trailing_slashes (s : string) : string :=
  string_of_list_ascii (List.rev (drop_slashes (List.rev (list_ascii_of_string s)))).

(** [s.slice(0, n)]. *)
Fixpoint take (n : nat) (s : string) : string :=
  match n, s with
  | S k, String c r => String c (take k r)
  | _, _ => EmptyString
  end.

(** The longest prefix of digits, and its value. *)
Fixpoint digit_prefix (acc : option Z) (s : string) : option Z :=
  match s with
  | String c r =>
      match digit_val c with
      | Some d => digit_prefix (Some (10 * default 0 acc + d)) r
      | None => acc
      end
  | EmptyString => acc
  end.

(** [parseInt(s, 10)]: leading white space, an optional sign, then the
    digits up to the first character that is not one; [NaN] ([None])
    without a digit.  The value is exact here, where the language rounds
    it to a double. *)
Definition parseInt10 (s : string) : option Z :=
  match trimStart s with
  | String c r =>
      if Ascii.eqb c "-" then Z.opp <$> digit_prefix None r
      else if Ascii.eqb c "+" then digit_prefix None r
      else digit_prefix None (String c r)
  | EmptyString => None
  end.

(** [String(n)] for an integer. *)
Definition string_of_Z (n : Z) : string :=
  DecimalString.NilZero.string_of_int (Z.to_int n).

(** [encodeURIComponent]: every byte but those of [A-Z a-z 0-9 - _ . ! ~ * ' ( )]
    becomes [%XX]. *)
Definition is_unreserved (c : ascii) : bool :=
  is_alnum c || existsb (Ascii.eqb c) (list_ascii_of_string "-_.!~*'()").

Definition upper_hex_digit (n : Z) : ascii :=
  if n <? 10 then ascii_of_N (Z.to_N (48 + n)) else ascii_of_N (Z.to_N (55 + n)).

Fixpoint encodeURIComponent (s : string) : string :=
  match s with
  | EmptyString => EmptyString
  | String c r =>
      if is_unreserved c then String c (encodeURIComponent r)
      else String "%" (String (upper_hex_digit (code c / 16))
             (String (upper_hex_digit (code c mod 16)) (encodeURIComponent r)))
  end.

(** [xs.sort()] on strings: insertion into a list kept in order.  Strings
    are compared byte by byte, which is the order of the language on
    every string without characters beyond U+FFFF. *)
Fixpoint insert_sorted (x : string) (xs : list string) : list string :=
  match xs with
  | [] => [x]
  | y :: r => if String.leb x y then x :: xs else y :: insert_sorted x r
  end.

Definition sort (xs : list string) : list string := fold_right insert_sorted [] xs.

End Js.

(* ===================================================================== *)
(** * Node's crypto: SHA-256, HMAC and hex digests *)
(* ===================================================================== *)

Module Crypto.

Definition w32 (x : Z) : Z := x mod 2 ^ 32.

Definition rotr (n x : Z) : Z :=
  w32 (Z.lor (Z.shiftr x n) (Z.shiftl x (32 - n))).

Definition shr (n x : Z) : Z := Z.shiftr x n.

Definition Ch (x y z : Z) : Z :=
  Z.lxor (Z.land x y) (Z.land (Z.lxor x (2 ^ 32 - 1)) z).

Definition Maj (x y z : Z) : Z :=
  Z.lxor (Z.lxor (Z.land x y) (Z.land x z)) (Z.land y z).

Definition Sigma0 (x : Z) : Z := Z.lxor (Z.lxor (rotr 2 x) (rotr 13 x)) (rotr 22 x).
Definition Sigma1 (x : Z) : Z := Z.lxor (Z.lxor (rotr 6 x) (rotr 11 x)) (rotr 25 x).
Definition sigma0 (x : Z) : Z := Z.lxor (Z.lxor (rotr 7 x) (rotr 18 x)) (shr 3 x).
Definition sigma1 (x : Z) : Z := Z.lxor (Z.lxor (rotr 17 x) (rotr 19 x)) (shr 10 x).

(** The constants of FIPS 180-4 are computed from their definition
    rather than listed: the round constants are the first 32 bits of the
    fractional parts of the cube roots of the first 64 primes, the
    initial hash value those of the square roots of the first 8. *)
Definition is_prime (n : Z) : bool :=
  (2 <=? n) &&
  forallb (fun d => negb (n mod Z.of_nat d =? 0)) (seq 2 (Z.to_nat n - 2)).

Definition primes_upto (n : nat) : list Z :=
  List.filter is_prime (map Z.of_nat (seq 2 (n - 1))).

(** The integer cube root, found bit by bit from bit [bits - 1] down. *)
Fixpoint cube_root_bits (bits : nat) (x target : Z) : Z :=
  match bits with
  | O => x
  | S b =>
      let y := x + 2 ^ Z.of_nat b in
      cube_root_bits b (if y * y * y <=? target then y else x) target
  end.

Definition frac_cube_root (p : Z) : Z := w32 (cube_root_bits 40 0 (p * 2 ^ 96)).

Definition frac_square_root (p : Z) : Z := w32 (Z.sqrt (p * 2 ^ 64)).

Definition K256 : list Z :=
  Eval vm_compute in map frac_cube_root (primes_upto 311).

Definition H256 : list Z :=
  Eval vm_compute in map frac_square_root (primes_upto 19).

(** The [n] low bytes of [x], big endian. *)
Definition be_bytes (n : nat) (x : Z) : list Z :=
  map (fun i => Z.shiftr x (8 * Z.of_nat (n - 1 - i)) mod 256) (seq 0 n).

(** Padding: a 1 bit, zeros up to 56 mod 64 bytes, the bit length on
    8 bytes, big endian. *)
Definition pad (msg : list Z) : list Z :=
  let l := Z.of_nat (List.length msg) in
  let k := (55 - l) mod 64 in
  msg ++ [128] ++ repeat 0 (Z.to_nat k) ++ be_bytes 8 (8 * l).

Fixpoint be_words (bs : list Z) : list Z :=
  match bs with
  | a :: b :: c :: d :: r =>
      (Z.shiftl a 24 + Z.shiftl b 16 + Z.shiftl c 8 + d) :: be_words r
  | _ => []
  end.

(** The message schedule, most recent word first: [w !! 1] is W(t-2),
    [w !! 6] is W(t-7), [w !! 14] is W(t-15), [w !! 15] is W(t-16). *)
Fixpoint schedule (n : nat) (w : list Z) : list Z :=
  match n with
  | O => w
  | S k =>
      let x := w32 (sigma1 (nth 1 w 0) + nth 6 w 0
                    + sigma0 (nth 14 w 0) + nth 15 w 0) in
      schedule k (x :: w)
  end.

Definition round (st : list Z) (kw : Z * Z) : list Z :=
  match st with
  | [a; b; c; d; e; f; g; h] =>
      let t1 := h + Sigma1 e + Ch e f g + fst kw + snd kw in
      let t2 := Sigma0 a + Maj a b c in
      [w32 (t1 + t2); a; b; c; w32 (d + t1); e; f; g]
  | _ => st
  end.

Fixpoint zip_add (xs ys : list Z) : list Z :=
  match xs, ys with
  | x :: xs', y :: ys' => w32 (x + y) :: zip_add xs' ys'
  | _, _ => []
  end.

Definition compress (st : list Z) (block : list Z) : list Z :=
  let w := List.rev (schedule 48 (List.rev (be_words block))) in
  zip_add st (fold_left round (combine K256 w) st).

Fixpoint blocks (n : nat) (bs : list Z) : list (list Z) :=
  match n with
  | O => []
  | S k => firstn 64 bs :: blocks k (skipn 64 bs)
  end.

Definition sha256 (msg : list Z) : list Z :=
  let p := pad msg in
  let st := fold_left compress (blocks (List.length p / 64) p) H256 in
  concat (map (be_bytes 4) st).

(** [createHmac('sha256', key).update(msg).digest()]. *)
Definition hmac_sha256 (key msg : list Z) : list Z :=
  let k0 := if (64 <? Z.of_nat (List.length key)) then sha256 key else key in
  let k := k0 ++ repeat 0 (64 - List.length k0) in
  let ipad := map (Z.lxor 0x36) k in
  let opad := map (Z.lxor 0x5c) k in
  sha256 (opad ++ sha256 (ipad ++ msg)).

Definition hex_digit (n : Z) : ascii :=
  if n <? 10 then ascii_of_N (Z.to_N (48 + n)) else ascii_of_N (Z.to_N (87 + n)).

(** [digest('hex')]: two lower-case digits per byte. *)
Fixpoint hex (bs : list Z) : string :=
  match bs with
  | [] => EmptyString
  | b :: r => String (hex_digit (b / 16)) (String (hex_digit (b mod 16)) (hex r))
  end.

Definition hex_value (c : ascii) : Z :=
  if Js.is_digit c then Js.code c - 48
  else if Js.is_lower_hex c then Js.code c - 87
  else Js.code c - 55.

(** [Buffer.from(s, 'hex')] on a string of hex digits of even length. *)
Fixpoint unhex (s : string) : list Z :=
  match s with
  | String a (String b r) => (16 * hex_value a + hex_value b) :: unhex r
  | _ => []
  end.

(** [createHmac('sha256', secret).update(message).digest('hex')]. *)
Definition hmac_hex (secret message : string) : string :=
  hex (hmac_sha256 (Js.bytes_of secret) (Js.bytes_of message)).

(** [Buffer.from(s, 'hex')] on any string: decoding stops at the first
    pair that is not two hex digits, and a last odd character is dropped. *)
Fixpoint from_hex (s : string) : list Z :=
  match s with
  | String a (String b r) =>
      if Js.is_hex a && Js.is_hex b
      then (16 * hex_value a + hex_value b) :: from_hex r
      else []
  | _ => []
  end.

End Crypto.

(* ===================================================================== *)
(** * src/services/payzcore.ts *)
(* ===================================================================== *)

Module PayzCore.

(** [PaymentStatus]: the status strings the monitoring service reports. *)
Definition payment_statuses : list string :=
  ["pending"; "confirming"; "partial"; "paid"; "overpaid"; "expired"; "cancelled"].

(** [NETWORK_EXPLORER_TX[network]], [undefined] for other keys. *)
Definition NETWORK_EXPLORER_TX (network : string) : option string :=
  if String.eqb network "TRC20" then Some "https://tronscan.org/#/transaction/"
  else if String.eqb network "BEP20" then Some "https://bscscan.com/tx/"
  else if String.eqb network "ERC20" then Some "https://etherscan.io/tx/"
  else if String.eqb network "POLYGON" then Some "https://polygonscan.com/tx/"
  else if String.eqb network "ARBITRUM" then Some "https://arbiscan.io/tx/"
  else None.

(** One element of [transactions] in [GetPaymentResponse]. *)
Record Transaction := {
  t_tx_hash : string;
  t_amount : string;
  t_from : string;
  t_confirmed : bool
}.

(** [GetPaymentResponse['payment']]. *)
Record Payment := {
  id : string;
  status : string;
  expected_amount : string;
  paid_amount : string;
  address : string;
  network : string;
  token : option string;
  tx_hash : option string;
  expires_at : string;
  transactions : list Transaction
}.

(** The requests the client sends to the monitoring service. *)
Inductive Call :=
| GetPayment (paymentId : string)
| ConfirmPayment (confirmEndpoint txHash : string).

(** The monitoring service as the routes see it: a request either
    yields its typed payload or the client throws (transport error,
    time-out or non-2xx status). *)
Record Api := {
  getPayment : string -> option Payment;
  confirmPayment : string -> string -> option bool
}.

(** All supported networks and tokens. *)
Definition SUPPORTED_NETWORKS : list string :=
  ["TRC20"; "BEP20"; "ERC20"; "POLYGON"; "ARBITRUM"].

Definition SUPPORTED_TOKENS : list string := ["USDT"; "USDC"].

(** The entries of [VALID_NETWORK_TOKEN]; no other key names a token
    list. *)
Definition VALID_NETWORK_TOKEN (network : string) : option (list string) :=
  if String.eqb network "TRC20" then Some ["USDT"]
  else if String.eqb network "BEP20" then Some ["USDT"; "USDC"]
  else if String.eqb network "ERC20" then Some ["USDT"; "USDC"]
  else if String.eqb network "POLYGON" then Some ["USDT"; "USDC"]
  else if String.eqb network "ARBITRUM" then Some ["USDT"; "USDC"]
  else None.

(** Check if a network+token combination is valid; on a network without
    an entry the lookup gives no array and the call of [includes] throws
    ([None]). *)
Definition isValidNetworkToken (network token : string) : option bool :=
  (fun tokens => Js.includes tokens token) <$> VALID_NETWORK_TOKEN network.

(** [NETWORK_LABELS[network]]. *)
Definition NETWORK_LABELS (network : string) : option string :=
  if String.eqb network "TRC20" then Some "TRON (TRC20)"
  else if String.eqb network "BEP20" then Some "BNB Smart Chain (BEP20)"
  else if String.eqb network "ERC20" then Some "Ethereum (ERC20)"
  else if String.eqb network "POLYGON" then Some "Polygon"
  else if String.eqb network "ARBITRUM" then Some "Arbitrum"
  else None.

(** Type guards for Network and Token values. *)
Definition isValidNetwork (value : string) : bool :=
  Js.includes SUPPORTED_NETWORKS value.

Definition isValidToken (value : string) : bool :=
  Js.includes SUPPORTED_TOKENS value.

End PayzCore.

(* ===================================================================== *)
(** * src/store.ts *)
(* ===================================================================== *)

Module Store.

Record ShopData := {
  accessToken : string;
  scope : string;
  installedAt : string
}.

Record PaymentMapping := {
  shopDomain : string;
  shopifyOrderId : Z;
  shopifyOrderName : string;
  amount : string;
  currency : string;
  customerEmail : string;
  network : string;
  token : string;
  payzCorePaymentId : string;
  address : string;
  expectedAmount : string;
  qrCode : string;
  expiresAt : string;
  status : string;
  createdAt : string;
  notice : option string;
  requiresTxid : option bool;
  confirmEndpoint : option string
}.

(** [mapping.status = status]. *)
Definition set_status (mapping : PaymentMapping) (s : string) : PaymentMapping :=
  {| shopDomain := shopDomain mapping;
     shopifyOrderId := shopifyOrderId mapping;
     shopifyOrderName := shopifyOrderName mapping;
     amount := amount mapping;
     currency := currency mapping;
     customerEmail := customerEmail mapping;
     network := network mapping;
     token := token mapping;
     payzCorePaymentId := payzCorePaymentId mapping;
     address := address mapping;
     expectedAmount := expectedAmount mapping;
     qrCode := qrCode mapping;
     expiresAt := expiresAt mapping;
     status := s;
     createdAt := createdAt mapping;
     notice := notice mapping;
     requiresTxid := requiresTxid mapping;
     confirmEndpoint := confirmEndpoint mapping |}.

(** Payment mappings expire after 7 days. *)
Definition PAYMENT_TTL : Z := 86400 * 7.

(** A Redis key under [shopify:payment:]: the stored JSON document and
    what the [TTL] command reports for the key, in seconds ([-1] when
    the key has no expiry).  [JSON.parse (JSON.stringify m)] gives back
    the document, so the document is kept as the record. *)
Record Entry := {
  value : PaymentMapping;
  ttl : Z
}.

(** The two key spaces, [shopify:payment:<id>] and [shopify:shop:<domain>];
    the prefixes keep them apart, so each is a map of its own. *)
Abbreviation Payments := (gmap string Entry).
Abbreviation Shops := (gmap string ShopData).

Definition savePaymentMapping (paymentId : string) (mapping : PaymentMapping)
    (db : Payments) : Payments :=
  <[paymentId := {| value := mapping; ttl := PAYMENT_TTL |}]> db.

Definition getPaymentMapping (paymentId : string) (db : Payments)
    : option PaymentMapping :=
  value <$> db !! paymentId.

Definition updatePaymentMappingStatus (paymentId : string) (s : string)
    (db : Payments) : Payments :=
  match db !! paymentId with
  | Some raw =>
      let mapping := set_status (value raw) s in
      (* Preserve remaining TTL *)
      let ttl := ttl raw in
      let expiry := if 0 <? ttl then ttl else PAYMENT_TTL in
      <[paymentId := {| value := mapping; ttl := expiry |}]> db
  | None => db
  end.

Definition deletePaymentMapping (paymentId : string) (db : Payments) : Payments :=
  delete paymentId db.

Definition saveShop (domain : string) (data : ShopData) (db : Shops) : Shops :=
  <[domain := data]> db.

Definition getShop (domain : string) (db : Shops) : option ShopData :=
  db !! domain.

Definition deleteShop (domain : string) (db : Shops) : Shops :=
  delete domain db.

(** [exists === 1]. *)
Definition hasShop (domain : string) (db : Shops) : bool :=
  match db !! domain with
  | Some _ => true
  | None => false
  end.

(** Find payment mapping by Shopify order ID.  [keys] are the keys under
    [shopify:payment:] that the SCAN loop yields, in the order it yields
    them; a key that has gone by the time it is read is skipped. *)
Fixpoint findPaymentByOrderId (keys : list string) (shop : string) (orderId : Z)
    (db : Payments) : option PaymentMapping :=
  match keys with
  | [] => None
  | key :: rest =>
      match db !! key with
      | Some raw =>
          let mapping := value raw in
          if String.eqb (shopDomain mapping) shop && (shopifyOrderId mapping =? orderId)
          then Some mapping
          else findPaymentByOrderId rest shop orderId db
      | None => findPaymentByOrderId rest shop orderId db
      end
  end.

End Store.

(* ===================================================================== *)
(** * src/middleware/verify-payzcore.ts *)
(* ===================================================================== *)

Module VerifyPayzCore.

(** What the middleware reads of the request: the two headers and the
    raw body attached by the route ([None] is [undefined]). *)
Record Request := {
  signature : option string;
  timestamp : option string;
  rawBody : option string
}.

(** [next()] or [res.status(code).json({ error })]. *)
Inductive Outcome :=
| Next
| Reject (code : Z) (error : string).

(** [/^[a-f0-9]{64}$/i.test(s)]. *)
Definition is_hex64 (s : string) : bool :=
  (Js.len s =? 64) && Js.all_chars Js.is_hex s.

(** [timingSafeEqual(a, b)]: throws ([None]) on buffers of different
    lengths, else tells whether the bytes agree. *)
Definition timingSafeEqual (a b : list Z) : option bool :=
  if Nat.eqb (List.length a) (List.length b)
  then Some (forallb (fun p => fst p =? snd p) (combine a b))
  else None.

Section Middleware.

(** [new Date(_).getTime()] of the engine. *)
Variable Date_getTime : string -> option Z.
(** [config.payzcore.webhookSecret]. *)
Variable webhookSecret : string.
(** [Date.now()]. *)
Variable now : Z.

Definition verifyPayzCoreWebhook (req : Request) : Outcome :=
  match signature req with
  | None => Reject 401 "Missing signature header"
  | Some sig =>
  if negb (Js.truthy sig) then Reject 401 "Missing signature header" else
  match timestamp req with
  | None => Reject 401 "Missing timestamp header"
  | Some stamp =>
  if negb (Js.truthy stamp) then Reject 401 "Missing timestamp header" else
  (* Replay protection: reject stale webhooks (+-5 min) *)
  match Date_getTime stamp with
  | None => Reject 401 "Timestamp validation failed"
  | Some ts =>
  if Z.abs (now - ts) >? 5 * 60 * 1000
  then Reject 401 "Timestamp validation failed" else
  match rawBody req with
  | None => Reject 400 "Missing request body"
  | Some body =>
  (* Signature covers timestamp + body *)
  let message := stamp +:+ "." +:+ body in
  let expected := Crypto.hmac_hex webhookSecret message in
  if negb (is_hex64 sig) then Reject 401 "Invalid signature" else
  match timingSafeEqual (Crypto.unhex sig) (Crypto.unhex expected) with
  | Some true => Next
  | Some false => Reject 401 "Invalid signature"
  | None => Reject 401 "Invalid signature"
  end
  end
  end
  end
  end.

End Middleware.

End VerifyPayzCore.

(* ===================================================================== *)
(** * src/services/shopify.ts: the wire types *)
(* ===================================================================== *)

Module Shopify.

Record ShopifyOrder := {
  id : Z;
  name : string;
  email : string;
  financial_status : string;
  total_price : string;
  currency : string;
  created_at : string;
  cancelled_at : option string;
  note : option string;
  tags : string
}.

(** The [transaction] object posted by [markOrderAsPaid]. *)
Record Capture := {
  tx_kind : string;
  tx_status : string;
  tx_amount : string;
  tx_currency : string;
  tx_gateway : string;
  tx_source : string;
  tx_message : string
}.

(** The Admin API requests the client issues, by method and path. *)
Inductive Call :=
| GetOrder (orderId : Z)                      (* GET  /orders/:id.json *)
| PostTransaction (orderId : Z) (t : Capture) (* POST /orders/:id/transactions.json *)
| PutNote (orderId : Z) (note : string)       (* PUT  /orders/:id.json { note } *)
| PutTags (orderId : Z) (tags : string)       (* PUT  /orders/:id.json { tags } *)
| PostCancel (orderId : Z) (reason : string). (* POST /orders/:id/cancel.json *)

(** A request as it leaves the process: host, access token, call. *)
Record Request := {
  host : string;
  access_token : string;
  call : Call
}.

(** What [request] sees: [Failure] stands for a rejected [fetch], a
    response that is not [ok] and a body that is not JSON, which all
    make [request] throw; [OrderJson] is a body with an [order];
    [Json] any other JSON body. *)
Inductive Reply :=
| Failure (message : string)
| OrderJson (order : ShopifyOrder)
| Json.

End Shopify.

(* ===================================================================== *)
(** * The process: its stores, the outside world, and async code *)
(* ===================================================================== *)

Module Proc.

(** Everything a request handler can read or change: the two Redis key
    spaces, the state of the commerce system behind the Admin API and
    the requests sent to it, and the requests sent to the monitoring
    service. *)
Record Env (W : Type) := mkEnv {
  payments : Store.Payments;
  shops : Store.Shops;
  world : W;
  calls : list Shopify.Request;
  upstream : list PayzCore.Call
}.
Arguments mkEnv {W}.
Arguments payments {W}.
Arguments shops {W}.
Arguments world {W}.
Arguments calls {W}.
Arguments upstream {W}.

(** An [async] function: it runs on the environment and either returns
    a value or throws. *)
Inductive Result (A : Type) :=
| Val (a : A)
| Exn (message : string).
Arguments Val {A}.
Arguments Exn {A}.

Definition M (W A : Type) : Type := Env W -> Env W * Result A.

Definition ret {W A} (a : A) : M W A := fun env => (env, Val a).

Definition throw {W A} (message : string) : M W A := fun env => (env, Exn message).

Definition bind {W A B} (m : M W A) (k : A -> M W B) : M W B :=
  fun env =>
    match m env with
    | (env', Val a) => k a env'
    | (env', Exn e) => (env', Exn e)
    end.

(** [try { m } catch (e) { h e }]. *)
Definition try_catch {W A} (m : M W A) (h : string -> M W A) : M W A :=
  fun env =>
    match m env with
    | (env', Val a) => (env', Val a)
    | (env', Exn e) => h e env'
    end.

Definition with_payments {W} (f : Store.Payments -> Store.Payments) : M W unit :=
  fun env =>
    (mkEnv (f (payments env)) (shops env) (world env) (calls env) (upstream env),
     Val tt).

Definition read {W A} (f : Env W -> A) : M W A := fun env => (env, Val (f env)).

Definition run {W A} (m : M W A) (env : Env W) : Env W := fst (m env).

Definition result {W A} (m : M W A) (env : Env W) : Result A := snd (m env).

End Proc.

Notation "'let*' x ':=' m 'in' k" := (Proc.bind m (fun x => k))
  (at level 10, x name, m at level 100, k at level 200).
Notation "m ';;' k" := (Proc.bind m (fun _ => k))
  (at level 100, k at level 200, right associativity).

(* ===================================================================== *)
(** * src/services/shopify.ts: class ShopifyClient *)
(* ===================================================================== *)

Module ShopifyClient.
Import Shopify Proc.

Record Client := {
  shopDomain : string;
  accessToken : string
}.

Section Methods.
Context {W : Type}.
(** The commerce system: how it answers a request and moves on. *)
Variable serve : W -> Request -> W * Reply.
Variable this : Client.

(** [request]: send, record, throw unless the response is ok JSON. *)
Definition request (c : Call) : M W Reply :=
  fun env =>
    let rq := {| host := shopDomain this;
                 access_token := accessToken this;
                 call := c |} in
    let (w', reply) := serve (world env) rq in
    let env' := mkEnv (payments env) (shops env) w'
                      (calls env ++ [rq]) (upstream env) in
    match reply with
    | Failure e => (env', Exn ("Shopify API error: " +:+ e))
    | _ => (env', Val reply)
    end.

Definition getOrder (orderId : Z) : M W ShopifyOrder :=
  let* data := request (GetOrder orderId) in
  match data with
  | OrderJson order => ret order
  | _ => throw "TypeError: order is undefined"
  end.

Definition markOrderAsPaid (orderId : Z)
    (amount currency : string) (txHash : option string)
    (network token payzCorePaymentId : string) : M W unit :=
  let tokenLabel := Js.or_else token "USDT" in
  request (PostTransaction orderId
    {| tx_kind := "capture";
       tx_status := "success";
       tx_amount := amount;
       tx_currency := currency;
       tx_gateway := "PayzCore " +:+ tokenLabel;
       tx_source := "external";
       tx_message :=
         tokenLabel +:+ " received on " +:+ network +:+
         ". PayzCore ID: " +:+ payzCorePaymentId +:+
         match txHash with
         | Some h => if Js.truthy h then ". TX: " +:+ h else ""
         | None => ""
         end |}) ;;
  ret tt.

Definition addOrderNote (orderId : Z) (note : string) : M W unit :=
  request (PutNote orderId note) ;; ret tt.

Definition addOrderTags (orderId : Z) (tags : string) : M W unit :=
  (* Get current tags first *)
  let* order := getOrder orderId in
  let currentTags :=
    if Js.truthy (Shopify.tags order) then Js.split_comma (Shopify.tags order)
    else [] in
  let newTags := Js.split_comma tags in
  (* Merge without duplicates *)
  let mergedTags := Js.dedup (currentTags ++ newTags) in
  request (PutTags orderId (Js.join ", " mergedTags)) ;; ret tt.

Definition cancelOrder (orderId : Z) (reason : string) : M W unit :=
  request (PostCancel orderId reason) ;; ret tt.

End Methods.

End ShopifyClient.

(* ===================================================================== *)
(** * The PayzCore webhook handler (POST /webhooks/payzcore) *)
(* ===================================================================== *)

Module Webhooks.
Import Proc.

(** [interface WebhookPayload], without [metadata], which the handlers
    do not read. *)
Record WebhookPayload := {
  event : string;
  payment_id : string;
  external_ref : string;
  external_order_id : option string;
  network : string;
  address : string;
  expected_amount : string;
  paid_amount : string;
  tx_hash : option string;
  status : string;
  paid_at : option string;
  timestamp : string
}.

(** [res.status(code).json({ received, processed, reason })]. *)
Record Response := {
  code : Z;
  received : bool;
  processed : bool;
  reason : option string
}.

Definition nl : string := String (ascii_of_nat 10) EmptyString.

(** [lines.filter(Boolean).join('\n')]. *)
Definition join_lines (lines : list (option string)) : string :=
  Js.join nl (omap (fun l => match l with
                             | Some x => if Js.truthy x then Some x else None
                             | None => None
                             end) lines).

(** [o || d] for a nullable string. *)
Definition opt_or (o : option string) (d : string) : string :=
  match o with
  | Some x => Js.or_else x d
  | None => d
  end.

(** A nullable string as a condition. *)
Definition opt_truthy (o : option string) : bool :=
  match o with
  | Some x => Js.truthy x
  | None => false
  end.

Section Handlers.
Context {W : Type}.
Variable serve : W -> Shopify.Request -> W * Shopify.Reply.

Definition success_note (payload : WebhookPayload) (tokenLabel : string) : string :=
  (* Build explorer URL dynamically from network *)
  let explorerBase := PayzCore.NETWORK_EXPLORER_TX (network payload) in
  let explorerUrl (txHash : string) :=
    if opt_truthy explorerBase
    then opt_or explorerBase "" +:+ txHash
    else txHash in
  join_lines
    [ Some "Crypto payment received";
      Some ("Amount: " +:+ paid_amount payload +:+ " " +:+ tokenLabel +:+
            " (" +:+ network payload +:+ ")");
      Some ("Address: " +:+ address payload);
      match tx_hash payload with
      | Some txHash =>
          if Js.truthy txHash then Some ("TX: " +:+ explorerUrl txHash) else None
      | None => None
      end;
      Some ("Payment ID: " +:+ payment_id payload);
      Some ("Detected at: " +:+ opt_or (paid_at payload) (timestamp payload));
      (if String.eqb (event payload) "payment.overpaid"
       then Some ("Note: Customer overpaid (expected " +:+
                  expected_amount payload +:+ " " +:+ tokenLabel +:+ ")")
       else None) ].

(** Handle payment.completed / payment.overpaid events.  (The four
    handlers start with [if (!mapping) return]; the route calls them with
    the mapping it found, so the mapping is a value here.) *)
Definition handlePaymentSuccess (shopify : ShopifyClient.Client)
    (mapping : Store.PaymentMapping) (payload : WebhookPayload) : M W unit :=
  (* Resolve token from mapping or fallback to USDT *)
  let tokenLabel := Js.or_else (Store.token mapping) "USDT" in
  (* Check order status first to avoid duplicate transactions *)
  let* already :=
    try_catch
      (let* order := ShopifyClient.getOrder serve shopify
                       (Store.shopifyOrderId mapping) in
       ret (String.eqb (Shopify.financial_status order) "paid"))
      (fun _ => (* Could not check order status, proceeding *) ret false) in
  if already then ret tt else
  (* Mark order as paid in Shopify *)
  ShopifyClient.markOrderAsPaid serve shopify (Store.shopifyOrderId mapping)
    (Js.or_else (paid_amount payload) (Store.amount mapping))
    (Store.currency mapping)
    (tx_hash payload)
    (network payload)
    tokenLabel
    (payment_id payload) ;;
  ShopifyClient.addOrderNote serve shopify (Store.shopifyOrderId mapping)
    (success_note payload tokenLabel) ;;
  (* Tag order with token name (lowercase) *)
  let tokenTag := Js.toLowerCase tokenLabel in
  let tags :=
    if String.eqb (event payload) "payment.overpaid"
    then "crypto-paid, payzcore, " +:+ tokenTag +:+ ", overpaid"
    else "crypto-paid, payzcore, " +:+ tokenTag in
  ShopifyClient.addOrderTags serve shopify (Store.shopifyOrderId mapping) tags.

(** Handle payment.expired events. *)
Definition handlePaymentExpired (shopify : ShopifyClient.Client)
    (mapping : Store.PaymentMapping) (payload : WebhookPayload) : M W unit :=
  try_catch
    ((* Check if order is already cancelled or paid *)
     let* order := ShopifyClient.getOrder serve shopify
                     (Store.shopifyOrderId mapping) in
     if opt_truthy (Shopify.cancelled_at order)
        || String.eqb (Shopify.financial_status order) "paid"
     then ret tt
     else
       (* Cancel the order *)
       let expiredToken := Js.or_else (Store.token mapping) "USDT" in
       ShopifyClient.cancelOrder serve shopify (Store.shopifyOrderId mapping)
         ("Crypto payment expired. The customer did not send " +:+
          expiredToken +:+ " within the payment window. Payment ID: " +:+
          payment_id payload) ;;
       ShopifyClient.addOrderTags serve shopify (Store.shopifyOrderId mapping)
         "crypto-expired, payzcore")
    (fun _ =>
       (* Order might already be cancelled or in an unfulfillable state *)
       ret tt).

(** Handle payment.cancelled events. *)
Definition handlePaymentCancelled (shopify : ShopifyClient.Client)
    (mapping : Store.PaymentMapping) (payload : WebhookPayload) : M W unit :=
  try_catch
    (let* order := ShopifyClient.getOrder serve shopify
                     (Store.shopifyOrderId mapping) in
     if opt_truthy (Shopify.cancelled_at order)
        || String.eqb (Shopify.financial_status order) "paid"
     then ret tt
     else
       ShopifyClient.cancelOrder serve shopify (Store.shopifyOrderId mapping)
         ("Crypto payment cancelled by the merchant. Payment ID: " +:+
          payment_id payload) ;;
       ShopifyClient.addOrderTags serve shopify (Store.shopifyOrderId mapping)
         "crypto-cancelled, payzcore")
    (fun _ => (* Could not cancel order *) ret tt).

Definition partial_note (payload : WebhookPayload) (tokenLabel : string) : string :=
  let explorerBase := PayzCore.NETWORK_EXPLORER_TX (network payload) in
  let txLink :=
    if opt_truthy explorerBase && opt_truthy (tx_hash payload)
    then Some (opt_or explorerBase "" +:+ opt_or (tx_hash payload) "")
    else tx_hash payload in
  join_lines
    [ Some "Partial crypto payment detected";
      Some ("Received: " +:+ paid_amount payload +:+ " " +:+ tokenLabel +:+
            " (expected: " +:+ expected_amount payload +:+ " " +:+
            tokenLabel +:+ ")");
      Some ("Network: " +:+ network payload);
      Some ("Address: " +:+ address payload);
      (if opt_truthy txLink then Some ("TX: " +:+ opt_or txLink "") else None);
      Some ("Payment ID: " +:+ payment_id payload);
      Some "The payment window is still active. Customer may send the remaining amount." ].

(** Handle payment.partial events. *)
Definition handlePaymentPartial (shopify : ShopifyClient.Client)
    (mapping : Store.PaymentMapping) (payload : WebhookPayload) : M W unit :=
  let tokenLabel := Js.or_else (Store.token mapping) "USDT" in
  let note := partial_note payload tokenLabel in
  try_catch
    (ShopifyClient.addOrderNote serve shopify (Store.shopifyOrderId mapping) note ;;
     ShopifyClient.addOrderTags serve shopify (Store.shopifyOrderId mapping)
       "crypto-partial, payzcore")
    (fun _ => (* Could not update order for partial *) ret tt).

(** [switch (payload.event)]. *)
Definition dispatch (shopify : ShopifyClient.Client)
    (mapping : Store.PaymentMapping) (payload : WebhookPayload) : M W unit :=
  if String.eqb (event payload) "payment.completed"
     || String.eqb (event payload) "payment.overpaid"
  then handlePaymentSuccess shopify mapping payload
  else if String.eqb (event payload) "payment.expired"
  then handlePaymentExpired shopify mapping payload
  else if String.eqb (event payload) "payment.cancelled"
  then handlePaymentCancelled shopify mapping payload
  else if String.eqb (event payload) "payment.partial"
  then handlePaymentPartial shopify mapping payload
  else (* Unknown event *) ret tt.

(** The handler behind the signature check: the body of
    [router.post('/payzcore', ...)]. *)
Definition payzcore (payload : WebhookPayload) : M W Response :=
  (* Look up the payment mapping *)
  let* mapping := read (fun env =>
                    Store.getPaymentMapping (payment_id payload) (payments env)) in
  match mapping with
  | None =>
      (* Acknowledge receipt to prevent retries *)
      ret {| code := 200; received := true; processed := false;
             reason := Some "no_mapping" |}
  | Some mapping =>
      (* Update local status *)
      with_payments (Store.updatePaymentMappingStatus
                       (payment_id payload) (status payload)) ;;
      (* Get shop access token *)
      let* shopData := read (fun env =>
                         Store.getShop (Store.shopDomain mapping) (shops env)) in
      match shopData with
      | None =>
          ret {| code := 200; received := true; processed := false;
                 reason := Some "shop_not_found" |}
      | Some shopData =>
          let shopify :=
            {| ShopifyClient.shopDomain := Store.shopDomain mapping;
               ShopifyClient.accessToken := Store.accessToken shopData |} in
          try_catch
            (dispatch shopify mapping payload ;;
             ret {| code := 200; received := true; processed := true;
                    reason := None |})
            (fun _ =>
               (* Return 500 so PayzCore retries the webhook *)
               ret {| code := 500; received := true; processed := false;
                      reason := Some "processing_error" |})
      end
  end.

(** Deliveries processed one after another. *)
Fixpoint deliver (payloads : list WebhookPayload) (env : Env W) : Env W :=
  match payloads with
  | [] => env
  | p :: rest => deliver rest (run (payzcore p) env)
  end.

End Handlers.

End Webhooks.

(* ===================================================================== *)
(** * src/routes/payment.ts: status poll and tx-hash confirmation *)
(* ===================================================================== *)

Module Payment.
Import Proc.

(** The JSON of [GET /payment/:paymentId/status]. *)
Record StatusJson := {
  status : string;
  paid_amount : string;
  expected_amount : string;
  tx_hash : option string;
  transactions : list PayzCore.Transaction;
  is_terminal : bool;
  is_paid : bool
}.

(** What the two routes send: a status code with the status document,
    with the monitoring service's confirm result, or with
    [{ error }]. *)
Inductive Response :=
| SendStatus (code : Z) (body : StatusJson)
| SendConfirm (code : Z) (success : bool)
| SendError (code : Z) (error : string).

Definition code_of (r : Response) : Z :=
  match r with
  | SendStatus c _ => c
  | SendConfirm c _ => c
  | SendError c _ => c
  end.

(** [req.body?.tx_hash], a JSON value of any kind. *)
Inductive JsonValue :=
| JUndefined
| JNull
| JBool (b : bool)
| JNumber (n : Z)
| JString (s : string)
| JObject.

(** [['paid', 'overpaid', 'expired', 'cancelled'].includes(s)]. *)
Definition terminal (s : string) : bool :=
  existsb (String.eqb s) ["paid"; "overpaid"; "expired"; "cancelled"].

(** [/^[a-fA-F0-9]{10,128}$/.test(s)]. *)
Definition is_tx_hash (s : string) : bool :=
  (10 <=? Js.len s) && (Js.len s <=? 128) && Js.all_chars Js.is_hex s.

Section Routes.
Context {W : Type}.
(** The monitoring service behind [PayzCoreClient]. *)
Variable api : PayzCore.Api.

(** [payzcore.getPayment(paymentId)]. *)
Definition getPayment (paymentId : string) : M W PayzCore.Payment :=
  fun env =>
    let env' := mkEnv (payments env) (shops env) (world env) (calls env)
                      (upstream env ++ [PayzCore.GetPayment paymentId]) in
    match PayzCore.getPayment api paymentId with
    | Some payment => (env', Val payment)
    | None => (env', Exn "PayzCore API error")
    end.

(** [payzcore.confirmPayment(confirmEndpoint, txHash)]. *)
Definition confirmPayment (confirmEndpoint txHash : string) : M W bool :=
  fun env =>
    let env' := mkEnv (payments env) (shops env) (world env) (calls env)
                      (upstream env ++
                       [PayzCore.ConfirmPayment confirmEndpoint txHash]) in
    match PayzCore.confirmPayment api confirmEndpoint txHash with
    | Some success => (env', Val success)
    | None => (env', Exn "PayzCore API error")
    end.

(** GET /payment/:paymentId/status *)
Definition get_status (paymentId : string) : M W Response :=
  let* mapping := read (fun env =>
                    Store.getPaymentMapping paymentId (payments env)) in
  match mapping with
  | None => ret (SendError 404 "Payment not found")
  | Some mapping =>
      try_catch
        ((* Query PayzCore for real-time status *)
         let* payment := getPayment paymentId in
         (* Update local mapping *)
         with_payments (Store.updatePaymentMappingStatus paymentId
                          (PayzCore.status payment)) ;;
         let isTerminal := terminal (PayzCore.status payment) in
         let isPaid := String.eqb (PayzCore.status payment) "paid"
                       || String.eqb (PayzCore.status payment) "overpaid" in
         ret (SendStatus 200
                {| status := PayzCore.status payment;
                   paid_amount := PayzCore.paid_amount payment;
                   expected_amount := PayzCore.expected_amount payment;
                   tx_hash := PayzCore.tx_hash payment;
                   transactions := PayzCore.transactions payment;
                   is_terminal := isTerminal;
                   is_paid := isPaid |}))
        (fun _ =>
           (* Return cached status on API failure *)
           ret (SendStatus 200
                  {| status := Store.status mapping;
                     paid_amount := "0";
                     expected_amount := Store.expectedAmount mapping;
                     tx_hash := None;
                     transactions := [];
                     is_terminal := false;
                     is_paid := false |}))
  end.

(** POST /payment/:paymentId/confirm *)
Definition post_confirm (paymentId : string) (body_tx_hash : JsonValue)
    : M W Response :=
  let* mapping := read (fun env =>
                    Store.getPaymentMapping paymentId (payments env)) in
  match mapping with
  | None => ret (SendError 404 "Payment not found")
  | Some mapping =>
      match Store.requiresTxid mapping, Store.confirmEndpoint mapping with
      | Some true, Some confirmEndpoint =>
          if negb (Js.truthy confirmEndpoint)
          then ret (SendError 400
                 "Transaction hash submission is not required for this payment")
          else
          match body_tx_hash with
          | JString txHash =>
              if negb (Js.truthy txHash) || (Js.len (Js.trim txHash) =? 0)
              then ret (SendError 400 "Missing or invalid tx_hash")
              else
                (* Validate tx_hash format (hex string, 10-128 chars) *)
                let cleanTxHash := Js.strip_0x (Js.trim txHash) in
                if negb (is_tx_hash cleanTxHash)
                then ret (SendError 400 "Invalid transaction hash format")
                else
                  try_catch
                    (let* result := confirmPayment confirmEndpoint
                                      (Js.trim txHash) in
                     ret (SendConfirm 200 result))
                    (fun _ =>
                       ret (SendError 500
                         "Failed to submit transaction hash. Please try again."))
          | _ => ret (SendError 400 "Missing or invalid tx_hash")
          end
      | _, _ =>
          ret (SendError 400
                 "Transaction hash submission is not required for this payment")
      end
  end.

End Routes.

End Payment.

(* ===================================================================== *)
(** * src/middleware/verify-shopify.ts *)


Module VerifyShopify.
Import VerifyPayzCore.

(** [req.query] with values that are strings. *)
Abbreviation Query := (gmap string string).

Definition is_label_char (c : ascii) : bool :=
  Js.is_alnum c || Ascii.eqb c "-".

(** [[a-zA-Z0-9-]*\.myshopify\.com$] from the current position: the class
    has no dot, so the star ends at the first character outside it, and
    from there the rest of the input is the suffix. *)
Fixpoint label_then_suffix (s : string) : bool :=
  match s with
  | String c r =>
      if is_label_char c then label_then_suffix r
      else String.eqb s ".myshopify.com"
  | EmptyString => false
  end.

(** Validate that a shop domain looks legitimate:
    [/^[a-zA-Z0-9][a-zA-Z0-9-]*\.myshopify\.com$/.test(shop)]. *)
Definition isValidShopDomain (shop : string) : bool :=
  match shop with
  | String c r => Js.is_alnum c && label_then_suffix r
  | EmptyString => false
  end.

(** Sort parameters alphabetically and create the message. *)
Definition message (query : Query) : string :=
  Js.join "&"
    (map (fun key => key +:+ "=" +:+ default "undefined" (query !! key))
         (Js.sort (map fst (map_to_list query)))).

(** Verify Shopify query string HMAC.  The two lengths compared are those
    of a digest of 64 ASCII digits and of the parameter; where they agree
    the buffers are compared, and a parameter that does not decode to 32
    bytes makes [timingSafeEqual] throw. *)
Definition verifyShopifyQuery (apiSecret : string) (req_query : Query) : Outcome :=
  match req_query !! "hmac" with
  | Some hmac =>
      if negb (Js.truthy hmac) then Reject 401 "Missing HMAC parameter"
      else
        (* Remove hmac from query params before computing signature *)
        let query := delete "hmac" req_query in
        let computed := Crypto.hmac_hex apiSecret (message query) in
        if negb (Js.len computed =? Js.len hmac)
        then Reject 401 "Invalid HMAC signature"
        else
          match timingSafeEqual (Crypto.from_hex computed) (Crypto.from_hex hmac) with
          | Some true => Next
          | Some false => Reject 401 "Invalid HMAC signature"
          | None => Reject 401 "Invalid HMAC signature"
          end
  | None => Reject 401 "Missing HMAC parameter"
  end.

End VerifyShopify.


(** * src/config.ts *)


Module Config.
Import Proc.

Definition VALID_NETWORKS : list string :=
  ["TRC20"; "BEP20"; "ERC20"; "POLYGON"; "ARBITRUM"].

Definition VALID_TOKENS : list string := ["USDT"; "USDC"].

(** Valid network+token combinations. TRC20 supports USDT only. *)
Definition VALID_NETWORK_TOKEN (network : string) : option (list string) :=
  if String.eqb network "TRC20" then Some ["USDT"]
  else if String.eqb network "BEP20" then Some ["USDT"; "USDC"]
  else if String.eqb network "ERC20" then Some ["USDT"; "USDC"]
  else if String.eqb network "POLYGON" then Some ["USDT"; "USDC"]
  else if String.eqb network "ARBITRUM" then Some ["USDT"; "USDC"]
  else None.

(** [defaultNetwork] is read off [enabledNetworks[0]], which is
    [undefined] ([None]) on an empty array; [port] is [NaN] ([None]) when
    [PORT] does not start with a number. *)
Record AppConfig := {
  shopify_apiKey : string;
  shopify_apiSecret : string;
  payzcore_apiKey : string;
  payzcore_webhookSecret : string;
  payzcore_apiUrl : string;
  app_url : string;
  app_port : option Z;
  app_sessionSecret : string;
  app_enabledNetworks : list string;
  app_defaultNetwork : option string;
  app_defaultToken : string
}.

(** [process.env]. *)
Abbreviation Environment := (gmap string string).

Definition and_then {A B : Type} (r : Result A) (k : A -> Result B) : Result B :=
  match r with
  | Val a => k a
  | Exn e => Exn e
  end.

Definition required (env : Environment) (key : string) : Result string :=
  match env !! key with
  | Some value =>
      if Js.truthy value then Val value
      else Exn ("Missing required environment variable: " +:+ key)
  | None => Exn ("Missing required environment variable: " +:+ key)
  end.

(** [process.env.A ?? process.env.B]. *)
Definition first_set (env : Environment) (a b : string) : option string :=
  match env !! a with
  | Some v => Some v
  | None => env !! b
  end.

Definition loadConfig (env : Environment) : Result AppConfig :=
  let network := default "TRC20" (first_set env "DEFAULT_NETWORK" "DEFAULT_CHAIN") in
  if negb (Js.includes VALID_NETWORKS network)
  then Exn ("DEFAULT_NETWORK must be one of: " +:+ Js.join ", " VALID_NETWORKS
            +:+ " (got: " +:+ network +:+ ")")
  else
  let token := default "USDT" (env !! "DEFAULT_TOKEN") in
  if negb (Js.includes VALID_TOKENS token)
  then Exn ("DEFAULT_TOKEN must be one of: " +:+ Js.join ", " VALID_TOKENS
            +:+ " (got: " +:+ token +:+ ")")
  else
  (* Validate network+token combination *)
  if negb (match VALID_NETWORK_TOKEN network with
           | Some validTokensForNetwork => Js.includes validTokensForNetwork token
           | None => false
           end)
  then Exn "USDC is not supported on TRC20. Use USDT or switch to an EVM network."
  else
  let enabledNetworksStr := first_set env "ENABLED_NETWORKS" "ENABLED_CHAINS" in
  and_then
    (match enabledNetworksStr with
     | Some str =>
         if Js.truthy str
         then
           let enabledNetworks :=
             List.filter (Js.includes VALID_NETWORKS)
                         (map Js.trim (Js.split_char "," str)) in
           if Nat.eqb (List.length enabledNetworks) 0
           then Exn ("ENABLED_NETWORKS must contain at least one valid network: "
                     +:+ Js.join ", " VALID_NETWORKS)
           else Val enabledNetworks
         else Val [network]
     | None => Val [network]
     end)
    (fun enabledNetworks =>
  and_then (required env "SHOPIFY_API_KEY") (fun apiKey =>
  and_then (required env "SHOPIFY_API_SECRET") (fun apiSecret =>
  and_then (required env "PAYZCORE_API_KEY") (fun payzcoreKey =>
  and_then (required env "PAYZCORE_WEBHOOK_SECRET") (fun webhookSecret =>
  and_then (required env "APP_URL") (fun url =>
  and_then (and_then (required env "SESSION_SECRET") (fun s =>
              if Js.len s <? 32
              then Exn "SESSION_SECRET must be at least 32 characters long"
              else Val s)) (fun sessionSecret =>
  Val {| shopify_apiKey := apiKey;
         shopify_apiSecret := apiSecret;
         payzcore_apiKey := payzcoreKey;
         payzcore_webhookSecret := webhookSecret;
         payzcore_apiUrl :=
           Js.strip_trailing_slashes
             (default "https://api.payzcore.com" (env !! "PAYZCORE_API_URL"));
         app_url := Js.strip_trailing_slashes url;
         app_port := Js.parseInt10 (default "3001" (env !! "PORT"));
         app_sessionSecret := sessionSecret;
         app_enabledNetworks := enabledNetworks;
         (* first enabled network is the default *)
         app_defaultNetwork := head enabledNetworks;
         app_defaultToken := token |}))))))).

(** What the request for [/v1/config] comes to: a failure of the fetch or
    of the JSON parser, a status that is not ok, or a document, in which
    [networks] may be absent and an element may lack its [network]. *)
Inductive ConfigReply :=
| FetchThrows
| NotOk (status : Z)
| Data (networks : option (list (option string))) (default_token : option string).

Definition set_networks (config : AppConfig) (networks : list string) : AppConfig :=
  {| shopify_apiKey := shopify_apiKey config;
     shopify_apiSecret := shopify_apiSecret config;
     payzcore_apiKey := payzcore_apiKey config;
     payzcore_webhookSecret := payzcore_webhookSecret config;
     payzcore_apiUrl := payzcore_apiUrl config;
     app_url := app_url config;
     app_port := app_port config;
     app_sessionSecret := app_sessionSecret config;
     app_enabledNetworks := networks;
     app_defaultNetwork := head networks;
     app_defaultToken := app_defaultToken config |}.

Definition set_defaultToken (config : AppConfig) (token : string) : AppConfig :=
  {| shopify_apiKey := shopify_apiKey config;
     shopify_apiSecret := shopify_apiSecret config;
     payzcore_apiKey := payzcore_apiKey config;
     payzcore_webhookSecret := payzcore_webhookSecret config;
     payzcore_apiUrl := payzcore_apiUrl config;
     app_url := app_url config;
     app_port := app_port config;
     app_sessionSecret := app_sessionSecret config;
     app_enabledNetworks := app_enabledNetworks config;
     app_defaultNetwork := app_defaultNetwork config;
     app_defaultToken := token |}.

Definition is_set (env : Environment) (key : string) : bool :=
  match env !! key with
  | Some v => Js.truthy v
  | None => false
  end.

(** Fetch available networks/tokens from PayzCore API config endpoint;
    the result is the config object after the call. *)
Definition fetchConfigFromApi (env : Environment) (reply : ConfigReply)
    (config : AppConfig) : AppConfig :=
  (* Skip if ENABLED_NETWORKS is explicitly set via env *)
  if is_set env "ENABLED_NETWORKS" || is_set env "ENABLED_CHAINS" then config
  else
    match reply with
    | FetchThrows => config
    | NotOk _ => config
    | Data data_networks default_token =>
        let config1 :=
          match data_networks with
          | Some (c :: cs) =>
              let networks :=
                List.filter (Js.includes VALID_NETWORKS)
                            (omap (fun c => c) (c :: cs)) in
              if 0 <? Z.of_nat (List.length networks)
              then set_networks config networks
              else config
          | _ => config
          end in
        match default_token with
        | Some t =>
            if Js.truthy t && Js.includes VALID_TOKENS t
            then set_defaultToken config1 t
            else config1
        | None => config1
        end
    end.

End Config.


(** * src/routes/auth.ts: the OAuth routes *)


Module Auth.
Import Config.

(** Scopes needed: read/write orders to mark them as paid. *)
Definition SCOPES : string := "read_orders,write_orders".

(** A property of the session object. *)
Inductive Field :=
| Undefined
| Null
| Str (s : string).

(** [req.session], with the properties the routes use. *)
Record Session := {
  shopifyNonce : Field;
  shopDomain : Field;
  returnUrl : Field
}.

Inductive Response :=
| Send (code : Z) (body : string)
| Redirect (url : string)
| JsonError (code : Z) (error : string)
| JsonStatus (shop : string) (installed : bool).

(** [!shop || !isValidShopDomain(shop)]. *)
Definition bad_shop (shop : option string) : bool :=
  match shop with
  | Some s => negb (Js.truthy s) || negb (VerifyShopify.isValidShopDomain s)
  | None => true
  end.

(** Generate a nonce for CSRF protection. *)
Definition nonce_of (config : AppConfig) (shop : string) (now : Z) : string :=
  Js.take 32 (Crypto.hmac_hex (shopify_apiSecret config)
                              (shop +:+ ":" +:+ Js.string_of_Z now)).

(** GET /auth/install; [now] is [Date.now()]. *)
Definition install (config : AppConfig) (now : Z) (query_shop : option string)
    (session : option Session) : option Session * Response :=
  match query_shop with
  | Some shop =>
      if bad_shop (Some shop)
      then (session, Send 400
        "Missing or invalid shop parameter. Expected: store-name.myshopify.com")
      else
        let nonce := nonce_of config shop now in
        (* Store nonce in session for validation in callback *)
        let session' :=
          match session with
          | Some s => Some {| shopifyNonce := Str nonce;
                              shopDomain := Str shop;
                              returnUrl := returnUrl s |}
          | None => None
          end in
        let redirectUri := app_url config +:+ "/auth/callback" in
        let installUrl :=
          "https://" +:+ shop +:+ "/admin/oauth/authorize" +:+
          "?client_id=" +:+ shopify_apiKey config +:+
          "&scope=" +:+ SCOPES +:+
          "&redirect_uri=" +:+ Js.encodeURIComponent redirectUri +:+
          "&state=" +:+ nonce in
        (session', Redirect installUrl)
  | None => (session, Send 400
      "Missing or invalid shop parameter. Expected: store-name.myshopify.com")
  end.

(** What the token endpoint of the shop comes to. *)
Inductive TokenResponse :=
| ExchangeThrows
| ExchangeNotOk
| Token (access_token scope : string).

(** [state !== req.session.shopifyNonce]. *)
Definition state_differs (state : option string) (nonce : Field) : bool :=
  match state, nonce with
  | None, Undefined => false
  | Some s, Str n => negb (String.eqb s n)
  | _, _ => true
  end.

Section Callback.
(** The token endpoint, given the shop and the code; [nowIso] is
    [new Date().toISOString()]. *)
Variable exchange : string -> string -> TokenResponse.
Variable nowIso : string.
Variable config : AppConfig.

(** GET /auth/callback, behind [verifyShopifyQuery]; the shop store is
    taken to be in reach. *)
Definition callback (query : VerifyShopify.Query) (session : option Session)
    (shops : Store.Shops) : Store.Shops * option Session * Response :=
  match VerifyShopify.verifyShopifyQuery (shopify_apiSecret config) query with
  | VerifyPayzCore.Reject code error => (shops, session, JsonError code error)
  | VerifyPayzCore.Next =>
      let state := query !! "state" in
      match query !! "shop" with
      | Some shop =>
          if bad_shop (Some shop)
          then (shops, session, Send 400 "Invalid shop domain")
          else
          match query !! "code" with
          | Some code =>
              if negb (Js.truthy code)
              then (shops, session, Send 400 "Missing authorization code")
              else
              (* Verify nonce matches (CSRF protection) *)
              if match session with
                 | Some s => state_differs state (shopifyNonce s)
                 | None => false
                 end
              then (shops, session,
                    Send 403 "State parameter mismatch. Possible CSRF attack.")
              else
              (* Exchange code for permanent access token *)
              match exchange shop code with
              | ExchangeThrows =>
                  (shops, session, Send 500 "Installation failed. Please try again.")
              | ExchangeNotOk =>
                  (shops, session,
                   Send 500 "Failed to exchange authorization code. Please try again.")
              | Token access_token scope =>
                  (* Store shop credentials *)
                  let shops' :=
                    Store.saveShop shop
                      {| Store.accessToken := access_token;
                         Store.scope := scope;
                         Store.installedAt := nowIso |} shops in
                  (* Clear session nonce *)
                  let session' :=
                    match session with
                    | Some s => Some {| shopifyNonce := Null;
                                        shopDomain := Null;
                                        returnUrl := returnUrl s |}
                    | None => None
                    end in
                  (shops', session', Redirect ("https://" +:+ shop +:+ "/admin/apps"))
              end
          | None => (shops, session, Send 400 "Missing authorization code")
          end
      | None => (shops, session, Send 400 "Invalid shop domain")
      end
  end.

End Callback.

(** GET /auth/status *)
Definition status (query_shop : option string) (shops : Store.Shops) : Response :=
  match query_shop with
  | Some shop =>
      if bad_shop (Some shop) then JsonError 400 "Invalid shop domain"
      else
        (* Do not expose the access token, just confirm installation status *)
        JsonStatus shop (Store.hasShop shop shops)
  | None => JsonError 400 "Invalid shop domain"
  end.

End Auth.


(** * src/routes/payment.ts: GET /payment/create, up to the amount *)


Module PaymentCreate.
Import Config.

(** The query parameters of the route. *)
Record Query := {
  shop : option string;
  order_id : option string;
  order_name : option string;
  amount : option string;
  currency : option string;
  email : option string;
  network : option string;
  token : option string;
  address : option string;
  return_url : option string
}.

(** Human-readable network labels with fee hints for the network selector. *)
Definition NETWORK_SELECTOR_LABELS (network : string) : option string :=
  if String.eqb network "TRC20" then Some "TRON (TRC20)"
  else if String.eqb network "BEP20" then Some "BNB Smart Chain (BEP20) - Low fees"
  else if String.eqb network "ERC20" then Some "Ethereum (ERC20)"
  else if String.eqb network "POLYGON" then Some "Polygon - Lowest fees"
  else if String.eqb network "ARBITRUM" then Some "Arbitrum (L2) - Low fees"
  else None.

Record NetworkOption := {
  code : string;
  label : string;
  tokens : option (list string)
}.

(** Where the first part of the route ends: an error page, the network
    selector, an exception of [isValidNetworkToken], or the resolved
    network and token with which the route goes on to the amount. *)
Inductive Stage :=
| RenderError (status : Z) (title message : string)
| RenderNetworkSelect (enabledNetworks : list NetworkOption)
    (defaultToken orderName : string) (amount : option string)
    (currency : string) (forwardParams : list (string * string))
| Throws
| Resolved (shopData : Store.ShopData) (paymentNetwork paymentToken : string).

Definition given (o : option string) : bool :=
  match o with
  | Some s => Js.truthy s
  | None => false
  end.

(** [o || d] for a parameter that may be absent. *)
Definition or_default (o : option string) (d : string) : string :=
  match o with
  | Some s => if Js.truthy s then s else d
  | None => d
  end.

(** [if (v) forwardParams.key = v]. *)
Definition forward (key : string) (v : option string) : list (string * string) :=
  match v with
  | Some s => if Js.truthy s then [(key, s)] else []
  | None => []
  end.

Definition label_of (c : string) : string :=
  or_default (NETWORK_SELECTOR_LABELS c) (or_default (PayzCore.NETWORK_LABELS c) c).

Definition create_resolve (config : AppConfig) (shops : Store.Shops) (q : Query)
    : Stage :=
  (* Validate required parameters *)
  match shop q with
  | None => RenderError 400 "Invalid Request" "Invalid or missing shop domain."
  | Some shop_ =>
  if Auth.bad_shop (Some shop_)
  then RenderError 400 "Invalid Request" "Invalid or missing shop domain."
  else
  if negb (given (order_id q)) || negb (given (amount q))
  then RenderError 400 "Invalid Request" "Missing order ID or amount."
  else
  match Store.getShop shop_ shops with
  | None =>
      RenderError 403 "App Not Installed"
        "This shop has not installed the PayzCore app. Please install it from the Shopify App Store."
  | Some shopData =>
  (* Multi-network selection *)
  let showNetworkSelector := 1 <? Z.of_nat (List.length (app_enabledNetworks config)) in
  let networkSpecified :=
    match network q with
    | Some n => Js.truthy n && PayzCore.isValidNetwork n
    | None => false
    end in
  if showNetworkSelector && negb networkSpecified
  then
    RenderNetworkSelect
      (map (fun c => {| code := c;
                        label := label_of c;
                        tokens := PayzCore.VALID_NETWORK_TOKEN c |})
           (app_enabledNetworks config))
      (app_defaultToken config)
      (or_default (order_name q) ("#" +:+ default "" (order_id q)))
      (amount q)
      (or_default (currency q) "USD")
      (forward "shop" (shop q) ++ forward "order_id" (order_id q)
       ++ forward "order_name" (order_name q) ++ forward "amount" (amount q)
       ++ forward "currency" (currency q) ++ forward "email" (email q)
       ++ forward "address" (address q) ++ forward "return_url" (return_url q))
  else
  (* Resolve network: use query param if valid, otherwise fall back to config default *)
  let paymentNetwork : option string :=
    if networkSpecified then network q else app_defaultNetwork config in
  (* Resolve token: use query param if valid, otherwise fall back to config default *)
  let paymentToken : string :=
    match token q with
    | Some t => if Js.truthy t && PayzCore.isValidToken t then t
                else app_defaultToken config
    | None => app_defaultToken config
    end in
  (* Validate selected network is in the enabled list *)
  match paymentNetwork with
  | None =>
      RenderError 400 "Invalid Network"
        ("undefined is not enabled. Available networks: "
         +:+ Js.join ", " (app_enabledNetworks config))
  | Some paymentNetwork =>
  if negb (Js.includes (app_enabledNetworks config) paymentNetwork)
  then RenderError 400 "Invalid Network"
         (paymentNetwork +:+ " is not enabled. Available networks: "
          +:+ Js.join ", " (app_enabledNetworks config))
  else
  (* Validate network+token combination (e.g. TRC20 only supports USDT) *)
  match PayzCore.isValidNetworkToken paymentNetwork paymentToken with
  | None => Throws
  | Some false =>
      RenderError 400 "Invalid Configuration"
        (paymentToken +:+ " is not supported on " +:+ paymentNetwork +:+ ".")
  | Some true => Resolved shopData paymentNetwork paymentToken
  end
  end
  end
  end.

End PaymentCreate.


(** * public/js/payment.js: the check of a transaction hash in the page *)


Module PaymentPage.

(** [hash.replace(/^0x/i, '')]. *)
Definition strip_0x_i (s : string) : string :=
  match s with
  | String a (String b r) =>
      if Ascii.eqb a "0" && (Ascii.eqb b "x" || Ascii.eqb b "X") then r else s
  | _ => s
  end.

(** Strip optional 0x prefix then check hex format, 10-128 chars. *)
Definition isValidTxHash (hash : string) : bool :=
  let clean := strip_0x_i hash in
  Payment.is_tx_hash clean.

End PaymentPage.


(** * A commerce system to run the handlers against *)
(* ===================================================================== *)

(** One shop with one order, and a schedule of outages: each request
    consumes one entry of [faults], and fails when the entry is [true].
    A capture that goes through settles the order ([financial_status]
    becomes [paid]); a cancel stamps [cancelled_at]; the two PUTs replace
    the note and the tags. *)
Module Sim.
Import Shopify.

Record World := {
  order : ShopifyOrder;
  faults : list bool
}.

Definition apply_call (o : ShopifyOrder) (c : Call) : ShopifyOrder :=
  match c with
  | GetOrder _ => o
  | PostTransaction _ _ =>
      {| id := id o; name := name o; email := email o;
         financial_status := "paid";
         total_price := total_price o; currency := currency o;
         created_at := created_at o; cancelled_at := cancelled_at o;
         note := note o; tags := tags o |}
  | PutNote _ n =>
      {| id := id o; name := name o; email := email o;
         financial_status := financial_status o;
         total_price := total_price o; currency := currency o;
         created_at := created_at o; cancelled_at := cancelled_at o;
         note := Some n; tags := tags o |}
  | PutTags _ t =>
      {| id := id o; name := name o; email := email o;
         financial_status := financial_status o;
         total_price := total_price o; currency := currency o;
         created_at := created_at o; cancelled_at := cancelled_at o;
         note := note o; tags := t |}
  | PostCancel _ _ =>
      {| id := id o; name := name o; email := email o;
         financial_status := financial_status o;
         total_price := total_price o; currency := currency o;
         created_at := created_at o;
         cancelled_at := Some "2024-01-01T01:00:00Z";
         note := note o; tags := tags o |}
  end.

Definition target (c : Call) : Z :=
  match c with
  | GetOrder o | PostTransaction o _ | PutNote o _ | PutTags o _
  | PostCancel o _ => o
  end.

Definition answer (o : ShopifyOrder) (fs : list bool) (rq : Request)
    : World * Reply :=
  if target (call rq) =? id o
  then
    let o' := apply_call o (call rq) in
    ({| order := o'; faults := fs |},
     match call rq with
     | GetOrder _ | PutNote _ _ | PutTags _ _ => OrderJson o'
     | _ => Json
     end)
  else ({| order := o; faults := fs |}, Failure "404 Not Found").

Definition serve (w : World) (rq : Request) : World * Reply :=
  match faults w with
  | true :: fs => ({| order := order w; faults := fs |},
                   Failure "503 Service Unavailable")
  | false :: fs => answer (order w) fs rq
  | [] => answer (order w) [] rq
  end.

(** Order #1001 of demo.myshopify.com, 100 USD, awaiting payment. *)
Definition order1001 : ShopifyOrder :=
  {| id := 1001; name := "#1001"; email := "buyer@example.com";
     financial_status := "pending"; total_price := "100.00";
     currency := "USD"; created_at := "2024-01-01T00:00:00Z";
     cancelled_at := None; note := None; tags := "" |}.

Definition mapping1001 (st : string) : Store.PaymentMapping :=
  {| Store.shopDomain := "demo.myshopify.com";
     Store.shopifyOrderId := 1001;
     Store.shopifyOrderName := "#1001";
     Store.amount := "100.00";
     Store.currency := "USD";
     Store.customerEmail := "buyer@example.com";
     Store.network := "TRC20";
     Store.token := "USDT";
     Store.payzCorePaymentId := "pay_1";
     Store.address := "TXYZ";
     Store.expectedAmount := "100.00";
     Store.qrCode := "";
     Store.expiresAt := "2024-01-01T01:00:00Z";
     Store.status := st;
     Store.createdAt := "2024-01-01T00:00:00Z";
     Store.notice := None;
     Store.requiresTxid := None;
     Store.confirmEndpoint := None |}.

(** The same payment in static wallet mode: the payer submits the
    transaction hash, which goes to the confirm endpoint. *)
Definition mapping_static : Store.PaymentMapping :=
  {| Store.shopDomain := "demo.myshopify.com";
     Store.shopifyOrderId := 1001;
     Store.shopifyOrderName := "#1001";
     Store.amount := "100.00";
     Store.currency := "USD";
     Store.customerEmail := "buyer@example.com";
     Store.network := "ERC20";
     Store.token := "USDC";
     Store.payzCorePaymentId := "pay_1";
     Store.address := "0xfeed";
     Store.expectedAmount := "100.003";
     Store.qrCode := "";
     Store.expiresAt := "2024-01-01T01:00:00Z";
     Store.status := "pending";
     Store.createdAt := "2024-01-01T00:00:00Z";
     Store.notice := Some "Send exactly 100.003 USDC";
     Store.requiresTxid := Some true;
     Store.confirmEndpoint := Some "/v1/payments/pay_1/confirm" |}.

Definition shop_demo : Store.ShopData :=
  {| Store.accessToken := "shpat_demo"; Store.scope := "read_orders,write_orders";
     Store.installedAt := "2023-12-01T00:00:00Z" |}.

(** The same order once a capture has settled it. *)
Definition order1001_paid : ShopifyOrder := apply_call order1001 (PostTransaction 1001
  {| tx_kind := "capture"; tx_status := "success"; tx_amount := "100.00";
     tx_currency := "USD"; tx_gateway := "PayzCore USDT";
     tx_source := "external"; tx_message := "" |}).

(** The process with the mapping of [pay_1] stored under status [st]
    and [remaining] seconds to live, facing the shop with order [o]
    under the outages [fs]. *)
Definition env_of (o : ShopifyOrder) (st : string) (remaining : Z)
    (fs : list bool) : Proc.Env World :=
  Proc.mkEnv
    (<["pay_1" := {| Store.value := mapping1001 st;
                     Store.ttl := remaining |}]> ∅)
    (Store.saveShop "demo.myshopify.com" shop_demo ∅)
    {| order := o; faults := fs |}
    [] [].

Definition env0 (st : string) (remaining : Z) (fs : list bool) : Proc.Env World :=
  env_of order1001 st remaining fs.

Definition env_static : Proc.Env World :=
  Proc.mkEnv
    (Store.savePaymentMapping "pay_1" mapping_static ∅)
    (Store.saveShop "demo.myshopify.com" shop_demo ∅)
    {| order := order1001; faults := [] |}
    [] [].

(** A push notification for [pay_1]. *)
Definition push (ev st paid : string) : Webhooks.WebhookPayload :=
  {| Webhooks.event := ev;
     Webhooks.payment_id := "pay_1";
     Webhooks.external_ref := "buyer@example.com";
     Webhooks.external_order_id := Some "shopify-demo.myshopify.com-1001";
     Webhooks.network := "TRC20";
     Webhooks.address := "TXYZ";
     Webhooks.expected_amount := "100.00";
     Webhooks.paid_amount := paid;
     Webhooks.tx_hash := Some "abcdef0123";
     Webhooks.status := st;
     Webhooks.paid_at := Some "2024-01-01T00:10:00Z";
     Webhooks.timestamp := "2024-01-01T00:10:05Z" |}.

(** A [payment.partial] notification for [pay_1]: [paid] received of
    the 50 expected. *)
Definition partial (paid : string) : Webhooks.WebhookPayload :=
  {| Webhooks.event := "payment.partial";
     Webhooks.payment_id := "pay_1";
     Webhooks.external_ref := "buyer@example.com";
     Webhooks.external_order_id := Some "shopify-demo.myshopify.com-1001";
     Webhooks.network := "TRC20";
     Webhooks.address := "TXYZ";
     Webhooks.expected_amount := "50";
     Webhooks.paid_amount := paid;
     Webhooks.tx_hash := Some "abcdef0123";
     Webhooks.status := "partial";
     Webhooks.paid_at := None;
     Webhooks.timestamp := "2024-01-01T00:10:05Z" |}.

(** The order is settled and no outage is scheduled. *)
Definition settled (w : World) : Prop :=
  financial_status (order w) = "paid" /\ id (order w) = 1001 /\ faults w = [].

(** What the monitoring service reports for [pay_1] under status [st]. *)
Definition payment1 (st : string) : PayzCore.Payment :=
  {| PayzCore.id := "pay_1"; PayzCore.status := st;
     PayzCore.expected_amount := "100.00"; PayzCore.paid_amount := "100.00";
     PayzCore.address := "TXYZ"; PayzCore.network := "TRC20";
     PayzCore.token := Some "USDT"; PayzCore.tx_hash := Some "abcdef0123";
     PayzCore.expires_at := "2024-01-01T01:00:00Z";
     PayzCore.transactions := [] |}.

(** The monitoring service up, reporting [st], and down. *)
Definition api_up (st : string) : PayzCore.Api :=
  {| PayzCore.getPayment := fun _ => Some (payment1 st);
     PayzCore.confirmPayment := fun _ _ => Some true |}.

Definition api_down : PayzCore.Api :=
  {| PayzCore.getPayment := fun _ => None;
     PayzCore.confirmPayment := fun _ _ => None |}.

End Sim.

(* ===================================================================== *)
(** * The vocabulary of the properties *)
(* ===================================================================== *)

(** The deadline of a record lies before [now], both in milliseconds
    since the epoch; [parse] reads the stored [expiresAt]. *)
Definition deadline_passed (parse : string -> option Z) (now : Z)
    (m : Store.PaymentMapping) : bool :=
  match parse (Store.expiresAt m) with
  | Some t => t <? now
  | None => false
  end.

(** The stored status of a payment, if it has a record. *)
Definition stored_status (paymentId : string) (db : Store.Payments) : option string :=
  Store.status <$> Store.getPaymentMapping paymentId db.

(** A submitted [tx_hash] that, trimmed and without an optional [0x]
    prefix, is a hexadecimal string of 10 to 128 characters. *)
Definition conforming (v : Payment.JsonValue) : bool :=
  match v with
  | Payment.JString s => Payment.is_tx_hash (Js.strip_0x (Js.trim s))
  | _ => false
  end.

(** The kinds of change a request makes on the commerce side; reading
    an order makes none. *)
Inductive Effect := Capture | Note | Tags | Cancel.

Definition effect_of (c : Shopify.Call) : option Effect :=
  match c with
  | Shopify.GetOrder _ => None
  | Shopify.PostTransaction _ _ => Some Capture
  | Shopify.PutNote _ _ => Some Note
  | Shopify.PutTags _ _ => Some Tags
  | Shopify.PostCancel _ _ => Some Cancel
  end.

Definition same_effect (a b : Effect) : bool :=
  match a, b with
  | Capture, Capture | Note, Note | Tags, Tags | Cancel, Cancel => true
  | _, _ => false
  end.

(** The request makes a change of kind [t]. *)
Definition fires (t : Effect) (rq : Shopify.Request) : bool :=
  match effect_of (Shopify.call rq) with
  | Some t' => same_effect t t'
  | None => false
  end.

(** The request makes a change of kind [t] to order [orderId] of [shop]. *)
Definition fires_on (t : Effect) (shop : string) (orderId : Z)
    (rq : Shopify.Request) : bool :=
  match Shopify.call rq with
  | Shopify.GetOrder _ => false
  | Shopify.PostTransaction o _ | Shopify.PutNote o _ | Shopify.PutTags o _
  | Shopify.PostCancel o _ =>
      fires t rq && (o =? orderId) && String.eqb (Shopify.host rq) shop
  end.

(** How many requests of a log satisfy [k]. *)
Definition count (k : Shopify.Request -> bool) (log : list Shopify.Request) : nat :=
  List.length (List.filter k log).

(** The event is one of the two that mark the order as paid. *)
Definition is_success_event (payload : Webhooks.WebhookPayload) : bool :=
  String.eqb (Webhooks.event payload) "payment.completed"
  || String.eqb (Webhooks.event payload) "payment.overpaid".

(** The reply to the order read makes [handlePaymentSuccess] skip the
    capture: an order whose [financial_status] is [paid]. *)
Definition already_paid (r : Shopify.Reply) : bool :=
  match r with
  | Shopify.OrderJson o => String.eqb (Shopify.financial_status o) "paid"
  | _ => false
  end.

(** The [transaction] that [markOrderAsPaid] posts. *)
Definition capture_of (amount currency : string) (txHash : option string)
    (network token payzCorePaymentId : string) : Shopify.Capture :=
  let tokenLabel := Js.or_else token "USDT" in
  {| Shopify.tx_kind := "capture";
     Shopify.tx_status := "success";
     Shopify.tx_amount := amount;
     Shopify.tx_currency := currency;
     Shopify.tx_gateway := "PayzCore " +:+ tokenLabel;
     Shopify.tx_source := "external";
     Shopify.tx_message :=
       tokenLabel +:+ " received on " +:+ network +:+
       ". PayzCore ID: " +:+ payzCorePaymentId +:+
       match txHash with
       | Some h => if Js.truthy h then ". TX: " +:+ h else ""
       | None => ""
       end |}.

(** Between two environments the commerce system stayed in [Paid] if it
    was there, and no request satisfying [k] was sent. *)
Definition settled_rel {W : Type} (Paid : W -> Prop)
    (k : Shopify.Request -> bool) (a b : Proc.Env W) : Prop :=
  (Paid (Proc.world a) -> Paid (Proc.world b)) /\
  count k (Proc.calls b) = count k (Proc.calls a).

(** The two answers of the webhook handler once the shop is known. *)
Definition processed_ok : Webhooks.Response :=
  {| Webhooks.code := 200; Webhooks.received := true;
     Webhooks.processed := true; Webhooks.reason := None |}.

Definition processing_error : Webhooks.Response :=
  {| Webhooks.code := 500; Webhooks.received := true;
     Webhooks.processed := false; Webhooks.reason := Some "processing_error" |}.

(** The client the handler builds for a mapping and its shop. *)
Definition client_of (m : Store.PaymentMapping) (shop : Store.ShopData)
    : ShopifyClient.Client :=
  {| ShopifyClient.shopDomain := Store.shopDomain m;
     ShopifyClient.accessToken := Store.accessToken shop |}.

(** The environment once the handler has stored the delivered status. *)
Definition status_stored {W : Type} (payload : Webhooks.WebhookPayload)
    (env : Proc.Env W) : Proc.Env W :=
  Proc.mkEnv
    (Store.updatePaymentMappingStatus (Webhooks.payment_id payload)
       (Webhooks.status payload) (Proc.payments env))
    (Proc.shops env) (Proc.world env) (Proc.calls env) (Proc.upstream env).

(** Between two environments, no request satisfying [k] was sent. *)
Definition quiet_rel {W : Type} (k : Shopify.Request -> bool)
    (a b : Proc.Env W) : Prop :=
  count k (Proc.calls b) = count k (Proc.calls a).

(** Between two environments, at most one request satisfying [k] was sent. *)
Definition once_rel {W : Type} (k : Shopify.Request -> bool)
    (a b : Proc.Env W) : Prop :=
  (count k (Proc.calls a) <= count k (Proc.calls b) <= count k (Proc.calls a) + 1)%nat.

(** The environment after a request has gone out and was answered. *)
Definition sent {W : Type} (serve : W -> Shopify.Request -> W * Shopify.Reply)
    (rq : Shopify.Request) (env : Proc.Env W) : Proc.Env W :=
  Proc.mkEnv (Proc.payments env) (Proc.shops env)
             (fst (serve (Proc.world env) rq))
             (Proc.calls env ++ [rq]) (Proc.upstream env).

(** The request a client sends for a call. *)
Definition rq_of (this : ShopifyClient.Client) (c : Shopify.Call) : Shopify.Request :=
  {| Shopify.host := ShopifyClient.shopDomain this;
     Shopify.access_token := ShopifyClient.accessToken this;
     Shopify.call := c |}.

(** [m] moves every environment to one related to it by [R]. *)
Definition stable {W A : Type} (R : Proc.Env W -> Proc.Env W -> Prop)
    (m : Proc.M W A) : Prop :=
  forall env, R env (fst (m env)).

(** The Redis key spaces and the log of monitoring-service requests agree. *)
Definition same_stores {W : Type} (a b : Proc.Env W) : Prop :=
  Proc.payments b = Proc.payments a /\
  Proc.shops b = Proc.shops a /\
  Proc.upstream b = Proc.upstream a.

(** A byte. *)
Definition is_byte (b : Z) : Prop := 0 <= b < 256.


(** Two mappings that agree on every field but [status]. *)
Definition same_but_status (m m' : Store.PaymentMapping) : Prop :=
  Store.shopDomain m' = Store.shopDomain m /\
  Store.shopifyOrderId m' = Store.shopifyOrderId m /\
  Store.shopifyOrderName m' = Store.shopifyOrderName m /\
  Store.amount m' = Store.amount m /\
  Store.currency m' = Store.currency m /\
  Store.customerEmail m' = Store.customerEmail m /\
  Store.network m' = Store.network m /\
  Store.token m' = Store.token m /\
  Store.payzCorePaymentId m' = Store.payzCorePaymentId m /\
  Store.address m' = Store.address m /\
  Store.expectedAmount m' = Store.expectedAmount m /\
  Store.qrCode m' = Store.qrCode m /\
  Store.expiresAt m' = Store.expiresAt m /\
  Store.createdAt m' = Store.createdAt m /\
  Store.notice m' = Store.notice m /\
  Store.requiresTxid m' = Store.requiresTxid m /\
  Store.confirmEndpoint m' = Store.confirmEndpoint m.

(** ** Hosts, tables, configurations and sessions *)

(** A character of a host name: a letter, a digit, a hyphen or a dot. *)
Definition host_char (c : ascii) : bool :=
  Js.is_alnum c || Ascii.eqb c "-" || Ascii.eqb c ".".

(** The table has an entry under the key. *)
Definition has_key {A : Type} (table : string -> option A) (key : string) : bool :=
  match table key with
  | Some _ => true
  | None => false
  end.

(** The string starts with [0X], the prefix in upper case. *)
Definition upper_0X (s : string) : bool :=
  match s with
  | String a (String b _) => Ascii.eqb a "0" && Ascii.eqb b "X"
  | _ => false
  end.

(** What the routes rely on in a configuration: at least one network is
    enabled, every enabled network is a known one, the default network
    is the first of them, and the default token is a known one. *)
Definition well_formed (c : Config.AppConfig) : Prop :=
  Config.app_enabledNetworks c <> [] /\
  Forall (fun n => Js.includes Config.VALID_NETWORKS n = true)
         (Config.app_enabledNetworks c) /\
  Config.app_defaultNetwork c = head (Config.app_enabledNetworks c) /\
  Js.includes Config.VALID_TOKENS (Config.app_defaultToken c) = true.


(** The variables [loadConfig] cannot do without. *)
Definition required_variables : list string :=
  ["SHOPIFY_API_KEY"; "SHOPIFY_API_SECRET"; "PAYZCORE_API_KEY";
   "PAYZCORE_WEBHOOK_SECRET"; "APP_URL"; "SESSION_SECRET"].

(** [ENABLED_NETWORKS ?? ENABLED_CHAINS] is a non-empty string. *)
Definition networks_listed (env : Config.Environment) : bool :=
  match Config.first_set env "ENABLED_NETWORKS" "ENABLED_CHAINS" with
  | Some s => Js.truthy s
  | None => false
  end.

(** Two configurations that differ at most in the enabled networks, the
    default network and the default token. *)
Definition same_credentials (c c' : Config.AppConfig) : Prop :=
  Config.shopify_apiKey c' = Config.shopify_apiKey c /\
  Config.shopify_apiSecret c' = Config.shopify_apiSecret c /\
  Config.payzcore_apiKey c' = Config.payzcore_apiKey c /\
  Config.payzcore_webhookSecret c' = Config.payzcore_webhookSecret c /\
  Config.payzcore_apiUrl c' = Config.payzcore_apiUrl c /\
  Config.app_url c' = Config.app_url c /\
  Config.app_port c' = Config.app_port c /\
  Config.app_sessionSecret c' = Config.app_sessionSecret c.

(** A process environment with which the server starts. *)
Definition env_demo : Config.Environment :=
  <["SHOPIFY_API_KEY" := "key_demo"]>
  (<["SHOPIFY_API_SECRET" := "shpss_demo"]>
  (<["PAYZCORE_API_KEY" := "pk_demo"]>
  (<["PAYZCORE_WEBHOOK_SECRET" := "whsec_demo"]>
  (<["APP_URL" := "https://pay.example.com/"]>
  (<["SESSION_SECRET" := "0123456789abcdef0123456789abcdef"]> ∅))))).

(** The configuration it gives. *)
Definition config_demo : Config.AppConfig :=
  {| Config.shopify_apiKey := "key_demo";
     Config.shopify_apiSecret := "shpss_demo";
     Config.payzcore_apiKey := "pk_demo";
     Config.payzcore_webhookSecret := "whsec_demo";
     Config.payzcore_apiUrl := "https://api.payzcore.com";
     Config.app_url := "https://pay.example.com";
     Config.app_port := Some 3001;
     Config.app_sessionSecret := "0123456789abcdef0123456789abcdef";
     Config.app_enabledNetworks := ["TRC20"];
     Config.app_defaultNetwork := Some "TRC20";
     Config.app_defaultToken := "USDT" |}.

(** The route ended with an exception. *)
Definition throws (s : PaymentCreate.Stage) : bool :=
  match s with
  | PaymentCreate.Throws => true
  | _ => false
  end.

(** A checkout request for order #1001 of the demo shop. *)
Definition query_demo (network token : option string) : PaymentCreate.Query :=
  {| PaymentCreate.shop := Some "demo.myshopify.com";
     PaymentCreate.order_id := Some "1001";
     PaymentCreate.order_name := Some "#1001";
     PaymentCreate.amount := Some "100.00";
     PaymentCreate.currency := Some "USD";
     PaymentCreate.email := Some "buyer@example.com";
     PaymentCreate.network := network;
     PaymentCreate.token := token;
     PaymentCreate.address := None;
     PaymentCreate.return_url := None |}.

Definition shops_demo : Store.Shops :=
  Store.saveShop "demo.myshopify.com" Sim.shop_demo ∅.

(** A digit or a lower-case hex letter. *)
Definition lower_hex_digit (c : ascii) : bool :=
  Js.is_digit c || Js.is_lower_hex c.

Definition is_redirect (r : Auth.Response) : bool :=
  match r with
  | Auth.Redirect _ => true
  | _ => false
  end.

(** The session once a callback has gone through. *)
Definition cleared (s : Auth.Session) : Auth.Session :=
  {| Auth.shopifyNonce := Auth.Null;
     Auth.shopDomain := Auth.Null;
     Auth.returnUrl := Auth.returnUrl s |}.

(** The session of a browser that has been nowhere yet. *)
Definition fresh_session : Auth.Session :=
  {| Auth.shopifyNonce := Auth.Undefined;
     Auth.shopDomain := Auth.Undefined;
     Auth.returnUrl := Auth.Undefined |}.

(** The callback Shopify sends for [shop] with [code] and [state], signed
    with the API secret of the configuration. *)
Definition signed_callback (config : Config.AppConfig) (shop code state : string)
    : VerifyShopify.Query :=
  let q := <["shop" := shop]> (<["code" := code]> (<["state" := state]> ∅)) in
  <["hmac" := Crypto.hmac_hex (Config.shopify_apiSecret config)
                              (VerifyShopify.message q)]> q.

(** A token endpoint that grants every code. *)
Definition exchange_demo (shop code : string) : Auth.TokenResponse :=
  Auth.Token "shpat_demo" "read_orders,write_orders".

(** The events on which a delivery may make a change of kind [t]. *)
Definition may_fire (t : Effect) (payload : Webhooks.WebhookPayload) : bool :=
  let ev := Webhooks.event payload in
  match t with
  | Capture => is_success_event payload
  | Cancel => String.eqb ev "payment.expired" || String.eqb ev "payment.cancelled"
  | Note => is_success_event payload || String.eqb ev "payment.partial"
  | Tags => is_success_event payload || String.eqb ev "payment.expired"
            || String.eqb ev "payment.cancelled" || String.eqb ev "payment.partial"
  end.

(** The request goes to the shop of the mapping, under the access token
    of that shop, and is about the order of the mapping. *)
Definition addressed_to (m : Store.PaymentMapping) (shop : Store.ShopData)
    (rq : Shopify.Request) : Prop :=
  Shopify.host rq = Store.shopDomain m /\
  Shopify.access_token rq = Store.accessToken shop /\
  Sim.target (Shopify.call rq) = Store.shopifyOrderId m.

(** Between two environments, only requests satisfying [Q] were sent. *)
Definition sends_only {W : Type} (Q : Shopify.Request -> Prop)
    (a b : Proc.Env W) : Prop :=
  exists l, Proc.calls b = Proc.calls a ++ l /\ Forall Q l.

(** The payment of the delivery has a record, and the shop of the record
    has installed the app. *)
Definition known {W : Type} (payload : Webhooks.WebhookPayload)
    (env : Proc.Env W) : bool :=
  match Store.getPaymentMapping (Webhooks.payment_id payload) (Proc.payments env) with
  | Some m =>
      match Store.getShop (Store.shopDomain m) (Proc.shops env) with
      | Some _ => true
      | None => false
      end
  | None => false
  end.

(** The order is already cancelled or paid. *)
Definition closed (order : Shopify.ShopifyOrder) : bool :=
  Webhooks.opt_truthy (Shopify.cancelled_at order)
  || String.eqb (Shopify.financial_status order) "paid".

(** The tags an order carries. *)
Definition tags_of (order : Shopify.ShopifyOrder) : list string :=
  if Js.truthy (Shopify.tags order) then Js.split_comma (Shopify.tags order) else [].

(** ** The calls of a success event *)

(** The request failed: the client throws. *)
Definition failed (r : Shopify.Reply) : bool :=
  match r with
  | Shopify.Failure _ => true
  | _ => false
  end.

(** The tags a success event adds to the order. *)
Definition success_tags (m : Store.PaymentMapping)
    (payload : Webhooks.WebhookPayload) : string :=
  let tokenTag := Js.toLowerCase (Js.or_else (Store.token m) "USDT") in
  if String.eqb (Webhooks.event payload) "payment.overpaid"
  then "crypto-paid, payzcore, " +:+ tokenTag +:+ ", overpaid"
  else "crypto-paid, payzcore, " +:+ tokenTag.

(** With the commerce system in state [w], after the order read of a
    success event that did not find the order paid: one of the calls that
    follow is answered so that the client throws.  The calls are the
    capture, the note, the read of the order's tags (which must give an
    order) and the write of the merged tags, each sent only if the ones
    before it went through. *)
Definition success_throws {W : Type}
    (serve : W -> Shopify.Request -> W * Shopify.Reply)
    (this : ShopifyClient.Client) (m : Store.PaymentMapping)
    (payload : Webhooks.WebhookPayload) (w : W) : bool :=
  let orderId := Store.shopifyOrderId m in
  let tokenLabel := Js.or_else (Store.token m) "USDT" in
  let capture :=
    serve w (rq_of this (Shopify.PostTransaction orderId
      (capture_of (Js.or_else (Webhooks.paid_amount payload) (Store.amount m))
                  (Store.currency m) (Webhooks.tx_hash payload)
                  (Webhooks.network payload) tokenLabel
                  (Webhooks.payment_id payload)))) in
  let note :=
    serve (fst capture)
      (rq_of this (Shopify.PutNote orderId (Webhooks.success_note payload tokenLabel))) in
  let read := serve (fst note) (rq_of this (Shopify.GetOrder orderId)) in
  failed (snd capture) || failed (snd note) ||
  match snd read with
  | Shopify.OrderJson order =>
      failed (snd (serve (fst read)
        (rq_of this (Shopify.PutTags orderId
           (Js.join ", " (Js.dedup (tags_of order ++
                                    Js.split_comma (success_tags m payload))))))))
  | _ => true
  end.

(* ===================================================================== *)
(** * Properties of the store *)
(* ===================================================================== *)

Lemma set_status_same (m : Store.PaymentMapping) (s : string) :
  same_but_status m (Store.set_status m s).
Proof. repeat split. Qed.

Lemma set_status_id (m : Store.PaymentMapping) :
  Store.set_status m (Store.status m) = m.
Proof. by destruct m. Qed.

Lemma update_lookup (db : Store.Payments) (paymentId s : string) (e : Store.Entry) :
  db !! paymentId = Some e ->
  Store.updatePaymentMappingStatus paymentId s db !! paymentId =
  Some {| Store.value := Store.set_status (Store.value e) s;
          Store.ttl := if 0 <? Store.ttl e then Store.ttl e else Store.PAYMENT_TTL |}.
Proof.
  intros He. unfold Store.updatePaymentMappingStatus.
  rewrite He. apply lookup_insert_eq.
Qed.

Lemma update_lookup_ne (db : Store.Payments) (paymentId s k : string) :
  k <> paymentId ->
  Store.updatePaymentMappingStatus paymentId s db !! k = db !! k.
Proof.
  intros Hk. unfold Store.updatePaymentMappingStatus.
  destruct (db !! paymentId); [|done].
  by rewrite lookup_insert_ne.
Qed.

Lemma update_absent (db : Store.Payments) (paymentId s : string) :
  db !! paymentId = None ->
  Store.updatePaymentMappingStatus paymentId s db = db.
Proof. intros He. unfold Store.updatePaymentMappingStatus. by rewrite He. Qed.

Lemma get_after_update (db : Store.Payments) (paymentId s : string)
    (m : Store.PaymentMapping) :
  Store.getPaymentMapping paymentId db = Some m ->
  Store.getPaymentMapping paymentId
    (Store.updatePaymentMappingStatus paymentId s db) =
  Some (Store.set_status m s).
Proof.
  unfold Store.getPaymentMapping. intros Hm.
  destruct (db !! paymentId) as [e|] eqn:He; [|done].
  rewrite (update_lookup _ _ _ _ He). simpl in *. congruence.
Qed.

(** C10. [updatePaymentMappingStatus paymentId status] rewrites the entry
    of [paymentId] with the same mapping but for its [status], which is
    the one given; the entry keeps the time to live it had when that is
    positive and gets the 7-day [PAYMENT_TTL] otherwise; without an entry
    for [paymentId] the store is left as it is; and no other key is
    touched. *)
Theorem updatePaymentMappingStatus_frame
    (db : Store.Payments) (paymentId s : string) :
  let db' := Store.updatePaymentMappingStatus paymentId s db in
  match db !! paymentId with
  | Some e =>
      exists e', db' !! paymentId = Some e' /\
        Store.status (Store.value e') = s /\
        same_but_status (Store.value e) (Store.value e') /\
        Store.ttl e' = (if 0 <? Store.ttl e then Store.ttl e else 604800)
  | None => db' = db
  end /\
  forall k, k <> paymentId -> db' !! k = db !! k.
Proof.
  intros db'. split.
  - destruct (db !! paymentId) as [e|] eqn:He.
    + eexists. split; [apply (update_lookup _ _ _ _ He)|].
      simpl. split; [done|]. split; [apply set_status_same|done].
    + by apply update_absent.
  - intros k Hk. by apply update_lookup_ne.
Qed.

(** The frame property on a stored mapping with 1000 seconds to live,
    and on a key that is not there. *)
Lemma updatePaymentMappingStatus_frame_witness :
  let db := Proc.payments (Sim.env0 "pending" 1000 []) in
  (exists e', Store.updatePaymentMappingStatus "pay_1" "paid" db !! "pay_1" = Some e' /\
     Store.status (Store.value e') = "paid" /\
     same_but_status (Sim.mapping1001 "pending") (Store.value e') /\
     Store.ttl e' = 1000) /\
  Store.updatePaymentMappingStatus "pay_2" "paid" db = db /\
  Store.updatePaymentMappingStatus "pay_1" "paid" db !! "pay_2" = db !! "pay_2".
Proof.
  intros db.
  pose proof (updatePaymentMappingStatus_frame db "pay_1" "paid") as [H1 H2].
  pose proof (updatePaymentMappingStatus_frame db "pay_2" "paid") as [H3 _].
  split; [exact H1|]. split; [exact H3|].
  apply H2. discriminate.
Defined.

(* ===================================================================== *)
(** * Reasoning about async code *)
(* ===================================================================== *)

Section Stable.
Import Proc.
Context {W : Type}.
Variable serve : W -> Shopify.Request -> W * Shopify.Reply.
Variable R : Env W -> Env W -> Prop.
Variable P : Shopify.Request -> Prop.
Hypothesis R_refl : forall e, R e e.
Hypothesis R_trans : forall a b c, R a b -> R b c -> R a c.
Hypothesis R_sent : forall env rq, P rq -> R env (sent serve rq env).

Lemma stable_ret {A} (a : A) : stable R (ret a).
Proof using R_refl. intros env. apply R_refl. Qed.

Lemma stable_throw {A} (e : string) : stable R (@throw W A e).
Proof using R_refl. intros env. apply R_refl. Qed.

Lemma stable_bind {A B} (m : M W A) (k : A -> M W B) :
  stable R m -> (forall a, stable R (k a)) -> stable R (bind m k).
Proof using R_trans.
  intros Hm Hk env. unfold bind.
  specialize (Hm env). destruct (m env) as [env' [a|e]]; simpl in *.
  - eapply R_trans; [exact Hm|apply Hk].
  - exact Hm.
Qed.

Lemma stable_try_catch {A} (m : M W A) (h : string -> M W A) :
  stable R m -> (forall e, stable R (h e)) -> stable R (try_catch m h).
Proof using R_trans.
  intros Hm Hh env. unfold try_catch.
  specialize (Hm env). destruct (m env) as [env' [a|e]]; simpl in *.
  - exact Hm.
  - eapply R_trans; [exact Hm|apply Hh].
Qed.

Lemma request_sent (this : ShopifyClient.Client) (c : Shopify.Call) env :
  fst (ShopifyClient.request serve this c env) = sent serve (rq_of this c) env.
Proof.
  unfold ShopifyClient.request, sent, rq_of.
  destruct (serve _ _) as [w' [e|o|]]; reflexivity.
Qed.

Lemma stable_request this c :
  P (rq_of this c) -> stable R (ShopifyClient.request serve this c).
Proof using R_sent.
  intros HP env. rewrite request_sent. by apply R_sent.
Qed.

Lemma stable_getOrder this o :
  P (rq_of this (Shopify.GetOrder o)) ->
  stable R (ShopifyClient.getOrder serve this o).
Proof using R_refl R_trans R_sent.
  intros HP. apply stable_bind; [by apply stable_request|].
  intros [e|ord|]; auto using stable_ret, stable_throw.
Qed.

Lemma stable_markOrderAsPaid this o a c h n t i :
  (forall t, P (rq_of this (Shopify.PostTransaction o t))) ->
  stable R (ShopifyClient.markOrderAsPaid serve this o a c h n t i).
Proof using R_refl R_trans R_sent.
  intros HP. apply stable_bind; [by apply stable_request|].
  intros _. apply stable_ret.
Qed.

Lemma stable_addOrderNote this o n :
  P (rq_of this (Shopify.PutNote o n)) ->
  stable R (ShopifyClient.addOrderNote serve this o n).
Proof using R_refl R_trans R_sent.
  intros HP. apply stable_bind; [by apply stable_request|].
  intros _. apply stable_ret.
Qed.

Lemma stable_addOrderTags this o t :
  P (rq_of this (Shopify.GetOrder o)) ->
  (forall t, P (rq_of this (Shopify.PutTags o t))) ->
  stable R (ShopifyClient.addOrderTags serve this o t).
Proof using R_refl R_trans R_sent.
  intros HG HP. apply stable_bind; [by apply stable_getOrder|].
  intros ord. apply stable_bind; [by apply stable_request|].
  intros _. apply stable_ret.
Qed.

Lemma stable_cancelOrder this o r :
  P (rq_of this (Shopify.PostCancel o r)) ->
  stable R (ShopifyClient.cancelOrder serve this o r).
Proof using R_refl R_trans R_sent.
  intros HP. apply stable_bind; [by apply stable_request|].
  intros _. apply stable_ret.
Qed.

(** Every request of the event handlers goes to the client's shop. *)
Hypothesis P_all : forall rq, P rq.

Lemma stable_handlePaymentSuccess this mapping payload :
  stable R (Webhooks.handlePaymentSuccess serve this mapping payload).
Proof using R_refl R_trans R_sent P_all.
  apply stable_bind.
  - apply stable_try_catch.
    + apply stable_bind; [by apply stable_getOrder|]. intros; apply stable_ret.
    + intros; apply stable_ret.
  - intros [|]; [apply stable_ret|].
    apply stable_bind; [by apply stable_markOrderAsPaid|]. intros _.
    apply stable_bind; [by apply stable_addOrderNote|]. intros _.
    by apply stable_addOrderTags.
Qed.

Lemma stable_handlePaymentExpired this mapping payload :
  stable R (Webhooks.handlePaymentExpired serve this mapping payload).
Proof using R_refl R_trans R_sent P_all.
  apply stable_try_catch; [|intros; apply stable_ret].
  apply stable_bind; [by apply stable_getOrder|]. intros ord.
  destruct (_ || _); [apply stable_ret|].
  apply stable_bind; [by apply stable_cancelOrder|]. intros _.
  by apply stable_addOrderTags.
Qed.

Lemma stable_handlePaymentCancelled this mapping payload :
  stable R (Webhooks.handlePaymentCancelled serve this mapping payload).
Proof using R_refl R_trans R_sent P_all.
  apply stable_try_catch; [|intros; apply stable_ret].
  apply stable_bind; [by apply stable_getOrder|]. intros ord.
  destruct (_ || _); [apply stable_ret|].
  apply stable_bind; [by apply stable_cancelOrder|]. intros _.
  by apply stable_addOrderTags.
Qed.

Lemma stable_handlePaymentPartial this mapping payload :
  stable R (Webhooks.handlePaymentPartial serve this mapping payload).
Proof using R_refl R_trans R_sent P_all.
  apply stable_try_catch; [|intros; apply stable_ret].
  apply stable_bind; [by apply stable_addOrderNote|]. intros _.
  by apply stable_addOrderTags.
Qed.

Lemma stable_dispatch this mapping payload :
  stable R (Webhooks.dispatch serve this mapping payload).
Proof using R_refl R_trans R_sent P_all.
  unfold Webhooks.dispatch.
  destruct (_ || _); [apply stable_handlePaymentSuccess|].
  destruct (String.eqb _ _); [apply stable_handlePaymentExpired|].
  destruct (String.eqb _ _); [apply stable_handlePaymentCancelled|].
  destruct (String.eqb _ _); [apply stable_handlePaymentPartial|].
  apply stable_ret.
Qed.

End Stable.

(* ===================================================================== *)
(** * What the webhook handler and the status poll do to the store *)
(* ===================================================================== *)

Section StoreFacts.
Import Proc.
Context {W : Type}.
Variable serve : W -> Shopify.Request -> W * Shopify.Reply.

Lemma dispatch_same_stores this mapping payload :
  stable same_stores (Webhooks.dispatch serve this mapping payload).
Proof.
  apply (stable_dispatch serve same_stores (fun _ => True)); try done.
  - intros a b c (?&?&?) (?&?&?). repeat split; congruence.
Qed.

(** The handler stores the delivered status, whatever happens next. *)
Lemma payzcore_payments (payload : Webhooks.WebhookPayload) (env : Env W) :
  payments (run (Webhooks.payzcore serve payload) env) =
  Store.updatePaymentMappingStatus (Webhooks.payment_id payload)
    (Webhooks.status payload) (payments env).
Proof.
  unfold run, Webhooks.payzcore, bind, read, with_payments. simpl.
  destruct (Store.getPaymentMapping _ _) as [m|] eqn:Hm; simpl.
  - destruct (Store.getShop _ _) as [sd|]; simpl; [|done].
    unfold try_catch, bind.
    match goal with |- context [Webhooks.dispatch serve ?c ?m ?p ?e] =>
      pose proof (dispatch_same_stores c m p e) as (Hp & _ & _);
      destruct (Webhooks.dispatch serve c m p e) as [env' [[]|err]]
    end; simpl in *; exact Hp.
  - unfold Store.getPaymentMapping in Hm.
    destruct (payments env !! _) eqn:He; [done|].
    by rewrite update_absent.
Qed.

Lemma payzcore_shops (payload : Webhooks.WebhookPayload) (env : Env W) :
  shops (run (Webhooks.payzcore serve payload) env) = shops env.
Proof.
  unfold run, Webhooks.payzcore, bind, read, with_payments. simpl.
  destruct (Store.getPaymentMapping _ _) as [m|]; simpl; [|done].
  destruct (Store.getShop _ _) as [sd|]; simpl; [|done].
  unfold try_catch, bind.
  match goal with |- context [Webhooks.dispatch serve ?c ?m ?p ?e] =>
    pose proof (dispatch_same_stores c m p e) as (_ & Hs & _);
    destruct (Webhooks.dispatch serve c m p e) as [env' [[]|err]]
  end; simpl in *; exact Hs.
Qed.

(** A poll that reaches the monitoring service stores what it reports
    and says nothing to the commerce system. *)
Lemma get_status_up (api : PayzCore.Api) (paymentId : string) (env : Env W)
    (m : Store.PaymentMapping) (pay : PayzCore.Payment) :
  Store.getPaymentMapping paymentId (payments env) = Some m ->
  PayzCore.getPayment api paymentId = Some pay ->
  payments (run (Payment.get_status api paymentId) env) =
    Store.updatePaymentMappingStatus paymentId (PayzCore.status pay) (payments env) /\
  world (run (Payment.get_status api paymentId) env) = world env /\
  calls (run (Payment.get_status api paymentId) env) = calls env /\
  shops (run (Payment.get_status api paymentId) env) = shops env.
Proof.
  intros Hm Hp.
  unfold run, Payment.get_status, bind, read, try_catch, Payment.getPayment,
    with_payments, ret. simpl.
  rewrite Hm. simpl. rewrite Hp. simpl. done.
Qed.

(** A poll that does not reach it changes nothing but the request log. *)
Lemma get_status_down (api : PayzCore.Api) (paymentId : string) (env : Env W) :
  PayzCore.getPayment api paymentId = None ->
  payments (run (Payment.get_status api paymentId) env) = payments env /\
  world (run (Payment.get_status api paymentId) env) = world env /\
  calls (run (Payment.get_status api paymentId) env) = calls env.
Proof.
  intros Hp.
  unfold run, Payment.get_status, bind, read, try_catch, Payment.getPayment,
    with_payments, ret. simpl.
  destruct (Store.getPaymentMapping _ _); simpl; [|done].
  rewrite Hp. simpl. done.
Qed.

End StoreFacts.

Lemma stored_status_update (db : Store.Payments) (paymentId s : string)
    (m : Store.PaymentMapping) :
  Store.getPaymentMapping paymentId db = Some m ->
  stored_status paymentId (Store.updatePaymentMappingStatus paymentId s db) = Some s.
Proof.
  intros Hm. unfold stored_status. by rewrite (get_after_update _ _ _ _ Hm).
Qed.

(* ===================================================================== *)
(** * Terminal statuses and deadlines *)
(* ===================================================================== *)

(** C1, as the code has it.  There is no guard on the stored status: a
    webhook delivery for a stored payment writes the delivered [status]
    over the stored one, and a status poll that reaches the monitoring
    service writes the polled one, also when the stored status is
    terminal.  The stored status is therefore the same afterwards exactly
    when the observation reports the status that was stored. *)
Theorem stored_status_follows_observation {W : Type}
    (serve : W -> Shopify.Request -> W * Shopify.Reply) (api : PayzCore.Api)
    (env : Proc.Env W) (m : Store.PaymentMapping)
    (payload : Webhooks.WebhookPayload) (pay : PayzCore.Payment) :
  Store.getPaymentMapping (Webhooks.payment_id payload) (Proc.payments env) = Some m ->
  PayzCore.getPayment api (Webhooks.payment_id payload) = Some pay ->
  let pushed := Proc.payments (Proc.run (Webhooks.payzcore serve payload) env) in
  let polled := Proc.payments
                  (Proc.run (Payment.get_status api (Webhooks.payment_id payload)) env) in
  Store.getPaymentMapping (Webhooks.payment_id payload) pushed
    = Some (Store.set_status m (Webhooks.status payload)) /\
  Store.getPaymentMapping (Webhooks.payment_id payload) polled
    = Some (Store.set_status m (PayzCore.status pay)) /\
  (stored_status (Webhooks.payment_id payload) pushed = Some (Store.status m)
     <-> Webhooks.status payload = Store.status m) /\
  (stored_status (Webhooks.payment_id payload) polled = Some (Store.status m)
     <-> PayzCore.status pay = Store.status m).
Proof.
  intros Hm Hp pushed polled.
  assert (Hpush : pushed = Store.updatePaymentMappingStatus
            (Webhooks.payment_id payload) (Webhooks.status payload) (Proc.payments env))
    by apply payzcore_payments.
  destruct (get_status_up api _ env m pay Hm Hp) as (Hpoll & _).
  fold polled in Hpoll. rewrite Hpush, Hpoll.
  rewrite !(get_after_update _ _ _ _ Hm).
  rewrite !(stored_status_update _ _ _ _ Hm).
  repeat split; congruence.
Qed.

(** A record stored as [paid], with the order settled, under a push and
    a poll that both report [expired]. *)
Lemma stored_status_follows_observation_witness :
  let env := Sim.env_of Sim.order1001_paid "paid" 1000 [] in
  let p := Sim.push "payment.expired" "expired" "0" in
  Store.getPaymentMapping "pay_1"
    (Proc.payments (Proc.run (Webhooks.payzcore Sim.serve p) env))
    = Some (Sim.mapping1001 "expired") /\
  Store.getPaymentMapping "pay_1"
    (Proc.payments (Proc.run (Payment.get_status (Sim.api_up "expired") "pay_1") env))
    = Some (Sim.mapping1001 "expired").
Proof.
  intros env p.
  destruct (stored_status_follows_observation Sim.serve (Sim.api_up "expired")
              env (Sim.mapping1001 "paid") p (Sim.payment1 "expired"))
    as (H1 & H2 & _); [reflexivity | reflexivity |].
  split; [exact H1 | exact H2].
Defined.

(** C1 fails as stated: a record stored as [paid] that receives a push
    with [status=expired] is stored as [expired] afterwards. *)
Lemma paid_record_overwritten_by_expired_push :
  Payment.terminal "paid" = true /\
  stored_status "pay_1" (Proc.payments (Sim.env_of Sim.order1001_paid "paid" 1000 []))
    = Some "paid" /\
  stored_status "pay_1"
    (Proc.payments
       (Proc.run (Webhooks.payzcore Sim.serve (Sim.push "payment.expired" "expired" "0"))
                 (Sim.env_of Sim.order1001_paid "paid" 1000 [])))
    = Some "expired".
Proof. vm_compute. repeat split. Qed.

(** C5, as the code has it.  Neither the webhook handler nor the status
    poll reads the clock or the record's [expiresAt]: for a record in a
    non-terminal status whose deadline has passed, the stored status
    after an observation is the status the observation reports, so it is
    [expired] only if the observation says [expired]. *)
Theorem deadline_not_enforced {W : Type}
    (serve : W -> Shopify.Request -> W * Shopify.Reply) (api : PayzCore.Api)
    (parse : string -> option Z) (now : Z)
    (env : Proc.Env W) (m : Store.PaymentMapping)
    (payload : Webhooks.WebhookPayload) (pay : PayzCore.Payment) :
  Store.getPaymentMapping (Webhooks.payment_id payload) (Proc.payments env) = Some m ->
  Payment.terminal (Store.status m) = false ->
  deadline_passed parse now m = true ->
  PayzCore.getPayment api (Webhooks.payment_id payload) = Some pay ->
  stored_status (Webhooks.payment_id payload)
    (Proc.payments (Proc.run (Webhooks.payzcore serve payload) env))
    = Some (Webhooks.status payload) /\
  stored_status (Webhooks.payment_id payload)
    (Proc.payments
       (Proc.run (Payment.get_status api (Webhooks.payment_id payload)) env))
    = Some (PayzCore.status pay).
Proof.
  intros Hm _ _ Hp.
  destruct (get_status_up api _ env m pay Hm Hp) as (Hpoll & _).
  rewrite payzcore_payments, Hpoll.
  by rewrite !(stored_status_update _ _ _ _ Hm).
Qed.

(** A pending record whose deadline of 01:00 has passed at 02:00, under a
    push and a poll that still report [pending]. *)
Lemma deadline_not_enforced_witness :
  let env := Sim.env0 "pending" 1000 [] in
  let p := Sim.push "payment.pending" "pending" "0" in
  stored_status "pay_1"
    (Proc.payments (Proc.run (Webhooks.payzcore Sim.serve p) env)) = Some "pending" /\
  stored_status "pay_1"
    (Proc.payments (Proc.run (Payment.get_status (Sim.api_up "pending") "pay_1") env))
    = Some "pending".
Proof.
  intros env p.
  apply (deadline_not_enforced Sim.serve (Sim.api_up "pending") Js.iso_utc
           1704074400000 env (Sim.mapping1001 "pending") p (Sim.payment1 "pending"));
    reflexivity.
Defined.

(** C5 fails as stated: the record is pending, its deadline
    (2024-01-01T01:00:00Z) lies before now (2024-01-01T02:00:00Z), and
    after a poll that reports [pending] it is still stored as [pending],
    not as [expired]. *)
Lemma overdue_record_stays_pending :
  Payment.terminal "pending" = false /\
  Js.iso_utc "2024-01-01T02:00:00Z" = Some 1704074400000 /\
  deadline_passed Js.iso_utc 1704074400000 (Sim.mapping1001 "pending") = true /\
  stored_status "pay_1" (Proc.payments (Sim.env0 "pending" 1000 [])) = Some "pending" /\
  stored_status "pay_1"
    (Proc.payments
       (Proc.run (Payment.get_status (Sim.api_up "pending") "pay_1")
                 (Sim.env0 "pending" 1000 [])))
    = Some "pending".
Proof. vm_compute. repeat split. Qed.

(* ===================================================================== *)
(** * The status poll when the monitoring service is out of reach *)
(* ===================================================================== *)

(** C8.  For a payment with a stored mapping, when the query to the
    monitoring service fails, GET /payment/:paymentId/status answers 200
    with the status cached in the mapping, [is_terminal = false] and
    [is_paid = false] (and the cached expected amount, a zero paid amount,
    no hash and no transactions); nothing is thrown and the store is as
    it was. *)
Theorem get_status_falls_back_to_cache {W : Type} (api : PayzCore.Api)
    (env : Proc.Env W) (paymentId : string) (m : Store.PaymentMapping) :
  Store.getPaymentMapping paymentId (Proc.payments env) = Some m ->
  PayzCore.getPayment api paymentId = None ->
  Proc.result (Payment.get_status api paymentId) env =
    Proc.Val (Payment.SendStatus 200
      {| Payment.status := Store.status m;
         Payment.paid_amount := "0";
         Payment.expected_amount := Store.expectedAmount m;
         Payment.tx_hash := None;
         Payment.transactions := [];
         Payment.is_terminal := false;
         Payment.is_paid := false |}) /\
  Proc.payments (Proc.run (Payment.get_status api paymentId) env) = Proc.payments env.
Proof.
  intros Hm Hp. split.
  - unfold Proc.result, Payment.get_status, Proc.bind, Proc.read, Proc.try_catch,
      Payment.getPayment, Proc.with_payments, Proc.ret. simpl.
    rewrite Hm. simpl. rewrite Hp. reflexivity.
  - by destruct (get_status_down api paymentId env Hp) as (-> & _).
Qed.

(** The record of [pay_1], cached as [paid], with the service down. *)
Lemma get_status_falls_back_to_cache_witness :
  Proc.result (Payment.get_status Sim.api_down "pay_1")
              (Sim.env_of Sim.order1001_paid "paid" 1000 []) =
    Proc.Val (Payment.SendStatus 200
      {| Payment.status := "paid";
         Payment.paid_amount := "0";
         Payment.expected_amount := "100.00";
         Payment.tx_hash := None;
         Payment.transactions := [];
         Payment.is_terminal := false;
         Payment.is_paid := false |}).
Proof.
  apply (get_status_falls_back_to_cache Sim.api_down
           (Sim.env_of Sim.order1001_paid "paid" 1000 []) "pay_1"
           (Sim.mapping1001 "paid")); reflexivity.
Defined.

(* ===================================================================== *)
(** * Submitting a transaction hash *)
(* ===================================================================== *)

Lemma strip_0x_len (t : string) : Js.len (Js.strip_0x t) <= Js.len t.
Proof.
  unfold Js.len, Js.strip_0x.
  destruct t as [|a [|b r]]; try lia.
  destruct (_ && _); simpl; lia.
Qed.

Lemma conforming_passes_first_check (s : string) :
  conforming (Payment.JString s) = true ->
  negb (Js.truthy s) || (Js.len (Js.trim s) =? 0) = false.
Proof.
  simpl. unfold Payment.is_tx_hash. intros H.
  apply andb_prop in H as [H _]. apply andb_prop in H as [H _].
  apply Z.leb_le in H.
  pose proof (strip_0x_len (Js.trim s)) as Hl.
  destruct s as [|a r].
  - assert (Js.len (Js.strip_0x (Js.trim "")) = 0) by reflexivity. lia.
  - simpl. apply Z.eqb_neq. lia.
Qed.

(** C9.  POST /payment/:paymentId/confirm, for a payment with a stored
    record: a submitted [tx_hash] that, trimmed and without an optional
    [0x] prefix, is not a hexadecimal string of 10 to 128 characters is
    answered with 400 and nothing is sent to the monitoring service; and
    when the record has [requiresTxid] set and a confirm endpoint, a
    conforming hash is forwarded, trimmed, to that endpoint, the answer
    being the service's result, or 500 when the request fails. *)
Theorem post_confirm_validates_and_forwards {W : Type} (api : PayzCore.Api)
    (env : Proc.Env W) (paymentId : string) (m : Store.PaymentMapping)
    (v : Payment.JsonValue) :
  Store.getPaymentMapping paymentId (Proc.payments env) = Some m ->
  (conforming v = false ->
     (exists msg, Proc.result (Payment.post_confirm api paymentId v) env
                  = Proc.Val (Payment.SendError 400 msg)) /\
     Proc.upstream (Proc.run (Payment.post_confirm api paymentId v) env)
       = Proc.upstream env) /\
  (forall s endpoint,
     v = Payment.JString s -> conforming v = true ->
     Store.requiresTxid m = Some true ->
     Store.confirmEndpoint m = Some endpoint -> Js.truthy endpoint = true ->
     Proc.upstream (Proc.run (Payment.post_confirm api paymentId v) env)
       = Proc.upstream env ++ [PayzCore.ConfirmPayment endpoint (Js.trim s)] /\
     Proc.result (Payment.post_confirm api paymentId v) env
       = Proc.Val
           match PayzCore.confirmPayment api endpoint (Js.trim s) with
           | Some success => Payment.SendConfirm 200 success
           | None => Payment.SendError 500
                       "Failed to submit transaction hash. Please try again."
           end).
Proof.
  intros Hm. split.
  - intros Hv.
    unfold Proc.result, Proc.run, Payment.post_confirm, Proc.bind, Proc.read.
    simpl. rewrite Hm.
    destruct (Store.requiresTxid m) as [[|]|]; simpl; eauto.
    destruct (Store.confirmEndpoint m) as [ep|]; simpl; eauto.
    destruct (Js.truthy ep); simpl; eauto.
    destruct v as [| |b|n|s|]; simpl; eauto.
    destruct (negb (Js.truthy s) || _); simpl; eauto.
    simpl in Hv. rewrite Hv. simpl. eauto.
  - intros s endpoint -> Hv Hreq Hep Htruthy.
    pose proof (conforming_passes_first_check s Hv) as H1.
    simpl in Hv.
    unfold Proc.result, Proc.run, Payment.post_confirm, Proc.bind, Proc.read,
      Proc.try_catch, Payment.confirmPayment.
    simpl. rewrite Hm, Hreq, Hep, Htruthy. simpl.
    rewrite H1, Hv. simpl.
    destruct (PayzCore.confirmPayment api endpoint (Js.trim s)); simpl; done.
Qed.

(* ===================================================================== *)
(** * Digests and their hex form *)
(* ===================================================================== *)

(** The model against published digests: FIPS 180-4's one-block and
    two-block messages, the empty message, and an HMAC. *)
Example sha256_abc :
  Crypto.hex (Crypto.sha256 (Js.bytes_of "abc")) =
  "ba7816bf8f01cfea414140de5dae2223b00361a396177a9cb410ff61f20015ad".
Proof. vm_compute. reflexivity. Qed.

Example sha256_two_blocks :
  Crypto.hex (Crypto.sha256
    (Js.bytes_of "abcdbcdecdefdefgefghfghighijhijkijkljklmklmnlmnomnopnopq")) =
  "248d6a61d20638b8e5c026930c3e6039a33ce45964ff2167f6ecedd419db06c1".
Proof. vm_compute. reflexivity. Qed.

Example sha256_empty :
  Crypto.hex (Crypto.sha256 []) =
  "e3b0c44298fc1c149afbf4c8996fb92427ae41e4649b934ca495991b7852b855".
Proof. vm_compute. reflexivity. Qed.

Example hmac_sha256_fox :
  Crypto.hmac_hex "key" "The quick brown fox jumps over the lazy dog" =
  "f7bc83f430538424b13298e6aa6fb143ef4d59a14946175997479dbc2d1a3cd8".
Proof. vm_compute. reflexivity. Qed.


Lemma round_length (st : list Z) (kw : Z * Z) :
  List.length (Crypto.round st kw) = List.length st.
Proof.
  unfold Crypto.round.
  repeat (destruct st as [|? st]; try reflexivity).
Qed.

Lemma rounds_length (kws : list (Z * Z)) (st : list Z) :
  List.length (fold_left Crypto.round kws st) = List.length st.
Proof.
  revert st. induction kws as [|kw kws IH]; intros st; simpl; [done|].
  by rewrite IH, round_length.
Qed.

Lemma zip_add_length (xs ys : list Z) :
  List.length xs = List.length ys ->
  List.length (Crypto.zip_add xs ys) = List.length xs.
Proof.
  revert ys. induction xs as [|x xs IH]; intros [|y ys] H; simpl in *; try done.
  f_equal. apply IH. lia.
Qed.

Lemma compress_length (st block : list Z) :
  List.length (Crypto.compress st block) = List.length st.
Proof.
  unfold Crypto.compress. apply zip_add_length. by rewrite rounds_length.
Qed.

Lemma compress_all_length (bs : list (list Z)) (st : list Z) :
  List.length (fold_left Crypto.compress bs st) = List.length st.
Proof.
  revert st. induction bs as [|b bs IH]; intros st; simpl; [done|].
  by rewrite IH, compress_length.
Qed.

Lemma be_bytes_bytes (n : nat) (x : Z) : Forall is_byte (Crypto.be_bytes n x).
Proof.
  unfold Crypto.be_bytes. apply List.Forall_forall. intros b Hb.
  apply in_map_iff in Hb as (i & <- & _).
  unfold is_byte. apply Z.mod_pos_bound. lia.
Qed.

Lemma be_bytes_length (n : nat) (x : Z) : List.length (Crypto.be_bytes n x) = n.
Proof. unfold Crypto.be_bytes. by rewrite length_map, length_seq. Qed.

Lemma concat_be_bytes (st : list Z) :
  List.length (concat (map (Crypto.be_bytes 4) st)) = (4 * List.length st)%nat /\
  Forall is_byte (concat (map (Crypto.be_bytes 4) st)).
Proof.
  induction st as [|x st [IHl IHb]]; [split; [done|constructor]|].
  cbn [map concat]. split.
  - rewrite length_app, be_bytes_length, IHl. simpl. lia.
  - apply Forall_app. split; [apply be_bytes_bytes|exact IHb].
Qed.

(** A SHA-256 digest is 32 bytes. *)
Lemma sha256_digest (msg : list Z) :
  List.length (Crypto.sha256 msg) = 32%nat /\ Forall is_byte (Crypto.sha256 msg).
Proof.
  unfold Crypto.sha256.
  destruct (concat_be_bytes
              (fold_left Crypto.compress
                 (Crypto.blocks (List.length (Crypto.pad msg) / 64) (Crypto.pad msg))
                 Crypto.H256)) as [Hl Hb].
  split; [|exact Hb].
  rewrite Hl, compress_all_length. reflexivity.
Qed.

Lemma hmac_digest (key msg : list Z) :
  List.length (Crypto.hmac_sha256 key msg) = 32%nat /\
  Forall is_byte (Crypto.hmac_sha256 key msg).
Proof. unfold Crypto.hmac_sha256. apply sha256_digest. Qed.

Lemma nibble_cases (n : Z) :
  0 <= n < 16 ->
  In n [0; 1; 2; 3; 4; 5; 6; 7; 8; 9; 10; 11; 12; 13; 14; 15].
Proof. intros H. simpl. lia. Qed.

Lemma hex_digit_ok (n : Z) :
  0 <= n < 16 ->
  Js.is_hex (Crypto.hex_digit n) = true /\ Crypto.hex_value (Crypto.hex_digit n) = n.
Proof.
  intros H. apply nibble_cases in H. simpl in H.
  repeat (destruct H as [<-|H]; [by vm_compute|]). done.
Qed.

(** The hex form of a digest: two digits per byte, all of them hex
    digits, and decoding gives back the bytes. *)
Lemma hex_ok (bs : list Z) :
  Forall is_byte bs ->
  String.length (Crypto.hex bs) = (2 * List.length bs)%nat /\
  Js.all_chars Js.is_hex (Crypto.hex bs) = true /\
  Crypto.unhex (Crypto.hex bs) = bs.
Proof.
  induction 1 as [|b bs Hb _ (IHl & IHc & IHu)]; [done|].
  unfold is_byte in Hb.
  assert (H1 : 0 <= b / 16 < 16)
    by (split; [apply Z.div_pos; lia | apply Z.div_lt_upper_bound; lia]).
  assert (H2 : 0 <= b mod 16 < 16) by (apply Z.mod_pos_bound; lia).
  destruct (hex_digit_ok _ H1) as [Hh1 Hv1].
  destruct (hex_digit_ok _ H2) as [Hh2 Hv2].
  cbn [Crypto.hex String.length Js.all_chars Crypto.unhex].
  rewrite Hh1, Hh2, Hv1, Hv2, IHl, IHc, IHu.
  repeat split; [simpl; lia|].
  f_equal. pose proof (Z.div_mod b 16). lia.
Qed.

Lemma hmac_hex_ok (secret message : string) :
  VerifyPayzCore.is_hex64 (Crypto.hmac_hex secret message) = true /\
  Crypto.unhex (Crypto.hmac_hex secret message) =
    Crypto.hmac_sha256 (Js.bytes_of secret) (Js.bytes_of message).
Proof.
  unfold Crypto.hmac_hex, VerifyPayzCore.is_hex64, Js.len.
  destruct (hmac_digest (Js.bytes_of secret) (Js.bytes_of message)) as [Hl Hb].
  destruct (hex_ok _ Hb) as (Hhl & Hhc & Hhu).
  rewrite Hhl, Hl, Hhc, Hhu. done.
Qed.


Lemma timingSafeEqual_spec (a b : list Z) :
  List.length a = List.length b ->
  VerifyPayzCore.timingSafeEqual a b = Some (bool_decide (a = b)).
Proof.
  intros Hl. unfold VerifyPayzCore.timingSafeEqual.
  rewrite Hl, Nat.eqb_refl. f_equal.
  revert b Hl. induction a as [|x a IH]; intros [|y b] Hl; simpl in *; try done.
  rewrite IH by lia.
  destruct (Z.eqb_spec x y) as [->|Hne]; simpl.
  - repeat case_bool_decide; congruence.
  - case_bool_decide; congruence.
Qed.

(* ===================================================================== *)
(** * Webhook signature verification *)
(* ===================================================================== *)






Section Verify.
Variable parse : string -> option Z.
Variable secret : string.
Variable now : Z.

Let verify := VerifyPayzCore.verifyPayzCoreWebhook parse secret now.

(** The only answer other than 401 is the 400 for a missing body. *)
Lemma verify_with_body (req : VerifyPayzCore.Request) (B : string) :
  VerifyPayzCore.rawBody req = Some B ->
  verify req = VerifyPayzCore.Next \/
  exists msg, verify req = VerifyPayzCore.Reject 401 msg.
Proof.
  intros HB. unfold verify, VerifyPayzCore.verifyPayzCoreWebhook.
  rewrite HB.
  destruct (VerifyPayzCore.signature req) as [sig|]; [|eauto].
  destruct (Js.truthy sig); simpl; [|eauto].
  destruct (VerifyPayzCore.timestamp req) as [T|]; [|eauto].
  destruct (Js.truthy T); simpl; [|eauto].
  destruct (parse T) as [ts|]; [|eauto].
  destruct (Z.abs (now - ts) >? 5 * 60 * 1000); [eauto|].
  destruct (VerifyPayzCore.is_hex64 sig); simpl; [|eauto].
  destruct (VerifyPayzCore.timingSafeEqual _ _) as [[|]|]; eauto.
Qed.


End Verify.




(** A record in static wallet mode: a hash that is not hexadecimal is
    refused, a padded [0x] hash goes to the record's confirm endpoint. *)
Lemma post_confirm_validates_and_forwards_witness :
  (exists msg,
     Proc.result (Payment.post_confirm (Sim.api_up "pending") "pay_1"
                    (Payment.JString "0xnot-a-hash")) Sim.env_static
     = Proc.Val (Payment.SendError 400 msg)) /\
  Proc.upstream
    (Proc.run (Payment.post_confirm (Sim.api_up "pending") "pay_1"
                 (Payment.JString "  0xabcdef0123456789 ")) Sim.env_static)
  = [PayzCore.ConfirmPayment "/v1/payments/pay_1/confirm" "0xabcdef0123456789"] /\
  Proc.result
    (Payment.post_confirm (Sim.api_up "pending") "pay_1"
       (Payment.JString "  0xabcdef0123456789 ")) Sim.env_static
  = Proc.Val (Payment.SendConfirm 200 true).
Proof.
  destruct (post_confirm_validates_and_forwards (Sim.api_up "pending")
              Sim.env_static "pay_1" Sim.mapping_static
              (Payment.JString "0xnot-a-hash") eq_refl) as [Hbad _].
  destruct (post_confirm_validates_and_forwards (Sim.api_up "pending")
              Sim.env_static "pay_1" Sim.mapping_static
              (Payment.JString "  0xabcdef0123456789 ") eq_refl) as [_ Hgood].
  destruct (Hbad eq_refl) as [H400 _].
  destruct (Hgood "  0xabcdef0123456789 " "/v1/payments/pay_1/confirm"
              eq_refl eq_refl eq_refl eq_refl eq_refl) as [Hfwd Hres].
  split; [exact H400|]. split; [exact Hfwd | exact Hres].
Defined.

(* ===================================================================== *)
(** * Counting the requests a handler sends *)
(* ===================================================================== *)

Lemma count_snoc (k : Shopify.Request -> bool) (l : list Shopify.Request)
    (rq : Shopify.Request) :
  count k (l ++ [rq]) = (count k l + if k rq then 1 else 0)%nat.
Proof.
  unfold count. rewrite List.filter_app, length_app. simpl.
  by destruct (k rq).
Qed.

Section Count.
Import Proc.
Context {W : Type}.
Variable serve : W -> Shopify.Request -> W * Shopify.Reply.
Variable k : Shopify.Request -> bool.

Local Abbreviation quiet := (stable (quiet_rel (W := W) k)).
Local Abbreviation once := (stable (once_rel (W := W) k)).

Lemma quiet_rel_trans (a b c : Env W) :
  quiet_rel k a b -> quiet_rel k b c -> quiet_rel k a c.
Proof. unfold quiet_rel. congruence. Qed.

Lemma quiet_rel_sent (env : Env W) (rq : Shopify.Request) :
  k rq = false -> quiet_rel k env (sent serve rq env).
Proof.
  intros Hk. unfold quiet_rel, sent. simpl.
  rewrite count_snoc, Hk. lia.
Qed.

Lemma quiet_ret {A} (a : A) : quiet (ret a).
Proof. by intros env. Qed.

Lemma quiet_throw {A} (e : string) : quiet (@throw W A e).
Proof. by intros env. Qed.

Lemma quiet_bind {A B} (m : M W A) (f : A -> M W B) :
  quiet m -> (forall a, quiet (f a)) -> quiet (bind m f).
Proof. apply stable_bind, quiet_rel_trans. Qed.

Lemma quiet_try {A} (m : M W A) (h : string -> M W A) :
  quiet m -> (forall e, quiet (h e)) -> quiet (try_catch m h).
Proof. apply stable_try_catch, quiet_rel_trans. Qed.

Lemma quiet_request this c :
  k (rq_of this c) = false -> quiet (ShopifyClient.request serve this c).
Proof.
  intros Hk env. rewrite request_sent. by apply quiet_rel_sent.
Qed.

Lemma once_of_quiet {A} (m : M W A) : quiet m -> once m.
Proof. intros H env. specialize (H env). unfold quiet_rel, once_rel in *. lia. Qed.

Lemma once_request this c : once (ShopifyClient.request serve this c).
Proof.
  intros env. rewrite request_sent. unfold once_rel, sent. simpl.
  rewrite count_snoc. destruct (k _); lia.
Qed.

Lemma once_bind_l {A B} (m : M W A) (f : A -> M W B) :
  once m -> (forall a, quiet (f a)) -> once (bind m f).
Proof.
  intros Hm Hf env. unfold bind.
  specialize (Hm env). destruct (m env) as [env' [a|e]]; simpl in *; [|done].
  specialize (Hf a env'). unfold quiet_rel, once_rel in *. lia.
Qed.

Lemma once_bind_r {A B} (m : M W A) (f : A -> M W B) :
  quiet m -> (forall a, once (f a)) -> once (bind m f).
Proof.
  intros Hm Hf env. unfold bind.
  specialize (Hm env). destruct (m env) as [env' [a|e]]; simpl in *.
  - specialize (Hf a env'). unfold quiet_rel, once_rel in *. lia.
  - unfold quiet_rel, once_rel in *. lia.
Qed.

Lemma once_try_l {A} (m : M W A) (h : string -> M W A) :
  once m -> (forall e, quiet (h e)) -> once (try_catch m h).
Proof.
  intros Hm Hh env. unfold try_catch.
  specialize (Hm env). destruct (m env) as [env' [a|e]]; simpl in *; [done|].
  specialize (Hh e env'). unfold quiet_rel, once_rel in *. lia.
Qed.

End Count.

(** Decide that a handler sends no request satisfying [k], rule by rule. *)
Ltac quiet_tac :=
  cbv beta zeta;
  lazymatch goal with
  | |- stable _ (Proc.ret _) => apply quiet_ret
  | |- stable _ (Proc.throw _) => apply quiet_throw
  | |- stable _ (Proc.bind _ _) =>
      apply quiet_bind; [quiet_tac | intros ?; quiet_tac]
  | |- stable _ (Proc.try_catch _ _) =>
      apply quiet_try; [quiet_tac | intros ?; quiet_tac]
  | |- stable _ (ShopifyClient.request _ _ _) =>
      apply quiet_request; reflexivity
  | |- stable _ (if ?b then _ else _) => destruct b; quiet_tac
  | |- stable _ (match ?d with _ => _ end) => destruct d; quiet_tac
  end.

(** Decide that a handler sends at most one request satisfying [k]: the
    request that may satisfy it is looked for on either side of a bind. *)
Ltac once_tac :=
  cbv beta zeta;
  first
    [ solve [apply once_of_quiet; quiet_tac]
    | lazymatch goal with
      | |- stable _ (Proc.bind _ _) =>
          first [ solve [apply once_bind_r; [quiet_tac | intros ?; once_tac]]
                | solve [apply once_bind_l; [once_tac | intros ?; quiet_tac]] ]
      | |- stable _ (Proc.try_catch _ _) =>
          solve [apply once_try_l; [once_tac | intros ?; quiet_tac]]
      | |- stable _ (ShopifyClient.request _ _ _) => apply once_request
      | |- stable _ (if ?b then _ else _) => destruct b; once_tac
      | |- stable _ (match ?d with _ => _ end) => destruct d; once_tac
      end ].

Section Once.
Import Proc.
Context {W : Type}.
Variable serve : W -> Shopify.Request -> W * Shopify.Reply.

(** One event fires at most one change of each kind. *)
Lemma dispatch_once (t : Effect) this mapping payload :
  stable (once_rel (fires t)) (Webhooks.dispatch serve this mapping payload).
Proof.
  unfold Webhooks.dispatch, Webhooks.handlePaymentSuccess,
    Webhooks.handlePaymentExpired, Webhooks.handlePaymentCancelled,
    Webhooks.handlePaymentPartial, ShopifyClient.markOrderAsPaid,
    ShopifyClient.addOrderNote, ShopifyClient.addOrderTags,
    ShopifyClient.cancelOrder, ShopifyClient.getOrder.
  destruct t; once_tac.
Qed.

End Once.

(* ===================================================================== *)
(** * The webhook handler, step by step *)
(* ===================================================================== *)

Section Steps.
Import Proc.
Context {W : Type}.
Variable serve : W -> Shopify.Request -> W * Shopify.Reply.

(** With the mapping and the shop at hand, the handler stores the
    status, runs the event, and answers 200 or, if the event threw, 500. *)
Lemma payzcore_unfold (payload : Webhooks.WebhookPayload) (env : Env W)
    (m : Store.PaymentMapping) (shop : Store.ShopData) :
  Store.getPaymentMapping (Webhooks.payment_id payload) (payments env) = Some m ->
  Store.getShop (Store.shopDomain m) (shops env) = Some shop ->
  Webhooks.payzcore serve payload env =
  match Webhooks.dispatch serve (client_of m shop) m payload
          (status_stored payload env) with
  | (env', Val _) => (env', Val processed_ok)
  | (env', Exn _) => (env', Val processing_error)
  end.
Proof.
  intros Hm Hs.
  unfold Webhooks.payzcore, bind, read, with_payments, try_catch. simpl.
  rewrite Hm. simpl. rewrite Hs. fold (client_of m shop).
  fold (status_stored payload env).
  by destruct (Webhooks.dispatch _ _ _ _ _) as [env' [[]|e]].
Qed.

(** The success handler reads the order, and captures unless the read
    reported the order as paid. *)
Lemma handlePaymentSuccess_unfold this (m : Store.PaymentMapping)
    (payload : Webhooks.WebhookPayload) (env : Env W) :
  let get := rq_of this (Shopify.GetOrder (Store.shopifyOrderId m)) in
  let tokenLabel := Js.or_else (Store.token m) "USDT" in
  Webhooks.handlePaymentSuccess serve this m payload env =
  if already_paid (snd (serve (world env) get))
  then (sent serve get env, Val tt)
  else
    (ShopifyClient.markOrderAsPaid serve this (Store.shopifyOrderId m)
       (Js.or_else (Webhooks.paid_amount payload) (Store.amount m))
       (Store.currency m) (Webhooks.tx_hash payload) (Webhooks.network payload)
       tokenLabel (Webhooks.payment_id payload) ;;
     ShopifyClient.addOrderNote serve this (Store.shopifyOrderId m)
       (Webhooks.success_note payload tokenLabel) ;;
     ShopifyClient.addOrderTags serve this (Store.shopifyOrderId m)
       (if String.eqb (Webhooks.event payload) "payment.overpaid"
        then "crypto-paid, payzcore, " +:+ Js.toLowerCase tokenLabel +:+ ", overpaid"
        else "crypto-paid, payzcore, " +:+ Js.toLowerCase tokenLabel))
      (sent serve get env).
Proof.
  intros get tokenLabel. subst get tokenLabel.
  unfold Webhooks.handlePaymentSuccess.
  unfold bind at 1. unfold try_catch, bind at 1, ShopifyClient.getOrder.
  unfold bind at 1. unfold ShopifyClient.request at 1.
  unfold sent, rq_of.
  destruct (serve (world env) _) as [w1 [e|o|]]; simpl; try reflexivity.
  by destruct (String.eqb _ _).
Qed.

Lemma snd_bind_exn {A B} (c : M W A) (f : A -> M W B) (env : Env W) (e : string) :
  snd (c env) = Exn e -> snd (bind c f env) = Exn e.
Proof.
  unfold bind. destruct (c env) as [env' [a|e']]; simpl; congruence.
Qed.

Lemma request_fails this (c : Shopify.Call) (env : Env W) (e : string) :
  snd (serve (world env) (rq_of this c)) = Shopify.Failure e ->
  snd (ShopifyClient.request serve this c env) = Exn ("Shopify API error: " +:+ e).
Proof.
  unfold ShopifyClient.request, rq_of.
  destruct (serve _ _) as [w' r]. simpl. by intros ->.
Qed.

(** A capture that fails makes the success handler throw. *)
Lemma success_capture_fails this (m : Store.PaymentMapping)
    (payload : Webhooks.WebhookPayload) (env : Env W) :
  let get := rq_of this (Shopify.GetOrder (Store.shopifyOrderId m)) in
  already_paid (snd (serve (world env) get)) = false ->
  (forall t, exists e,
     snd (serve (fst (serve (world env) get))
                (rq_of this (Shopify.PostTransaction (Store.shopifyOrderId m) t)))
     = Shopify.Failure e) ->
  exists e, snd (Webhooks.handlePaymentSuccess serve this m payload env) = Exn e.
Proof.
  intros get Hunpaid Hfail.
  rewrite handlePaymentSuccess_unfold. fold get. rewrite Hunpaid.
  unfold ShopifyClient.markOrderAsPaid.
  edestruct Hfail as [e He].
  eexists. apply snd_bind_exn, snd_bind_exn, request_fails. exact He.
Qed.

(** The three handlers that catch what the client throws return. *)
Lemma handlePaymentExpired_returns this m payload env :
  snd (Webhooks.handlePaymentExpired serve this m payload env) = Val tt.
Proof.
  unfold Webhooks.handlePaymentExpired, try_catch.
  by destruct (bind _ _ env) as [env' [[]|e]].
Qed.

Lemma handlePaymentCancelled_returns this m payload env :
  snd (Webhooks.handlePaymentCancelled serve this m payload env) = Val tt.
Proof.
  unfold Webhooks.handlePaymentCancelled, try_catch.
  by destruct (bind _ _ env) as [env' [[]|e]].
Qed.

Lemma handlePaymentPartial_returns this m payload env :
  snd (Webhooks.handlePaymentPartial serve this m payload env) = Val tt.
Proof.
  unfold Webhooks.handlePaymentPartial, try_catch.
  by destruct (bind _ _ env) as [env' [[]|e]].
Qed.

Lemma dispatch_other_returns this m payload env :
  is_success_event payload = false ->
  snd (Webhooks.dispatch serve this m payload env) = Val tt.
Proof.
  unfold is_success_event, Webhooks.dispatch. intros ->.
  destruct (String.eqb _ _); [apply handlePaymentExpired_returns|].
  destruct (String.eqb _ _); [apply handlePaymentCancelled_returns|].
  destruct (String.eqb _ _); [apply handlePaymentPartial_returns|].
  reflexivity.
Qed.

(** One delivery fires at most one change of each kind. *)
Lemma payzcore_once (t : Effect) (payload : Webhooks.WebhookPayload) (env : Env W) :
  once_rel (fires t) env (run (Webhooks.payzcore serve payload) env).
Proof.
  unfold run, Webhooks.payzcore, bind, read, with_payments, try_catch. simpl.
  destruct (Store.getPaymentMapping _ _) as [m|]; simpl;
    [|unfold once_rel; lia].
  destruct (Store.getShop _ _) as [sd|]; simpl;
    [|unfold once_rel; simpl; lia].
  match goal with |- context [Webhooks.dispatch serve ?c ?m ?p ?e] =>
    pose proof (dispatch_once serve t c m p e) as H;
    destruct (Webhooks.dispatch serve c m p e) as [env' [[]|err]]
  end; simpl in *; exact H.
Qed.

End Steps.

(* ===================================================================== *)
(** * When a commerce call fails *)
(* ===================================================================== *)

Section Success.
Import Proc.
Context {W : Type}.
Variable serve : W -> Shopify.Request -> W * Shopify.Reply.

(** Past the order read, the success handler throws exactly when one of
    its calls does. *)
Lemma success_calls_throw this (m : Store.PaymentMapping)
    (payload : Webhooks.WebhookPayload) (env : Env W) :
  let get := rq_of this (Shopify.GetOrder (Store.shopifyOrderId m)) in
  already_paid (snd (serve (world env) get)) = false ->
  match snd (Webhooks.handlePaymentSuccess serve this m payload env) with
  | Val _ => success_throws serve this m payload (fst (serve (world env) get)) = false
  | Exn _ => success_throws serve this m payload (fst (serve (world env) get)) = true
  end.
Proof.
  intros get Hunpaid.
  rewrite handlePaymentSuccess_unfold. fold get. rewrite Hunpaid.
  unfold success_throws, ShopifyClient.markOrderAsPaid, ShopifyClient.addOrderNote,
    ShopifyClient.addOrderTags, ShopifyClient.getOrder, success_tags, tags_of.
  fold (capture_of (Js.or_else (Webhooks.paid_amount payload) (Store.amount m))
          (Store.currency m) (Webhooks.tx_hash payload) (Webhooks.network payload)
          (Js.or_else (Store.token m) "USDT") (Webhooks.payment_id payload)).
  unfold bind, ShopifyClient.request, sent, ret, throw. subst get.
  unfold rq_of in *.
  cbn [world calls payments shops upstream].
  repeat match goal with
  | |- context [serve ?w ?rq] =>
      let w' := fresh "w" in let r := fresh "r" in
      destruct (serve w rq) as [w' r]; destruct r;
      cbn [fst snd failed orb world calls payments shops upstream];
      try reflexivity
  end.
Qed.

End Success.

(** C3, as the code has it.  For a delivery whose payment and shop are
    known, the delivered status is stored before any commerce call and is
    not rolled back: whatever the commerce calls do, the stored record is
    the previous one with [status] set to the delivered status.  For a
    [payment.completed] or [payment.overpaid] event the answer is 500
    exactly when the order was not read as paid and one of the calls that
    follow throws, be it the capture, the note, the read of the order's
    tags or the write of the merged tags: none of them is inside a
    try/catch.  Otherwise it is 200 with [processed: true]: for a success
    event that found the order paid or whose calls all went through, and
    for every other event ([payment.expired], [payment.cancelled],
    [payment.partial], unknown ones), where what the commerce calls throw
    is caught and logged. *)
Theorem webhook_failure_handling {W : Type}
    (serve : W -> Shopify.Request -> W * Shopify.Reply)
    (env : Proc.Env W) (payload : Webhooks.WebhookPayload)
    (m : Store.PaymentMapping) (shop : Store.ShopData) :
  Store.getPaymentMapping (Webhooks.payment_id payload) (Proc.payments env) = Some m ->
  Store.getShop (Store.shopDomain m) (Proc.shops env) = Some shop ->
  let this := client_of m shop in
  let get := rq_of this (Shopify.GetOrder (Store.shopifyOrderId m)) in
  Store.getPaymentMapping (Webhooks.payment_id payload)
    (Proc.payments (Proc.run (Webhooks.payzcore serve payload) env))
    = Some (Store.set_status m (Webhooks.status payload)) /\
  (is_success_event payload = false ->
   Proc.result (Webhooks.payzcore serve payload) env = Proc.Val processed_ok) /\
  (is_success_event payload = true ->
   Proc.result (Webhooks.payzcore serve payload) env =
   Proc.Val
     (if already_paid (snd (serve (Proc.world env) get)) then processed_ok
      else if success_throws serve this m payload (fst (serve (Proc.world env) get))
           then processing_error
           else processed_ok)).
Proof.
  intros Hm Hs this get. split; [|split].
  - rewrite payzcore_payments. by apply get_after_update.
  - intros Hev. unfold Proc.result.
    rewrite (payzcore_unfold serve payload env m shop Hm Hs).
    pose proof (dispatch_other_returns serve (client_of m shop) m payload
                  (status_stored payload env) Hev) as Hret.
    destruct (Webhooks.dispatch _ _ _ _ _) as [env' [[]|e]]; simpl in *; congruence.
  - intros Hev. unfold Proc.result.
    rewrite (payzcore_unfold serve payload env m shop Hm Hs).
    unfold Webhooks.dispatch. unfold is_success_event in Hev. rewrite Hev.
    fold this.
    destruct (already_paid (snd (serve (Proc.world env) get))) eqn:Hpaid.
    + rewrite handlePaymentSuccess_unfold.
      change (Proc.world (status_stored payload env)) with (Proc.world env).
      fold get. by rewrite Hpaid.
    + pose proof (success_calls_throw serve this m payload
                    (status_stored payload env) Hpaid) as Hthrow.
      change (Proc.world (status_stored payload env)) with (Proc.world env) in Hthrow.
      fold get in Hthrow.
      destruct (Webhooks.handlePaymentSuccess _ _ _ _ _) as [env' [[]|e']];
        cbn [snd] in Hthrow; by rewrite Hthrow.
Qed.

(** A [payment.completed] delivery whose capture meets an outage is
    answered 500 with the record already stored as [paid]; so is one
    whose capture goes through and whose note meets the outage, the order
    then being paid at the shop; one that meets no outage is answered
    200, and so is a [payment.expired] delivery whose cancel meets
    one. *)
Lemma webhook_failure_handling_witness :
  let env := Sim.env0 "pending" 1000 [false; true] in
  let late := Sim.env0 "pending" 1000 [false; false; true] in
  let calm := Sim.env0 "pending" 1000 [] in
  let done := Sim.push "payment.completed" "paid" "100.00" in
  let gone := Sim.push "payment.expired" "expired" "0" in
  (Proc.result (Webhooks.payzcore Sim.serve done) env = Proc.Val processing_error /\
   Store.getPaymentMapping "pay_1"
     (Proc.payments (Proc.run (Webhooks.payzcore Sim.serve done) env))
   = Some (Sim.mapping1001 "paid")) /\
  (Proc.result (Webhooks.payzcore Sim.serve done) late = Proc.Val processing_error /\
   map effect_of (map Shopify.call
     (Proc.calls (Proc.run (Webhooks.payzcore Sim.serve done) late)))
   = [None; Some Capture; Some Note] /\
   Shopify.financial_status
     (Sim.order (Proc.world (Proc.run (Webhooks.payzcore Sim.serve done) late)))
   = "paid") /\
  Proc.result (Webhooks.payzcore Sim.serve done) calm = Proc.Val processed_ok /\
  Proc.result (Webhooks.payzcore Sim.serve gone) env = Proc.Val processed_ok.
Proof.
  intros env late calm done gone.
  destruct (webhook_failure_handling Sim.serve env done
              (Sim.mapping1001 "pending") Sim.shop_demo eq_refl eq_refl)
    as (Hstored & _ & H500).
  destruct (webhook_failure_handling Sim.serve late done
              (Sim.mapping1001 "pending") Sim.shop_demo eq_refl eq_refl)
    as (_ & _ & Hnote).
  destruct (webhook_failure_handling Sim.serve calm done
              (Sim.mapping1001 "pending") Sim.shop_demo eq_refl eq_refl)
    as (_ & _ & Hcalm).
  destruct (webhook_failure_handling Sim.serve env gone
              (Sim.mapping1001 "pending") Sim.shop_demo eq_refl eq_refl)
    as (_ & H200 & _).
  split; [split|split; [split; [|split]|split]].
  - exact (H500 eq_refl).
  - exact Hstored.
  - exact (Hnote eq_refl).
  - reflexivity.
  - reflexivity.
  - exact (Hcalm eq_refl).
  - apply H200. reflexivity.
Defined.

(** C3 fails as stated: on a [payment.expired] delivery the order is
    read, the cancel request meets an outage (the order is left
    uncancelled and the tag request is never sent), and yet the answer is
    200 with [processed: true] and the record, stored as [pending]
    before, is stored as [expired]. *)
Lemma failed_cancel_is_acknowledged_and_persisted :
  let env := Sim.env0 "pending" 1000 [false; true] in
  let gone := Sim.push "payment.expired" "expired" "0" in
  let after := Proc.run (Webhooks.payzcore Sim.serve gone) env in
  map effect_of (map Shopify.call (Proc.calls after)) = [None; Some Cancel] /\
  Shopify.cancelled_at (Sim.order (Proc.world after)) = None /\
  Webhooks.code <$> (match Proc.result (Webhooks.payzcore Sim.serve gone) env with
                     | Proc.Val r => Some r
                     | Proc.Exn _ => None
                     end) = Some 200 /\
  stored_status "pay_1" (Proc.payments env) = Some "pending" /\
  stored_status "pay_1" (Proc.payments after) = Some "expired".
Proof. vm_compute. repeat split. Qed.

(* ===================================================================== *)
(** * Poll and push *)
(* ===================================================================== *)

Lemma update_twice (db : Store.Payments) (paymentId s : string) :
  Store.updatePaymentMappingStatus paymentId s
    (Store.updatePaymentMappingStatus paymentId s db) =
  Store.updatePaymentMappingStatus paymentId s db.
Proof.
  destruct (db !! paymentId) as [e|] eqn:He.
  - unfold Store.updatePaymentMappingStatus at 1.
    rewrite (update_lookup _ _ _ _ He). simpl.
    unfold Store.updatePaymentMappingStatus. rewrite He.
    rewrite insert_insert_eq. f_equal.
    destruct (0 <? Store.ttl e) eqn:Hpos; simpl; [by rewrite Hpos|done].
  - rewrite (update_absent db) by done. by apply update_absent.
Qed.

(** C4, as the code has it.  A status poll that reaches the monitoring
    service stores the same status as a push that reports it, and that is
    all it does: it sends nothing to the commerce system and leaves it as
    it is, so a poll that is the first to observe [paid] does not mark the
    order as paid; the commerce side effects are those of the push alone.
    For one poll and one push that report the same status, in either
    order, the stored record is the same and at most one change of each
    kind (capture, note, tags, cancel) is sent to the commerce system. *)
Theorem poll_stores_status_only {W : Type}
    (serve : W -> Shopify.Request -> W * Shopify.Reply) (api : PayzCore.Api)
    (env : Proc.Env W) (m : Store.PaymentMapping)
    (payload : Webhooks.WebhookPayload) (pay : PayzCore.Payment) :
  Store.getPaymentMapping (Webhooks.payment_id payload) (Proc.payments env) = Some m ->
  PayzCore.getPayment api (Webhooks.payment_id payload) = Some pay ->
  PayzCore.status pay = Webhooks.status payload ->
  let poll := Proc.run (Payment.get_status api (Webhooks.payment_id payload)) in
  let push := Proc.run (Webhooks.payzcore serve payload) in
  Proc.payments (poll env) = Proc.payments (push env) /\
  Proc.calls (poll env) = Proc.calls env /\
  Proc.world (poll env) = Proc.world env /\
  Proc.payments (push (poll env)) = Proc.payments (poll (push env)) /\
  forall t,
    (count (fires t) (Proc.calls (push (poll env)))
       <= count (fires t) (Proc.calls env) + 1)%nat /\
    (count (fires t) (Proc.calls (poll (push env)))
       <= count (fires t) (Proc.calls env) + 1)%nat.
Proof.
  intros Hm Hp Hst poll push.
  destruct (get_status_up api _ env m pay Hm Hp) as (Hpay & Hworld & Hcalls & _).
  assert (Hm' : Store.getPaymentMapping (Webhooks.payment_id payload)
                  (Proc.payments (push env))
                = Some (Store.set_status m (Webhooks.status payload))).
  { unfold push. rewrite payzcore_payments. by apply get_after_update. }
  destruct (get_status_up api _ (push env) _ pay Hm' Hp) as (Hpay' & _ & Hcalls' & _).
  fold poll in Hpay, Hworld, Hcalls, Hpay', Hcalls'.
  repeat apply conj; try done.
  - rewrite Hpay, Hst. unfold push. by rewrite payzcore_payments.
  - rewrite Hpay'. unfold push at 1 2. rewrite !payzcore_payments.
    rewrite Hpay, Hst. by rewrite update_twice.
  - intros t. split.
    + pose proof (payzcore_once serve t payload (poll env)) as H.
      unfold once_rel in H. fold push in H. rewrite Hcalls in H. lia.
    + rewrite Hcalls'.
      pose proof (payzcore_once serve t payload env) as H.
      unfold once_rel in H. fold push in H. lia.
Qed.

(** A pending payment that a poll and a [payment.completed] push both
    see as [paid]. *)
Lemma poll_stores_status_only_witness :
  let env := Sim.env0 "pending" 1000 [] in
  let poll := Proc.run (Payment.get_status (Sim.api_up "paid") "pay_1") in
  let push := Proc.run (Webhooks.payzcore Sim.serve
                          (Sim.push "payment.completed" "paid" "100.00")) in
  Proc.payments (poll env) = Proc.payments (push env) /\
  Proc.calls (poll env) = [] /\
  (count (fires Capture) (Proc.calls (push (poll env))) <= 1)%nat.
Proof.
  intros env poll push.
  destruct (poll_stores_status_only Sim.serve (Sim.api_up "paid") env
              (Sim.mapping1001 "pending")
              (Sim.push "payment.completed" "paid" "100.00")
              (Sim.payment1 "paid") eq_refl eq_refl eq_refl)
    as (Hsame & Hcalls & _ & _ & Honce).
  split; [exact Hsame|]. split; [exact Hcalls|].
  exact (proj1 (Honce Capture)).
Defined.

(** C4 fails as stated: a poll that is the first to observe [paid]
    stores [paid] and sends nothing to the commerce system, whose order
    stays unpaid, where the push that reports [paid] sends the capture. *)
Lemma poll_observing_paid_marks_nothing :
  let env := Sim.env0 "pending" 1000 [] in
  let polled := Proc.run (Payment.get_status (Sim.api_up "paid") "pay_1") env in
  let pushed := Proc.run (Webhooks.payzcore Sim.serve
                            (Sim.push "payment.completed" "paid" "100.00")) env in
  stored_status "pay_1" (Proc.payments polled) = Some "paid" /\
  Proc.calls polled = [] /\
  Shopify.financial_status (Sim.order (Proc.world polled)) = "pending" /\
  count (fires Capture) (Proc.calls pushed) = 1%nat /\
  Shopify.financial_status (Sim.order (Proc.world pushed)) = "paid".
Proof. vm_compute. repeat split. Qed.

(* ===================================================================== *)
(** * Notes for partial payments *)
(* ===================================================================== *)

Section Notes.
Import Proc.
Context {W : Type}.
Variable serve : W -> Shopify.Request -> W * Shopify.Reply.

Lemma dispatch_partial this m (payload : Webhooks.WebhookPayload) :
  Webhooks.event payload = "payment.partial" ->
  Webhooks.dispatch serve this m payload =
  Webhooks.handlePaymentPartial serve this m payload.
Proof. intros Hev. unfold Webhooks.dispatch. by rewrite Hev. Qed.

Lemma addOrderTags_quiet (k : Shopify.Request -> bool) this o tags :
  k (rq_of this (Shopify.GetOrder o)) = false ->
  (forall t, k (rq_of this (Shopify.PutTags o t)) = false) ->
  stable (quiet_rel k) (ShopifyClient.addOrderTags serve this o tags).
Proof.
  intros Hg Ht.
  apply (stable_addOrderTags serve (quiet_rel k) (fun rq => k rq = false));
    try done.
  - apply quiet_rel_trans.
  - apply quiet_rel_sent.
Qed.

(** The partial handler sends its note, whatever was noted before. *)
Lemma handlePaymentPartial_notes this (m : Store.PaymentMapping)
    (payload : Webhooks.WebhookPayload) (env : Env W) :
  let k := fires_on Note (ShopifyClient.shopDomain this) (Store.shopifyOrderId m) in
  count k (calls (fst (Webhooks.handlePaymentPartial serve this m payload env)))
  = (count k (calls env) + 1)%nat.
Proof.
  intros k. unfold Webhooks.handlePaymentPartial, try_catch.
  unfold bind at 1. unfold ShopifyClient.addOrderNote at 1. unfold bind at 1.
  match goal with |- context [ShopifyClient.request serve this ?c env] =>
    pose proof (request_sent serve this c env) as Hsent;
    assert (Hk : k (rq_of this c) = true)
      by (unfold k, fires_on, rq_of; simpl;
          by rewrite Z.eqb_refl, String.eqb_refl);
    destruct (ShopifyClient.request serve this c env) as [env1 [r|e]]
  end; simpl in Hsent; subst env1.
  - cbn [ret].
    match goal with |- context [ShopifyClient.addOrderTags serve this ?o ?t ?e] =>
      pose proof (addOrderTags_quiet k this o t eq_refl (fun _ => eq_refl) e) as Hq;
      destruct (ShopifyClient.addOrderTags serve this o t e) as [env2 [[]|err]]
    end; simpl in *; unfold quiet_rel in Hq; rewrite Hq;
      unfold sent; simpl; rewrite count_snoc, Hk; lia.
  - simpl. rewrite count_snoc, Hk. lia.
Qed.

Lemma partial_step (payload : Webhooks.WebhookPayload) (env : Env W)
    (m : Store.PaymentMapping) (shop : Store.ShopData) :
  Store.getPaymentMapping (Webhooks.payment_id payload) (payments env) = Some m ->
  Store.getShop (Store.shopDomain m) (shops env) = Some shop ->
  Webhooks.event payload = "payment.partial" ->
  let k := fires_on Note (Store.shopDomain m) (Store.shopifyOrderId m) in
  count k (calls (run (Webhooks.payzcore serve payload) env))
  = (count k (calls env) + 1)%nat.
Proof.
  intros Hm Hs Hev k. unfold run.
  rewrite (payzcore_unfold serve payload env m shop Hm Hs).
  rewrite (dispatch_partial _ _ _ Hev).
  pose proof (handlePaymentPartial_notes (client_of m shop) m payload
                (status_stored payload env)) as H.
  destruct (Webhooks.handlePaymentPartial _ _ _ _ _) as [env' [[]|e]];
    simpl in *; exact H.
Qed.

End Notes.

(** C7, as the code has it.  Notes for partial payments are not keyed by
    anything: every [payment.partial] delivery for a known payment and
    shop sends one note update for the order, whether or not the paid
    amount differs from the one noted before.  A sequence of such
    deliveries sends as many note updates as it has deliveries. *)
Theorem partial_note_per_delivery {W : Type}
    (serve : W -> Shopify.Request -> W * Shopify.Reply)
    (paymentId : string) (m : Store.PaymentMapping) (shop : Store.ShopData)
    (payloads : list Webhooks.WebhookPayload) (env : Proc.Env W) :
  Store.getPaymentMapping paymentId (Proc.payments env) = Some m ->
  Store.getShop (Store.shopDomain m) (Proc.shops env) = Some shop ->
  Forall (fun p => Webhooks.event p = "payment.partial" /\
                   Webhooks.payment_id p = paymentId) payloads ->
  let k := fires_on Note (Store.shopDomain m) (Store.shopifyOrderId m) in
  count k (Proc.calls (Webhooks.deliver serve payloads env))
  = (count k (Proc.calls env) + List.length payloads)%nat.
Proof.
  intros Hm Hs Hall k. revert env m Hm Hs k.
  induction Hall as [|p ps [Hev Hid] _ IH]; intros env m Hm Hs k.
  - simpl. lia.
  - subst paymentId. cbn [Webhooks.deliver List.length].
    pose proof (partial_step serve p env m shop Hm Hs Hev) as Hstep.
    specialize (IH (Proc.run (Webhooks.payzcore serve p) env)
                   (Store.set_status m (Webhooks.status p))).
    rewrite payzcore_payments, payzcore_shops in IH.
    specialize (IH (get_after_update _ _ _ _ Hm) Hs).
    cbn zeta in IH, Hstep. simpl in IH. fold k in IH, Hstep.
    rewrite IH, Hstep. lia.
Qed.

(** Expected 50: partial deliveries reporting 30, 30 and 45 send three
    note updates. *)
Lemma partial_note_per_delivery_witness :
  let env := Sim.env0 "pending" 1000 [] in
  count (fires_on Note "demo.myshopify.com" 1001)
    (Proc.calls (Webhooks.deliver Sim.serve
                   [Sim.partial "30"; Sim.partial "30"; Sim.partial "45"] env))
  = 3%nat.
Proof.
  intros env.
  apply (partial_note_per_delivery Sim.serve "pay_1" (Sim.mapping1001 "pending")
           Sim.shop_demo [Sim.partial "30"; Sim.partial "30"; Sim.partial "45"] env);
    [reflexivity | reflexivity |].
  repeat constructor.
Defined.

(** C7 fails as stated: after a first partial delivery reporting a paid
    amount of 30 has sent its note, a second one that still reports 30
    sends another note. *)
Lemma unchanged_partial_amount_is_noted_again :
  let env := Sim.env0 "pending" 1000 [] in
  let notes log := count (fires_on Note "demo.myshopify.com" 1001) log in
  notes (Proc.calls (Webhooks.deliver Sim.serve [Sim.partial "30"] env)) = 1%nat /\
  notes (Proc.calls (Webhooks.deliver Sim.serve
                       [Sim.partial "30"; Sim.partial "30"] env)) = 2%nat /\
  notes (Proc.calls (Webhooks.deliver Sim.serve
                       [Sim.partial "30"; Sim.partial "30"; Sim.partial "45"] env))
    = 3%nat.
Proof. vm_compute. repeat split. Qed.

(* ===================================================================== *)
(** * Duplicate deliveries of a paid notification *)
(* ===================================================================== *)

Section Captures.
Import Proc.
Context {W : Type}.
Variable serve : W -> Shopify.Request -> W * Shopify.Reply.
(** The states of the commerce system in which the order is settled. *)
Variable Paid : W -> Prop.
Variable this : ShopifyClient.Client.
Variable o : Z.

Let k := fires_on Capture (ShopifyClient.shopDomain this) o.
Let get := rq_of this (Shopify.GetOrder o).

(** A settled order stays settled, and reads as paid. *)
Hypothesis Paid_stays : forall w rq, Paid w -> Paid (fst (serve w rq)).
Hypothesis Paid_reads : forall w, Paid w -> already_paid (snd (serve w get)) = true.

Lemma settled_rel_sent (env : Env W) (rq : Shopify.Request) :
  k rq = false -> settled_rel Paid k env (sent serve rq env).
Proof using Paid_stays.
  intros Hk. split.
  - simpl. apply Paid_stays.
  - by apply quiet_rel_sent.
Qed.

Lemma settled_rel_trans (a b c : Env W) :
  settled_rel Paid k a b -> settled_rel Paid k b c -> settled_rel Paid k a c.
Proof. intros [? ?] [? ?]. split; [tauto|congruence]. Qed.

Lemma markOrderAsPaid_sent a c h n t i (env : Env W) :
  fst (ShopifyClient.markOrderAsPaid serve this o a c h n t i env) =
  sent serve (rq_of this (Shopify.PostTransaction o (capture_of a c h n t i))) env.
Proof.
  unfold ShopifyClient.markOrderAsPaid, bind.
  pose proof (request_sent serve this
                (Shopify.PostTransaction o (capture_of a c h n t i)) env) as H.
  unfold capture_of in H. cbv zeta in H |- *.
  destruct (ShopifyClient.request _ _ _ _) as [env' [r|e]]; simpl in *; exact H.
Qed.

Lemma markOrderAsPaid_returns a c h n t i (env : Env W) :
  (forall e, snd (serve (world env)
                    (rq_of this (Shopify.PostTransaction o (capture_of a c h n t i))))
             <> Shopify.Failure e) ->
  snd (ShopifyClient.markOrderAsPaid serve this o a c h n t i env) = Val tt.
Proof.
  intros Hok. unfold ShopifyClient.markOrderAsPaid, bind, ShopifyClient.request.
  unfold capture_of, rq_of in Hok. cbv zeta in Hok |- *.
  destruct (serve _ _) as [w' [e|ord|]]; simpl in *; try done.
  by destruct (Hok e).
Qed.

(** A delivery that finds the order settled sends no capture. *)
Lemma success_settled (m : Store.PaymentMapping)
    (payload : Webhooks.WebhookPayload) (env : Env W) :
  Store.shopifyOrderId m = o ->
  Paid (world env) ->
  let env' := fst (Webhooks.handlePaymentSuccess serve this m payload env) in
  Paid (world env') /\ count k (calls env') = count k (calls env).
Proof using Paid_stays Paid_reads.
  intros Ho HP. rewrite handlePaymentSuccess_unfold, Ho. fold get.
  rewrite (Paid_reads _ HP). simpl. split.
  - by apply Paid_stays.
  - by rewrite count_snoc.
Qed.

(** A delivery that reads the order as unpaid, and whose capture goes
    through and settles it, sends exactly one capture. *)
Lemma success_first (m : Store.PaymentMapping)
    (payload : Webhooks.WebhookPayload) (env : Env W) :
  Store.shopifyOrderId m = o ->
  already_paid (snd (serve (world env) get)) = false ->
  (forall t,
     let r := serve (fst (serve (world env) get))
                    (rq_of this (Shopify.PostTransaction o t)) in
     (forall e, snd r <> Shopify.Failure e) /\ Paid (fst r)) ->
  let env' := fst (Webhooks.handlePaymentSuccess serve this m payload env) in
  Paid (world env') /\ count k (calls env') = (count k (calls env) + 1)%nat.
Proof using Paid_stays.
  intros Ho Hunpaid Hcap env'.
  assert (Henv' : env' = fst (Webhooks.handlePaymentSuccess serve this m payload env))
    by reflexivity.
  clearbody env'.
  rewrite handlePaymentSuccess_unfold, Ho in Henv'. fold get in Henv'.
  rewrite Hunpaid in Henv'. cbv zeta in Henv'.
  set (env1 := sent serve get env) in Henv'.
  unfold bind at 1 in Henv'.
  match type of Henv' with
  | context [ShopifyClient.markOrderAsPaid serve this o ?a ?c ?h ?n ?t ?i env1] =>
    pose proof (markOrderAsPaid_sent a c h n t i env1) as Hsent;
    destruct (Hcap (capture_of a c h n t i)) as [Hok Hpaid];
    pose proof (markOrderAsPaid_returns a c h n t i env1 Hok) as Hret;
    destruct (ShopifyClient.markOrderAsPaid serve this o a c h n t i env1)
      as [env2 r2]
  end.
  simpl in Hsent, Hret. subst env2 r2. cbv beta iota in Henv'.
  match type of Henv' with
  | context [bind ?c ?f ?e] =>
    assert (Hrest : settled_rel Paid k e (fst (bind c f e)))
  end.
  { apply (stable_bind (settled_rel Paid k)); [apply settled_rel_trans| |].
    - apply (stable_addOrderNote serve (settled_rel Paid k) (fun rq => k rq = false));
        [done | apply settled_rel_trans | apply settled_rel_sent | done].
    - intros _.
      apply (stable_addOrderTags serve (settled_rel Paid k) (fun rq => k rq = false));
        [done | apply settled_rel_trans | apply settled_rel_sent | done | done]. }
  rewrite <- Henv' in Hrest. destruct Hrest as [HP Hc]. split.
  - apply HP. exact Hpaid.
  - rewrite Hc. unfold sent, env1. simpl. rewrite !count_snoc.
    replace (k get) with false by done.
    replace (k (rq_of this (Shopify.PostTransaction o _))) with true.
    + lia.
    + unfold k, fires_on, rq_of. simpl. by rewrite Z.eqb_refl, String.eqb_refl.
Qed.

Lemma dispatch_completed that m (payload : Webhooks.WebhookPayload) :
  Webhooks.event payload = "payment.completed" ->
  Webhooks.dispatch serve that m payload =
  Webhooks.handlePaymentSuccess serve that m payload.
Proof. intros Hev. unfold Webhooks.dispatch. by rewrite Hev. Qed.

Variable shop : Store.ShopData.
Variable payload : Webhooks.WebhookPayload.
Hypothesis completed : Webhooks.event payload = "payment.completed".

Lemma delivery_settled (m : Store.PaymentMapping) (env : Env W) :
  Store.getPaymentMapping (Webhooks.payment_id payload) (payments env) = Some m ->
  Store.getShop (Store.shopDomain m) (shops env) = Some shop ->
  client_of m shop = this -> Store.shopifyOrderId m = o ->
  Paid (world env) ->
  let env' := run (Webhooks.payzcore serve payload) env in
  Paid (world env') /\ count k (calls env') = count k (calls env).
Proof using Paid_stays Paid_reads completed.
  intros Hm Hs Hthis Ho HP. unfold run.
  rewrite (payzcore_unfold serve payload env m shop Hm Hs), Hthis.
  rewrite (dispatch_completed _ _ _ completed).
  pose proof (success_settled m payload (status_stored payload env) Ho HP) as H.
  destruct (Webhooks.handlePaymentSuccess _ _ _ _ _) as [env' [[]|e]];
    simpl in *; exact H.
Qed.

Lemma delivery_first (m : Store.PaymentMapping) (env : Env W) :
  Store.getPaymentMapping (Webhooks.payment_id payload) (payments env) = Some m ->
  Store.getShop (Store.shopDomain m) (shops env) = Some shop ->
  client_of m shop = this -> Store.shopifyOrderId m = o ->
  already_paid (snd (serve (world env) get)) = false ->
  (forall t,
     let r := serve (fst (serve (world env) get))
                    (rq_of this (Shopify.PostTransaction o t)) in
     (forall e, snd r <> Shopify.Failure e) /\ Paid (fst r)) ->
  let env' := run (Webhooks.payzcore serve payload) env in
  Paid (world env') /\ count k (calls env') = (count k (calls env) + 1)%nat.
Proof using Paid_stays completed.
  intros Hm Hs Hthis Ho Hunpaid Hcap. unfold run.
  rewrite (payzcore_unfold serve payload env m shop Hm Hs), Hthis.
  rewrite (dispatch_completed _ _ _ completed).
  pose proof (success_first m payload (status_stored payload env) Ho Hunpaid Hcap)
    as H.
  destruct (Webhooks.handlePaymentSuccess _ _ _ _ _) as [env' [[]|e]];
    simpl in *; exact H.
Qed.

(** Once the order is settled, further deliveries send no capture. *)
Lemma deliveries_settled (n : nat) (m : Store.PaymentMapping) (env : Env W) :
  Store.getPaymentMapping (Webhooks.payment_id payload) (payments env) = Some m ->
  Store.getShop (Store.shopDomain m) (shops env) = Some shop ->
  client_of m shop = this -> Store.shopifyOrderId m = o ->
  Paid (world env) ->
  count k (calls (Webhooks.deliver serve (repeat payload n) env))
  = count k (calls env).
Proof using Paid_stays Paid_reads completed.
  revert m env. induction n as [|n IH]; intros m env Hm Hs Hthis Ho HP; [done|].
  cbn [repeat Webhooks.deliver].
  destruct (delivery_settled m env Hm Hs Hthis Ho HP) as [HP' Hc].
  rewrite (IH (Store.set_status m (Webhooks.status payload))); try done.
  - rewrite payzcore_payments. by apply get_after_update.
  - by rewrite payzcore_shops.
Qed.

End Captures.

(** C2, as the code has it.  The only guard against a second capture is
    the read of the order that precedes it: a delivery skips the capture
    when that read reports [financial_status = paid], and captures when
    it reports anything else or fails.  So, for a known payment and shop,
    a sequence of one or more duplicate [payment.completed] deliveries
    sends exactly one capture for the mapped order provided the first
    delivery reads the order as unpaid, its capture goes through and
    settles the order, and from then on the commerce system keeps the
    order settled and reports it as paid on every read. *)
Theorem duplicate_paid_pushes_capture_once {W : Type}
    (serve : W -> Shopify.Request -> W * Shopify.Reply) (Paid : W -> Prop)
    (env : Proc.Env W) (m : Store.PaymentMapping) (shop : Store.ShopData)
    (payload : Webhooks.WebhookPayload) (n : nat) :
  Store.getPaymentMapping (Webhooks.payment_id payload) (Proc.payments env) = Some m ->
  Store.getShop (Store.shopDomain m) (Proc.shops env) = Some shop ->
  Webhooks.event payload = "payment.completed" ->
  let this := client_of m shop in
  let o := Store.shopifyOrderId m in
  let get := rq_of this (Shopify.GetOrder o) in
  (forall w rq, Paid w -> Paid (fst (serve w rq))) ->
  (forall w, Paid w -> already_paid (snd (serve w get)) = true) ->
  already_paid (snd (serve (Proc.world env) get)) = false ->
  (forall t,
     let r := serve (fst (serve (Proc.world env) get))
                    (rq_of this (Shopify.PostTransaction o t)) in
     (forall e, snd r <> Shopify.Failure e) /\ Paid (fst r)) ->
  count (fires_on Capture (Store.shopDomain m) o)
    (Proc.calls (Webhooks.deliver serve (repeat payload (S n)) env))
  = (count (fires_on Capture (Store.shopDomain m) o) (Proc.calls env) + 1)%nat.
Proof.
  intros Hm Hs Hev this o get Hstays Hreads Hunpaid Hcap.
  cbn [repeat Webhooks.deliver].
  destruct (delivery_first serve Paid this o Hstays shop payload Hev m env
              Hm Hs eq_refl eq_refl Hunpaid Hcap) as [HP Hc].
  rewrite (deliveries_settled serve Paid this o Hstays Hreads shop payload Hev n
             (Store.set_status m (Webhooks.status payload))); try done.
  - rewrite payzcore_payments. by apply get_after_update.
  - by rewrite payzcore_shops.
Qed.

Lemma Sim_settled_stays (w : Sim.World) (rq : Shopify.Request) :
  Sim.settled w -> Sim.settled (fst (Sim.serve w rq)).
Proof.
  destruct w as [ord fs]. intros (Hpaid & Hid & Hfs). simpl in *. subst fs.
  unfold Sim.serve, Sim.answer. simpl.
  destruct (Sim.target (Shopify.call rq) =? Shopify.id ord); simpl; [|done].
  destruct (Shopify.call rq); simpl; done.
Qed.

Lemma Sim_settled_reads (w : Sim.World) (host token : string) :
  Sim.settled w ->
  already_paid (snd (Sim.serve w {| Shopify.host := host;
                                    Shopify.access_token := token;
                                    Shopify.call := Shopify.GetOrder 1001 |})) = true.
Proof.
  destruct w as [ord fs]. intros (Hpaid & Hid & Hfs). simpl in *. subst fs.
  unfold Sim.serve, Sim.answer. simpl. rewrite Hid. simpl. by rewrite Hpaid.
Qed.

(** Three deliveries of the same [payment.completed] notification to a
    shop that is up: one capture. *)
Lemma duplicate_paid_pushes_capture_once_witness :
  let env := Sim.env0 "pending" 1000 [] in
  let p := Sim.push "payment.completed" "paid" "100.00" in
  count (fires_on Capture "demo.myshopify.com" 1001)
    (Proc.calls (Webhooks.deliver Sim.serve [p; p; p] env)) = 1%nat.
Proof.
  intros env p.
  apply (duplicate_paid_pushes_capture_once Sim.serve Sim.settled env
           (Sim.mapping1001 "pending") Sim.shop_demo p 2).
  - reflexivity.
  - reflexivity.
  - reflexivity.
  - apply Sim_settled_stays.
  - intros w Hw. by apply Sim_settled_reads.
  - reflexivity.
  - intros t. split; [intros e; discriminate | repeat split].
Defined.

(** C2 fails as stated: the first delivery captures and settles the
    order; the order read of the second, duplicate delivery meets an
    outage, the handler proceeds, and a second capture is sent. *)
Lemma duplicate_push_captures_twice_when_read_fails :
  let env := Sim.env0 "pending" 1000 [false; false; false; false; false; true] in
  let p := Sim.push "payment.completed" "paid" "100.00" in
  let captures log := count (fires_on Capture "demo.myshopify.com" 1001) log in
  captures (Proc.calls (Webhooks.deliver Sim.serve [p] env)) = 1%nat /\
  Shopify.financial_status
    (Sim.order (Proc.world (Webhooks.deliver Sim.serve [p] env))) = "paid" /\
  captures (Proc.calls (Webhooks.deliver Sim.serve [p; p] env)) = 2%nat.
Proof. vm_compute. repeat split. Qed.

(* ===================================================================== *)
(** * The payment and shop key spaces *)
(* ===================================================================== *)

(** X1.  A mapping that has been saved is the one read back under its
    id; it lives for seven days (604800 seconds), whatever was stored
    under the id before, and no other key is touched.  A deleted mapping
    is not read back, and a status write does not bring it back: a status
    write never creates a record. *)
Theorem save_get_delete (db : Store.Payments) (paymentId s : string)
    (m : Store.PaymentMapping) :
  Store.getPaymentMapping paymentId (Store.savePaymentMapping paymentId m db) = Some m /\
  Store.ttl <$> (Store.savePaymentMapping paymentId m db !! paymentId) = Some 604800 /\
  delete paymentId (Store.savePaymentMapping paymentId m db) = delete paymentId db /\
  Store.getPaymentMapping paymentId
    (Store.deletePaymentMapping paymentId (Store.savePaymentMapping paymentId m db)) = None /\
  Store.updatePaymentMappingStatus paymentId s (Store.deletePaymentMapping paymentId db) =
    Store.deletePaymentMapping paymentId db.
Proof.
  unfold Store.getPaymentMapping, Store.savePaymentMapping,
    Store.updatePaymentMappingStatus, Store.deletePaymentMapping.
  rewrite lookup_insert_eq, delete_insert_eq, !lookup_delete_eq. by repeat split.
Qed.

(** X2.  Of two status writes to the same payment only the second shows:
    the record and its time to live are those of the second write alone. *)
Theorem update_then_update (db : Store.Payments) (paymentId s1 s2 : string) :
  Store.updatePaymentMappingStatus paymentId s2
    (Store.updatePaymentMappingStatus paymentId s1 db) =
  Store.updatePaymentMappingStatus paymentId s2 db.
Proof.
  unfold Store.updatePaymentMappingStatus.
  destruct (db !! paymentId) as [e|] eqn:He.
  - rewrite lookup_insert_eq. cbn [Store.value Store.ttl].
    rewrite insert_insert_eq. f_equal. f_equal.
    destruct (0 <? Store.ttl e) eqn:Ht; [by rewrite Ht|].
    reflexivity.
  - by rewrite He.
Qed.

(** X3.  What the scan by order finds is a stored mapping of that very
    shop and order, held under one of the scanned keys. *)
Theorem findPaymentByOrderId_sound (keys : list string) (shop : string)
    (orderId : Z) (db : Store.Payments) (m : Store.PaymentMapping) :
  Store.findPaymentByOrderId keys shop orderId db = Some m ->
  Store.shopDomain m = shop /\ Store.shopifyOrderId m = orderId /\
  exists key, In key keys /\ Store.getPaymentMapping key db = Some m.
Proof.
  induction keys as [|key rest IH]; [done|].
  cbn [Store.findPaymentByOrderId].
  destruct (db !! key) as [raw|] eqn:Hk.
  - destruct (String.eqb _ shop && (_ =? orderId)) eqn:Hm.
    + intros [= <-]. apply andb_true_iff in Hm as [Hs Ho].
      apply String.eqb_eq in Hs. apply Z.eqb_eq in Ho.
      repeat split; [done..|]. exists key. split; [by left|].
      unfold Store.getPaymentMapping. by rewrite Hk.
    + intros H. destruct (IH H) as (? & ? & k & ? & ?).
      repeat split; [done..|]. exists k. split; [by right|done].
  - intros H. destruct (IH H) as (? & ? & k & ? & ?).
    repeat split; [done..|]. exists k. split; [by right|done].
Qed.

Lemma findPaymentByOrderId_sound_witness :
  let db := Store.savePaymentMapping "pay_1" (Sim.mapping1001 "pending") ∅ in
  Store.findPaymentByOrderId ["pay_0"; "pay_1"] "demo.myshopify.com" 1001 db
    = Some (Sim.mapping1001 "pending") /\
  exists key, In key ["pay_0"; "pay_1"] /\
    Store.getPaymentMapping key db = Some (Sim.mapping1001 "pending").
Proof.
  intros db.
  assert (H : Store.findPaymentByOrderId ["pay_0"; "pay_1"] "demo.myshopify.com" 1001 db
              = Some (Sim.mapping1001 "pending")) by reflexivity.
  split; [exact H|].
  exact (proj2 (proj2 (findPaymentByOrderId_sound _ _ _ _ _ H))).
Defined.

(** X4.  The scan by order comes back empty exactly when none of the
    scanned keys holds a mapping of that shop and order. *)
Theorem findPaymentByOrderId_none (keys : list string) (shop : string)
    (orderId : Z) (db : Store.Payments) :
  Store.findPaymentByOrderId keys shop orderId db = None <->
  forall key m, In key keys -> Store.getPaymentMapping key db = Some m ->
    Store.shopDomain m = shop -> Store.shopifyOrderId m = orderId -> False.
Proof.
  unfold Store.getPaymentMapping.
  induction keys as [|key rest IH]; cbn [Store.findPaymentByOrderId].
  - split; [intros _ ? ? []|done].
  - destruct (db !! key) as [raw|] eqn:Hk.
    + destruct (String.eqb _ shop && (_ =? orderId)) eqn:Hm.
      * split; [done|]. intros H. exfalso.
        apply andb_true_iff in Hm as [Hs Ho].
        apply String.eqb_eq in Hs. apply Z.eqb_eq in Ho.
        apply (H key (Store.value raw)); [by left|by rewrite Hk|done..].
      * rewrite IH. split.
        -- intros H k m [<-|Hin] Hg Hs Ho; [|by eapply H].
           rewrite Hk in Hg. injection Hg as <-.
           apply andb_false_iff in Hm as [Hm|Hm].
           ++ apply String.eqb_neq in Hm. done.
           ++ apply Z.eqb_neq in Hm. done.
        -- intros H k m Hin. apply H. by right.
    + rewrite IH. split.
      * intros H k m [<-|Hin] Hg; [by rewrite Hk in Hg|by eapply H].
      * intros H k m Hin. apply H. by right.
Qed.

(** X5.  The shop key space: a saved shop is read back and reported as
    installed, a deleted one is neither, and [hasShop] agrees with
    [getShop] on every domain. *)
Theorem shop_round_trip (db : Store.Shops) (domain : string) (data : Store.ShopData) :
  Store.getShop domain (Store.saveShop domain data db) = Some data /\
  Store.hasShop domain (Store.saveShop domain data db) = true /\
  Store.getShop domain (Store.deleteShop domain (Store.saveShop domain data db)) = None /\
  Store.hasShop domain (Store.deleteShop domain db) = false /\
  Store.hasShop domain db = bool_decide (is_Some (Store.getShop domain db)).
Proof.
  unfold Store.getShop, Store.hasShop, Store.saveShop, Store.deleteShop.
  rewrite lookup_insert_eq, !lookup_delete_eq. repeat split.
  destruct (db !! domain) eqn:H.
  - symmetry. apply bool_decide_eq_true. by eexists.
  - symmetry. apply bool_decide_eq_false. by intros [? ?].
Qed.

(* ===================================================================== *)
(** * Shop domains *)
(* ===================================================================== *)

Lemma append_cons (c : ascii) (s t : string) :
  String c s +:+ t = String c (s +:+ t).
Proof. reflexivity. Qed.

Lemma all_chars_app (p : ascii -> bool) (s t : string) :
  Js.all_chars p (s +:+ t) = Js.all_chars p s && Js.all_chars p t.
Proof.
  induction s as [|c s IH]; [done|].
  rewrite append_cons. cbn [Js.all_chars]. rewrite IH. by rewrite andb_assoc.
Qed.

Lemma all_chars_impl (p q : ascii -> bool) (s : string) :
  (forall c, p c = true -> q c = true) ->
  Js.all_chars p s = true -> Js.all_chars q s = true.
Proof.
  intros Hpq. induction s as [|c s IH]; [done|].
  cbn [Js.all_chars]. intros [Hc Hs]%andb_true_iff.
  by rewrite (Hpq _ Hc), (IH Hs).
Qed.

Lemma label_then_suffix_spec (s : string) :
  VerifyShopify.label_then_suffix s = true <->
  exists label, s = label +:+ ".myshopify.com" /\
                Js.all_chars VerifyShopify.is_label_char label = true.
Proof.
  split.
  - induction s as [|c r IH]; [done|].
    cbn [VerifyShopify.label_then_suffix].
    destruct (VerifyShopify.is_label_char c) eqn:Hc.
    + intros H. destruct (IH H) as (label & -> & Hl).
      exists (String c label). split; [done|].
      cbn [Js.all_chars]. by rewrite Hc, Hl.
    + intros H%String.eqb_eq. by exists "".
  - intros (label & -> & Hl). induction label as [|c l IH].
    + reflexivity.
    + cbn [Js.all_chars] in Hl. apply andb_true_iff in Hl as [Hc Hl].
      rewrite append_cons. cbn [VerifyShopify.label_then_suffix].
      rewrite Hc. by apply IH.
Qed.

Lemma shop_domain_shape (shop : string) :
  VerifyShopify.isValidShopDomain shop = true <->
  exists c label,
    shop = String c label +:+ ".myshopify.com" /\
    Js.is_alnum c = true /\
    Js.all_chars VerifyShopify.is_label_char label = true.
Proof.
  unfold VerifyShopify.isValidShopDomain. destruct shop as [|c r].
  - split; [done|]. by intros (? & ? & ? & _).
  - rewrite andb_true_iff, label_then_suffix_spec. split.
    + intros (Hc & label & -> & Hl). by exists c, label.
    + intros (c' & label & [= <- ->] & Hc & Hl). split; [done|by exists label].
Qed.

(** X6.  A shop domain is accepted exactly when it is one letter or
    digit, then any number of letters, digits and hyphens, then
    [.myshopify.com] and nothing after it. *)
Theorem isValidShopDomain_spec (shop : string) :
  VerifyShopify.isValidShopDomain shop = true <->
  exists c label,
    shop = String c label +:+ ".myshopify.com" /\
    Js.is_alnum c = true /\
    Js.all_chars VerifyShopify.is_label_char label = true.
Proof. apply shop_domain_shape. Qed.

(** X7.  An accepted shop domain is made of letters, digits, hyphens and
    dots only, and is not empty: put after [https://] it is the host of
    the URL and nothing more, with no slash, colon, at sign, question
    mark or white space in it. *)
Theorem valid_shop_is_a_host (shop : string) :
  VerifyShopify.isValidShopDomain shop = true ->
  Js.all_chars host_char shop = true /\ Js.truthy shop = true.
Proof.
  intros (c & label & -> & Hc & Hl)%shop_domain_shape. split; [|done].
  rewrite append_cons. cbn [Js.all_chars]. rewrite all_chars_app.
  unfold host_char at 1. rewrite Hc. cbn [orb andb].
  rewrite (all_chars_impl VerifyShopify.is_label_char host_char label); [done| |done].
  intros a Ha. unfold host_char. unfold VerifyShopify.is_label_char in Ha.
  by rewrite Ha.
Qed.

Lemma valid_shop_is_a_host_witness :
  VerifyShopify.isValidShopDomain "demo.myshopify.com" = true /\
  Js.all_chars host_char "demo.myshopify.com" = true /\
  Js.truthy "demo.myshopify.com" = true.
Proof.
  split; [reflexivity|].
  apply (valid_shop_is_a_host "demo.myshopify.com"). reflexivity.
Defined.

(* ===================================================================== *)
(** * Networks and tokens *)
(* ===================================================================== *)

Ltac eqb_cases x :=
  repeat match goal with
  | |- context [String.eqb x ?b] =>
      destruct (String.eqb_spec x b) as [->|_]
  end.

Lemma includes_In (xs : list string) (x : string) :
  Js.includes xs x = true <-> In x xs.
Proof.
  unfold Js.includes. rewrite existsb_exists. split.
  - intros (y & Hy & ->%String.eqb_eq). done.
  - intros H. exists x. by rewrite String.eqb_refl.
Qed.

Lemma isValidNetworkToken_eq (network token : string) :
  PayzCore.isValidNetworkToken network token =
  if PayzCore.isValidNetwork network
  then Some (PayzCore.isValidToken token
             && negb (String.eqb network "TRC20" && String.eqb token "USDC"))
  else None.
Proof.
  unfold PayzCore.isValidNetworkToken, PayzCore.VALID_NETWORK_TOKEN,
    PayzCore.isValidNetwork, PayzCore.isValidToken, PayzCore.SUPPORTED_NETWORKS,
    PayzCore.SUPPORTED_TOKENS, Js.includes.
  cbn [existsb]. eqb_cases network; cbn; eqb_cases token; reflexivity.
Qed.

(** X8.  A network and token combine exactly when both are supported and
    the pair is not USDC on TRC20; on a network that is not supported the
    check throws. *)
Theorem isValidNetworkToken_spec (network token : string) :
  PayzCore.isValidNetworkToken network token =
  if PayzCore.isValidNetwork network
  then Some (PayzCore.isValidToken token
             && negb (String.eqb network "TRC20" && String.eqb token "USDC"))
  else None.
Proof. apply isValidNetworkToken_eq. Qed.

(** X9.  Every table keyed by network has an entry for exactly the
    supported networks, and the configuration's own copies of the network
    list and of the combination table are equal to the client's. *)
Theorem network_tables_agree (network : string) :
  has_key PayzCore.VALID_NETWORK_TOKEN network = PayzCore.isValidNetwork network /\
  has_key PayzCore.NETWORK_LABELS network = PayzCore.isValidNetwork network /\
  has_key PayzCore.NETWORK_EXPLORER_TX network = PayzCore.isValidNetwork network /\
  has_key PaymentCreate.NETWORK_SELECTOR_LABELS network = PayzCore.isValidNetwork network /\
  Config.VALID_NETWORK_TOKEN network = PayzCore.VALID_NETWORK_TOKEN network /\
  Config.VALID_NETWORKS = PayzCore.SUPPORTED_NETWORKS /\
  Config.VALID_TOKENS = PayzCore.SUPPORTED_TOKENS.
Proof.
  unfold has_key, PayzCore.VALID_NETWORK_TOKEN, PayzCore.NETWORK_LABELS,
    PayzCore.NETWORK_EXPLORER_TX, PaymentCreate.NETWORK_SELECTOR_LABELS,
    PayzCore.isValidNetwork, PayzCore.SUPPORTED_NETWORKS, Js.includes,
    Config.VALID_NETWORK_TOKEN.
  cbn [existsb].
  destruct (String.eqb network "TRC20"), (String.eqb network "BEP20"),
    (String.eqb network "ERC20"), (String.eqb network "POLYGON"),
    (String.eqb network "ARBITRUM"); by repeat split.
Qed.

(* ===================================================================== *)
(** * The hash check of the page and of the server *)
(* ===================================================================== *)

(** X10.  The server takes a transaction hash exactly when the page does
    and the hash does not start with an upper-case [0X]: the page strips
    the prefix in either case, the server only [0x]. *)
Theorem page_and_server_hash_checks (hash : string) :
  Payment.is_tx_hash (Js.strip_0x hash) =
  PaymentPage.isValidTxHash hash && negb (upper_0X hash).
Proof.
  unfold PaymentPage.isValidTxHash, PaymentPage.strip_0x_i, Js.strip_0x, upper_0X.
  destruct hash as [|a [|b r]]; [by rewrite andb_true_r..|].
  destruct (Ascii.eqb a "0") eqn:Ha; cbn [andb]; [|by rewrite andb_true_r].
  destruct (Ascii.eqb b "x") eqn:Hx; cbn [orb].
  - apply Ascii.eqb_eq in Hx. subst b. cbn [Ascii.eqb Bool.eqb negb].
    by rewrite andb_true_r.
  - destruct (Ascii.eqb b "X") eqn:HX; cbn [negb]; [|by rewrite andb_true_r].
    rewrite andb_false_r. apply Ascii.eqb_eq in HX. subst b.
    unfold Payment.is_tx_hash. cbn [Js.all_chars].
    replace (Js.is_hex "X") with false by reflexivity.
    by rewrite andb_false_l, !andb_false_r.
Qed.

(* ===================================================================== *)
(** * Shopify's query signature *)
(* ===================================================================== *)

Lemma string_pairs_ind (P : string -> Prop) :
  P "" -> (forall c, P (String c "")) ->
  (forall a b r, P r -> P (String a (String b r))) ->
  forall s, P s.
Proof.
  intros H0 H1 H2.
  assert (H : forall s, P s /\ forall c, P (String c s)).
  { induction s as [|c s [IH1 IH2]]; split; auto. }
  intros s. apply H.
Qed.

Lemma is_hex_lower_char (c : ascii) :
  Js.is_hex (Js.lower_char c) = Js.is_hex c.
Proof. destruct c as [[] [] [] [] [] [] [] []]; reflexivity. Qed.

Lemma hex_value_lower_char (c : ascii) :
  Js.is_hex c = true ->
  Crypto.hex_value (Js.lower_char c) = Crypto.hex_value c.
Proof. destruct c as [[] [] [] [] [] [] [] []]; (reflexivity || discriminate). Qed.

Lemma hex_digit_hex_value (c : ascii) :
  Js.is_hex c = true ->
  0 <= Crypto.hex_value c < 16 /\
  Crypto.hex_digit (Crypto.hex_value c) = Js.lower_char c.
Proof.
  destruct c as [[] [] [] [] [] [] [] []]; intros H;
    first [discriminate H | by vm_compute].
Qed.

Lemma from_hex_unhex (s : string) :
  Js.all_chars Js.is_hex s = true -> Crypto.from_hex s = Crypto.unhex s.
Proof.
  induction s as [| c | a b r IH] using string_pairs_ind; [done..|].
  cbn [Js.all_chars Crypto.from_hex Crypto.unhex].
  intros [Ha [Hb Hr]%andb_true_iff]%andb_true_iff.
  rewrite Ha, Hb. cbn [andb]. by rewrite IH.
Qed.

Lemma from_hex_toLowerCase (s : string) :
  Crypto.from_hex (Js.toLowerCase s) = Crypto.from_hex s.
Proof.
  induction s as [| c | a b r IH] using string_pairs_ind; [done..|].
  cbn [Js.toLowerCase Crypto.from_hex].
  rewrite !is_hex_lower_char.
  destruct (Js.is_hex a) eqn:Ha, (Js.is_hex b) eqn:Hb; cbn [andb]; try done.
  by rewrite IH, !hex_value_lower_char.
Qed.

Lemma toLowerCase_length (s : string) :
  String.length (Js.toLowerCase s) = String.length s.
Proof. induction s as [|c s IH]; [done|]. cbn. by rewrite IH. Qed.

(** A string of [2n] characters that decodes to [n] bytes is made of hex
    digits only. *)
Lemma from_hex_full (s : string) :
  String.length s = (2 * List.length (Crypto.from_hex s))%nat ->
  Js.all_chars Js.is_hex s = true.
Proof.
  induction s as [| c | a b r IH] using string_pairs_ind; [done..|].
  cbn [Crypto.from_hex Js.all_chars String.length].
  destruct (Js.is_hex a && Js.is_hex b) eqn:Hab.
  - apply andb_true_iff in Hab as [-> ->]. cbn [andb List.length].
    intros H. apply IH. lia.
  - cbn [List.length]. lia.
Qed.

Lemma hex_from_hex (s : string) :
  Js.all_chars Js.is_hex s = true ->
  String.length s = (2 * List.length (Crypto.from_hex s))%nat ->
  Crypto.hex (Crypto.from_hex s) = Js.toLowerCase s.
Proof.
  induction s as [| c | a b r IH] using string_pairs_ind; [done| |].
  - cbn. lia.
  - cbn [Js.all_chars Crypto.from_hex String.length].
    intros [Ha [Hb Hr]%andb_true_iff]%andb_true_iff.
    rewrite Ha, Hb. cbn [andb List.length Crypto.hex Js.toLowerCase].
    intros H.
    destruct (hex_digit_hex_value a Ha) as [Ra Da].
    destruct (hex_digit_hex_value b Hb) as [Rb Db].
    replace ((16 * Crypto.hex_value a + Crypto.hex_value b) / 16)
      with (Crypto.hex_value a)
      by (apply (Z.div_unique _ 16 _ (Crypto.hex_value b)); lia).
    replace ((16 * Crypto.hex_value a + Crypto.hex_value b) mod 16)
      with (Crypto.hex_value b)
      by (apply (Z.mod_unique _ 16 (Crypto.hex_value a)); lia).
    rewrite Da, Db, IH; [done|done|lia].
Qed.

Lemma from_hex_hmac_hex (secret message : string) :
  Crypto.from_hex (Crypto.hmac_hex secret message) =
  Crypto.hmac_sha256 (Js.bytes_of secret) (Js.bytes_of message).
Proof.
  destruct (hmac_hex_ok secret message) as [H64 Hun].
  apply andb_true_iff in H64 as [_ Hhex].
  by rewrite from_hex_unhex.
Qed.

Lemma hmac_hex_length (secret message : string) :
  String.length (Crypto.hmac_hex secret message) = 64%nat.
Proof.
  destruct (hmac_hex_ok secret message) as [H64 _].
  apply andb_true_iff in H64 as [Hlen _].
  apply Z.eqb_eq in Hlen. unfold Js.len in Hlen. lia.
Qed.

Lemma hmac_hex_lower (secret message : string) :
  Js.toLowerCase (Crypto.hmac_hex secret message) = Crypto.hmac_hex secret message.
Proof.
  destruct (hmac_hex_ok secret message) as [H64 _].
  apply andb_true_iff in H64 as [_ Hhex].
  rewrite <- hex_from_hex; [|done|].
  - by rewrite from_hex_hmac_hex.
  - rewrite from_hex_hmac_hex, hmac_hex_length.
    by rewrite (proj1 (hmac_digest _ _)).
Qed.

(** The middleware passes a request exactly when its [hmac], in lower
    case, is the hex digest of the other parameters. *)
Lemma verifyShopifyQuery_compares (secret : string) (query : VerifyShopify.Query) :
  VerifyShopify.verifyShopifyQuery secret query =
  match query !! "hmac" with
  | Some hmac =>
      if String.eqb (Js.toLowerCase hmac)
           (Crypto.hmac_hex secret (VerifyShopify.message (delete "hmac" query)))
      then VerifyPayzCore.Next
      else VerifyPayzCore.Reject 401
             (if Js.truthy hmac then "Invalid HMAC signature"
              else "Missing HMAC parameter")
  | None => VerifyPayzCore.Reject 401 "Missing HMAC parameter"
  end.
Proof.
  unfold VerifyShopify.verifyShopifyQuery.
  destruct (query !! "hmac") as [hmac|]; [|done].
  set (computed := Crypto.hmac_hex secret _).
  assert (Hc64 : String.length computed = 64%nat) by apply hmac_hex_length.
  assert (Hcb : Crypto.from_hex computed =
                Crypto.hmac_sha256 (Js.bytes_of secret)
                  (Js.bytes_of (VerifyShopify.message (delete "hmac" query))))
    by apply from_hex_hmac_hex.
  assert (Hd32 : List.length (Crypto.from_hex computed) = 32%nat)
    by (rewrite Hcb; apply hmac_digest).
  destruct (String.eqb_spec (Js.toLowerCase hmac) computed) as [Heq|Hne].
  - (* the parameter is the digest but for the case of its letters *)
    assert (Hl : String.length hmac = 64%nat)
      by (by rewrite <- toLowerCase_length, Heq).
    assert (Hb : Crypto.from_hex hmac = Crypto.from_hex computed)
      by (by rewrite <- from_hex_toLowerCase, Heq).
    destruct hmac as [|c r]; [done|]. cbn [Js.truthy negb].
    unfold Js.len. rewrite Hc64, Hl. cbn [Z.eqb Z.of_nat negb Pos.eqb].
    rewrite Hb, timingSafeEqual_spec by done.
    by rewrite bool_decide_eq_true_2.
  - destruct (Js.truthy hmac) eqn:Ht; cbn [negb]; [|done].
    destruct (Js.len computed =? Js.len hmac) eqn:Hlen; cbn [negb]; [|done].
    apply Z.eqb_eq in Hlen. unfold Js.len in Hlen.
    destruct (Nat.eq_dec (List.length (Crypto.from_hex hmac)) 32%nat) as [H32|H32].
    + rewrite timingSafeEqual_spec by lia.
      rewrite bool_decide_eq_false_2; [done|].
      intros Hb. apply Hne.
      assert (Hh : Js.all_chars Js.is_hex hmac = true)
        by (apply from_hex_full; lia).
      rewrite <- (hex_from_hex hmac Hh) by lia.
      rewrite <- Hb.
      rewrite (hex_from_hex computed);
        [apply hmac_hex_lower | apply from_hex_full; lia | lia].
    + unfold VerifyPayzCore.timingSafeEqual.
      rewrite Hd32. destruct (Nat.eqb_spec 32%nat (List.length (Crypto.from_hex hmac))); [lia|done].
Qed.

(** X11.  A callback passes the signature check exactly when it carries
    an [hmac] that is, but for the case of its letters, the hex
    HMAC-SHA256 under the API secret of the other parameters, sorted by
    name and joined as [name=value] with [&]; every other request is
    answered 401. *)
Theorem verifyShopifyQuery_spec (secret : string) (query : VerifyShopify.Query) :
  VerifyShopify.verifyShopifyQuery secret query =
  match query !! "hmac" with
  | Some hmac =>
      if String.eqb (Js.toLowerCase hmac)
           (Crypto.hmac_hex secret (VerifyShopify.message (delete "hmac" query)))
      then VerifyPayzCore.Next
      else VerifyPayzCore.Reject 401
             (if Js.truthy hmac then "Invalid HMAC signature"
              else "Missing HMAC parameter")
  | None => VerifyPayzCore.Reject 401 "Missing HMAC parameter"
  end.
Proof. apply verifyShopifyQuery_compares. Qed.

Lemma signed_query_holds (secret : string) (query : VerifyShopify.Query) :
  VerifyShopify.verifyShopifyQuery secret
    (<["hmac" := Crypto.hmac_hex secret
                   (VerifyShopify.message (delete "hmac" query))]> query)
  = VerifyPayzCore.Next.
Proof.
  rewrite verifyShopifyQuery_compares, lookup_insert_eq, delete_insert_eq.
  by rewrite hmac_hex_lower, String.eqb_refl.
Qed.

(* ===================================================================== *)
(** * Loading the configuration *)
(* ===================================================================== *)

Lemma required_val (env : Config.Environment) (key v : string) :
  Config.required env key = Proc.Val v ->
  env !! key = Some v /\ Js.truthy v = true.
Proof.
  unfold Config.required. destruct (env !! key) as [x|]; [|done].
  destruct (Js.truthy x) eqn:Hx; [|done]. by intros [= ->].
Qed.

Lemma and_then_val {A B : Type} (r : Proc.Result A) (k : A -> Proc.Result B) (b : B) :
  Config.and_then r k = Proc.Val b ->
  exists a, r = Proc.Val a /\ k a = Proc.Val b.
Proof. destruct r as [a|e]; [|done]. intros H. by exists a. Qed.

(** What a configuration that was loaded tells about the environment. *)
Lemma loadConfig_inv (env : Config.Environment) (c : Config.AppConfig) :
  Config.loadConfig env = Proc.Val c ->
  let network := default "TRC20" (Config.first_set env "DEFAULT_NETWORK" "DEFAULT_CHAIN") in
  let token := default "USDT" (env !! "DEFAULT_TOKEN") in
  Js.includes Config.VALID_NETWORKS network = true /\
  Js.includes Config.VALID_TOKENS token = true /\
  (exists valid, Config.VALID_NETWORK_TOKEN network = Some valid /\
                 Js.includes valid token = true) /\
  (if networks_listed env
   then Config.app_enabledNetworks c =
          List.filter (Js.includes Config.VALID_NETWORKS)
            (map Js.trim (Js.split_char ","
               (default "" (Config.first_set env "ENABLED_NETWORKS" "ENABLED_CHAINS"))))
        /\ Config.app_enabledNetworks c <> []
   else Config.app_enabledNetworks c = [network]) /\
  Config.required env "SHOPIFY_API_KEY" = Proc.Val (Config.shopify_apiKey c) /\
  Config.required env "SHOPIFY_API_SECRET" = Proc.Val (Config.shopify_apiSecret c) /\
  Config.required env "PAYZCORE_API_KEY" = Proc.Val (Config.payzcore_apiKey c) /\
  Config.required env "PAYZCORE_WEBHOOK_SECRET" = Proc.Val (Config.payzcore_webhookSecret c) /\
  (exists url, Config.required env "APP_URL" = Proc.Val url /\
               Config.app_url c = Js.strip_trailing_slashes url) /\
  Config.required env "SESSION_SECRET" = Proc.Val (Config.app_sessionSecret c) /\
  32 <= Js.len (Config.app_sessionSecret c) /\
  Config.payzcore_apiUrl c =
    Js.strip_trailing_slashes (default "https://api.payzcore.com" (env !! "PAYZCORE_API_URL")) /\
  Config.app_port c = Js.parseInt10 (default "3001" (env !! "PORT")) /\
  Config.app_defaultNetwork c = head (Config.app_enabledNetworks c) /\
  Config.app_defaultToken c = token.
Proof.
  intros H network token. unfold Config.loadConfig in H.
  fold network in H. fold token in H.
  destruct (Js.includes Config.VALID_NETWORKS network) eqn:Hn; [|done].
  destruct (Js.includes Config.VALID_TOKENS token) eqn:Ht; [|done].
  cbn [negb] in H.
  destruct (Config.VALID_NETWORK_TOKEN network) as [valid|] eqn:Hv; [|done].
  destruct (Js.includes valid token) eqn:Hvt; [|done].
  cbn [negb] in H.
  apply and_then_val in H as (enabled & Hen & H).
  apply and_then_val in H as (apiKey & H1 & H).
  apply and_then_val in H as (apiSecret & H2 & H).
  apply and_then_val in H as (pzKey & H3 & H).
  apply and_then_val in H as (whSecret & H4 & H).
  apply and_then_val in H as (url & H5 & H).
  apply and_then_val in H as (sess & H6 & H).
  apply and_then_val in H6 as (s & H6 & H7).
  destruct (Js.len s <? 32) eqn:Hlen; [done|].
  injection H7 as ->. apply Z.ltb_ge in Hlen.
  injection H as <-. cbn.
  repeat split; try done.
  - by exists valid.
  - unfold networks_listed.
    destruct (Config.first_set env "ENABLED_NETWORKS" "ENABLED_CHAINS") as [str|];
      [|by injection Hen as <-].
    destruct (Js.truthy str); [|by injection Hen as <-].
    cbn [default].
    destruct (List.filter _ _) as [|x l] eqn:Hf; [done|].
    cbn in Hen. by injection Hen as <-.
  - by exists url.
Qed.



Lemma filter_valid (l : list string) :
  Forall (fun n => Js.includes Config.VALID_NETWORKS n = true)
         (List.filter (Js.includes Config.VALID_NETWORKS) l).
Proof.
  apply List.Forall_forall. intros x Hx. by apply filter_In in Hx as [_ ?].
Qed.



Lemma loadConfig_demo : Config.loadConfig env_demo = Proc.Val config_demo.
Proof. by vm_compute. Qed.


(** X13.  Without any one of the six required variables, or with it
    empty, no configuration is loaded: the call throws. *)
Theorem loadConfig_needs_required (env : Config.Environment) (key : string) :
  In key required_variables ->
  Config.is_set env key = false ->
  exists message, Config.loadConfig env = Proc.Exn message.
Proof.
  intros Hin Hunset.
  destruct (Config.loadConfig env) as [c|message] eqn:H; [|by exists message].
  exfalso.
  pose proof (loadConfig_inv env c H) as
    (_ & _ & _ & _ & H1 & H2 & H3 & H4 & (url & H5 & _) & H6 & _).
  unfold Config.is_set in Hunset.
  assert (Hk : exists v, Config.required env key = Proc.Val v).
  { cbn in Hin. destruct Hin as [<-|[<-|[<-|[<-|[<-|[<-|[]]]]]]]; by eexists. }
  destruct Hk as [v [Hv Hv']%required_val].
  by rewrite Hv, Hv' in Hunset.
Qed.

Lemma loadConfig_needs_required_witness :
  In "APP_URL" required_variables /\
  Config.is_set (delete "APP_URL" env_demo) "APP_URL" = false /\
  exists message, Config.loadConfig (delete "APP_URL" env_demo) = Proc.Exn message.
Proof.
  assert (Hin : In "APP_URL" required_variables) by (cbn; tauto).
  assert (Hun : Config.is_set (delete "APP_URL" env_demo) "APP_URL" = false)
    by reflexivity.
  split; [exact Hin|]. split; [exact Hun|].
  exact (loadConfig_needs_required _ _ Hin Hun).
Defined.

(** X14.  When no list of networks is given in the environment, the
    loaded configuration enables the default network alone, and that
    network supports the default token. *)
Theorem loadConfig_default_pair (env : Config.Environment) (c : Config.AppConfig) :
  Config.loadConfig env = Proc.Val c ->
  networks_listed env = false ->
  exists network,
    Config.app_enabledNetworks c = [network] /\
    Config.app_defaultNetwork c = Some network /\
    PayzCore.isValidNetworkToken network (Config.app_defaultToken c) = Some true.
Proof.
  intros H Hno. pose proof (loadConfig_inv env c H) as
    (_ & _ & (valid & Hv & Hvt) & Hen & _ & _ & _ & _ & _ & _ & _ & _ & _ & Hd & Htok).
  rewrite Hno in Hen. eexists. split; [exact Hen|].
  rewrite Hd, Hen. split; [done|].
  rewrite Htok. unfold PayzCore.isValidNetworkToken.
  change PayzCore.VALID_NETWORK_TOKEN with Config.VALID_NETWORK_TOKEN.
  rewrite Hv. cbn. by rewrite Hvt.
Qed.

Lemma loadConfig_default_pair_witness :
  Config.loadConfig env_demo = Proc.Val config_demo /\
  networks_listed env_demo = false /\
  exists network,
    Config.app_enabledNetworks config_demo = [network] /\
    Config.app_defaultNetwork config_demo = Some network /\
    PayzCore.isValidNetworkToken network (Config.app_defaultToken config_demo) = Some true.
Proof.
  assert (Hno : networks_listed env_demo = false) by reflexivity.
  split; [exact loadConfig_demo|]. split; [exact Hno|].
  exact (loadConfig_default_pair _ _ loadConfig_demo Hno).
Defined.

Lemma required_insert_ne (env : Config.Environment) (key key' v : string) :
  key' <> key ->
  Config.required (<[key' := v]> env) key = Config.required env key.
Proof. intros H. unfold Config.required. by rewrite lookup_insert_ne. Qed.

(** X15.  The combination check looks at [DEFAULT_NETWORK], not at the
    network that becomes the default: any environment that loads with
    USDC as default token still loads with [ENABLED_NETWORKS=TRC20], and
    then has TRC20 as default network with USDC, a pair that
    [isValidNetworkToken] refuses. *)
Theorem listed_network_escapes_combination_check
    (env : Config.Environment) (c : Config.AppConfig) :
  Config.loadConfig env = Proc.Val c ->
  Config.app_defaultToken c = "USDC" ->
  Config.loadConfig (<["ENABLED_NETWORKS" := "TRC20"]> env)
    = Proc.Val (Config.set_networks c ["TRC20"]) /\
  Config.app_defaultNetwork (Config.set_networks c ["TRC20"]) = Some "TRC20" /\
  Config.app_defaultToken (Config.set_networks c ["TRC20"]) = "USDC" /\
  PayzCore.isValidNetworkToken "TRC20" "USDC" = Some false.
Proof.
  intros H Htok. split; [|by repeat split].
  pose proof (loadConfig_inv env c H) as
    (Hn & Ht & (valid & Hv & Hvt) & _ & H1 & H2 & H3 & H4 & (url & H5 & Hu)
     & H6 & Hlen & Ha & Hp & _ & Hdt).
  unfold Config.loadConfig, Config.first_set in *.
  rewrite !lookup_insert_ne by done. rewrite lookup_insert_eq.
  rewrite Hn, Ht, Hv, Hvt. cbn [negb Js.truthy].
  replace (List.filter _ _) with ["TRC20"] by (by vm_compute).
  cbn [List.length Nat.eqb Config.and_then].
  rewrite !required_insert_ne by done.
  rewrite H1, H2, H3, H4, H5, H6. cbn [Config.and_then].
  apply Z.ltb_ge in Hlen. rewrite Hlen. cbn [Config.and_then].
  rewrite !lookup_insert_ne by done.
  unfold Config.set_networks. rewrite <- Hu, <- Ha, <- Hp, <- Hdt. done.
Qed.

Lemma listed_network_escapes_combination_check_witness :
  let env := <["DEFAULT_NETWORK" := "BEP20"]> (<["DEFAULT_TOKEN" := "USDC"]> env_demo) in
  exists c,
    Config.loadConfig env = Proc.Val c /\
    Config.app_defaultToken c = "USDC" /\
    Config.loadConfig (<["ENABLED_NETWORKS" := "TRC20"]> env)
      = Proc.Val (Config.set_networks c ["TRC20"]) /\
    PayzCore.isValidNetworkToken "TRC20" "USDC" = Some false.
Proof.
  intros env.
  destruct (Config.loadConfig env) as [c|m] eqn:H.
  - exists c.
    assert (Ht : Config.app_defaultToken c = "USDC")
      by (vm_compute in H; by injection H as <-).
    pose proof (listed_network_escapes_combination_check env c H Ht)
      as (Hl & _ & _ & Hv).
    by repeat split.
  - exfalso. by vm_compute in H.
Defined.

(* ===================================================================== *)
(** * The configuration fetched at startup *)
(* ===================================================================== *)

(** X16.  Whatever the monitoring service answers to the configuration
    request, a configuration the routes can rely on stays one, and its
    credentials, URLs and port are not touched. *)
Theorem fetchConfigFromApi_preserves (env : Config.Environment)
    (reply : Config.ConfigReply) (c : Config.AppConfig) :
  well_formed c ->
  well_formed (Config.fetchConfigFromApi env reply c) /\
  same_credentials c (Config.fetchConfigFromApi env reply c).
Proof.
  intros Hwf. unfold Config.fetchConfigFromApi.
  destruct (Config.is_set env "ENABLED_NETWORKS" || Config.is_set env "ENABLED_CHAINS");
    [by split; [|repeat split]|].
  destruct reply as [| status | networks default_token];
    [by split; [|repeat split]..|].
  set (c1 := match networks with Some (_ :: _) => _ | _ => c end).
  assert (H1 : well_formed c1 /\ same_credentials c c1).
  { subst c1. destruct networks as [[|n ns]|]; [by split; [|repeat split]| |by split; [|repeat split]].
    destruct (List.filter _ _) as [|x l] eqn:Hf; [by split; [|repeat split]|].
    cbn [List.length]. destruct (0 <? Z.of_nat (S (List.length l))) eqn:Hl;
      [|apply Z.ltb_ge in Hl; lia].
    split; [|by repeat split].
    destruct Hwf as (_ & _ & _ & Ht).
    unfold well_formed, Config.set_networks. cbn.
    repeat split; [done| |done].
    rewrite <- Hf. apply filter_valid. }
  destruct H1 as [Hwf1 Hs1].
  destruct default_token as [t|]; [|done].
  destruct (Js.truthy t && Js.includes Config.VALID_TOKENS t) eqn:Ht; [|done].
  apply andb_true_iff in Ht as [_ Ht].
  destruct Hwf1 as (He & Hv & Hd & _). split; [|exact Hs1].
  unfold well_formed, Config.set_defaultToken. cbn. by repeat split.
Qed.

Lemma fetchConfigFromApi_preserves_witness :
  let reply := Config.Data (Some [Some "SOLANA"; None; Some "POLYGON"; Some "TRC20"])
                           (Some "USDC") in
  well_formed config_demo /\
  well_formed (Config.fetchConfigFromApi env_demo reply config_demo) /\
  Config.app_defaultNetwork (Config.fetchConfigFromApi env_demo reply config_demo)
    = Some "POLYGON".
Proof.
  intros reply.
  assert (Hwf : well_formed config_demo).
  { unfold well_formed. cbn. repeat split; try done. by constructor. }
  split; [exact Hwf|]. split; [|reflexivity].
  exact (proj1 (fetchConfigFromApi_preserves env_demo reply config_demo Hwf)).
Defined.

(* ===================================================================== *)
(** * Starting a payment: shop, network and token *)
(* ===================================================================== *)

(** X17.  The route goes on to create a payment only for a request that
    names a well-formed shop that has installed the app, an order and an
    amount, and only with an enabled network that supports the token; the
    network is the one the customer chose, or else the only one enabled. *)
Theorem create_resolve_sound (config : Config.AppConfig) (shops : Store.Shops)
    (q : PaymentCreate.Query) (shopData : Store.ShopData) (network token : string) :
  PaymentCreate.create_resolve config shops q
    = PaymentCreate.Resolved shopData network token ->
  (exists shop,
     PaymentCreate.shop q = Some shop /\
     VerifyShopify.isValidShopDomain shop = true /\
     Store.getShop shop shops = Some shopData) /\
  PaymentCreate.given (PaymentCreate.order_id q) = true /\
  PaymentCreate.given (PaymentCreate.amount q) = true /\
  Js.includes (Config.app_enabledNetworks config) network = true /\
  PayzCore.isValidNetworkToken network token = Some true /\
  (PaymentCreate.network q = Some network \/
   Config.app_enabledNetworks config = [network]).
Proof.
  unfold PaymentCreate.create_resolve.
  destruct (PaymentCreate.shop q) as [shop|]; [|done].
  destruct (Auth.bad_shop (Some shop)) eqn:Hbad; [done|].
  apply orb_false_iff in Hbad as [_ Hvalid%negb_false_iff].
  destruct (negb (PaymentCreate.given (PaymentCreate.order_id q))
            || negb (PaymentCreate.given (PaymentCreate.amount q))) eqn:Hgiven; [done|].
  apply orb_false_iff in Hgiven as [Ho%negb_false_iff Ha%negb_false_iff].
  destruct (Store.getShop shop shops) as [sd|] eqn:Hshop; [|done].
  set (specified := match PaymentCreate.network q with
                    | Some n => Js.truthy n && PayzCore.isValidNetwork n
                    | None => false
                    end).
  destruct ((1 <? Z.of_nat (List.length (Config.app_enabledNetworks config)))
            && negb specified) eqn:Hsel; [done|].
  set (pn := if specified then PaymentCreate.network q
             else Config.app_defaultNetwork config).
  destruct pn as [n|] eqn:Hpn; [|done].
  destruct (Js.includes (Config.app_enabledNetworks config) n) eqn:Hinc; [|done].
  cbn [negb].
  destruct (PayzCore.isValidNetworkToken n _) as [[|]|] eqn:Hnt; [|done..].
  intros [= <- <- <-].
  repeat split; try done.
  - by exists shop.
  - subst pn. destruct specified; [by left|right].
    cbn [negb] in Hsel. rewrite andb_true_r in Hsel. apply Z.ltb_ge in Hsel.
    apply includes_In in Hinc.
    destruct (Config.app_enabledNetworks config) as [|x [|y l]];
      [done| |cbn in Hsel; lia].
    destruct Hinc as [->|[]]. done.
Qed.

Lemma create_resolve_sound_witness :
  PaymentCreate.create_resolve config_demo shops_demo (query_demo None None)
    = PaymentCreate.Resolved Sim.shop_demo "TRC20" "USDT" /\
  PayzCore.isValidNetworkToken "TRC20" "USDT" = Some true /\
  (PaymentCreate.network (query_demo None None) = Some "TRC20" \/
   Config.app_enabledNetworks config_demo = ["TRC20"]).
Proof.
  assert (H : PaymentCreate.create_resolve config_demo shops_demo (query_demo None None)
              = PaymentCreate.Resolved Sim.shop_demo "TRC20" "USDT") by reflexivity.
  pose proof (create_resolve_sound _ _ _ _ _ _ H) as (_ & _ & _ & _ & Hv & Hn).
  by repeat split.
Defined.

(** X18.  Under a configuration the routes can rely on, the combination
    check never throws: the network it is asked about is an enabled one,
    and so has an entry in the table. *)
Theorem create_resolve_never_throws (config : Config.AppConfig)
    (shops : Store.Shops) (q : PaymentCreate.Query) :
  well_formed config ->
  throws (PaymentCreate.create_resolve config shops q) = false.
Proof.
  intros (_ & Hvalid & _ & _).
  unfold PaymentCreate.create_resolve.
  destruct (PaymentCreate.shop q) as [shop|]; [|done].
  destruct (Auth.bad_shop (Some shop)); [done|].
  destruct (negb (PaymentCreate.given (PaymentCreate.order_id q))
            || negb (PaymentCreate.given (PaymentCreate.amount q))); [done|].
  destruct (Store.getShop shop shops) as [sd|]; [|done].
  set (specified := match PaymentCreate.network q with
                    | Some n => Js.truthy n && PayzCore.isValidNetwork n
                    | None => false
                    end).
  destruct ((1 <? Z.of_nat (List.length (Config.app_enabledNetworks config)))
            && negb specified); [done|].
  destruct (if specified then PaymentCreate.network q
            else Config.app_defaultNetwork config) as [n|]; [|done].
  destruct (Js.includes (Config.app_enabledNetworks config) n) eqn:Hinc; [|done].
  cbn [negb].
  apply includes_In in Hinc.
  rewrite List.Forall_forall in Hvalid. specialize (Hvalid n Hinc).
  rewrite isValidNetworkToken_eq.
  change (PayzCore.isValidNetwork n) with (Js.includes Config.VALID_NETWORKS n).
  rewrite Hvalid. by destruct (_ && _).
Qed.

Lemma create_resolve_never_throws_witness :
  let q := query_demo (Some "TRC20") (Some "USDC") in
  well_formed config_demo /\
  throws (PaymentCreate.create_resolve config_demo shops_demo q) = false /\
  PayzCore.isValidNetworkToken "TRC20" "USDC" = Some false /\
  PaymentCreate.create_resolve config_demo shops_demo q
    = PaymentCreate.RenderError 400 "Invalid Configuration"
        "USDC is not supported on TRC20.".
Proof.
  intros q.
  assert (Hwf : well_formed config_demo).
  { unfold well_formed. cbn. repeat split; try done. by constructor. }
  split; [exact Hwf|]. split; [|split; reflexivity].
  exact (create_resolve_never_throws config_demo shops_demo q Hwf).
Defined.

(* ===================================================================== *)
(** * Installing the app *)
(* ===================================================================== *)

Lemma slice_length (n : nat) (s : string) :
  (n <= String.length s)%nat -> String.length (Js.take n s) = n.
Proof.
  revert s. induction n as [|n IH]; intros [|c r]; cbn; try lia.
  intros H. rewrite IH; lia.
Qed.

Lemma slice_all_chars (p : ascii -> bool) (n : nat) (s : string) :
  Js.all_chars p s = true -> Js.all_chars p (Js.take n s) = true.
Proof.
  revert s. induction n as [|n IH]; intros [|c r]; cbn; try done.
  intros [-> Hr]%andb_true_iff. by apply IH.
Qed.

Lemma lower_hex_char (c : ascii) :
  Js.is_hex c = true -> Js.lower_char c = c -> lower_hex_digit c = true.
Proof.
  destruct c as [[] [] [] [] [] [] [] []]; intros H1 H2;
    first [discriminate H1 | discriminate H2 | reflexivity].
Qed.

Lemma lower_hex_string (s : string) :
  Js.all_chars Js.is_hex s = true -> Js.toLowerCase s = s ->
  Js.all_chars lower_hex_digit s = true.
Proof.
  induction s as [|c r IH]; [done|].
  cbn [Js.all_chars Js.toLowerCase].
  intros [Hc Hr]%andb_true_iff [= Hl Hlr].
  by rewrite (lower_hex_char c Hc Hl), IH.
Qed.

Lemma unreserved_hex (c : ascii) :
  lower_hex_digit c = true -> Js.is_unreserved c = true.
Proof.
  destruct c as [[] [] [] [] [] [] [] []]; intros H;
    first [discriminate H | reflexivity].
Qed.

Lemma encodeURIComponent_hex (s : string) :
  Js.all_chars lower_hex_digit s = true -> Js.encodeURIComponent s = s.
Proof.
  induction s as [|c r IH]; [done|].
  cbn [Js.all_chars Js.encodeURIComponent].
  intros [Hc Hr]%andb_true_iff.
  by rewrite (unreserved_hex c Hc), IH.
Qed.

(** X19.  The nonce of an installation is 32 lower-case hex digits, and
    so goes into the redirect URL as it is: percent-encoding leaves it
    unchanged. *)
Theorem install_nonce_shape (config : Config.AppConfig) (shop : string) (now : Z) :
  String.length (Auth.nonce_of config shop now) = 32%nat /\
  Js.all_chars lower_hex_digit (Auth.nonce_of config shop now) = true /\
  Js.encodeURIComponent (Auth.nonce_of config shop now) = Auth.nonce_of config shop now.
Proof.
  unfold Auth.nonce_of.
  set (h := Crypto.hmac_hex _ _).
  assert (Hlen : String.length h = 64%nat) by apply hmac_hex_length.
  assert (Hhex : Js.all_chars lower_hex_digit h = true).
  { apply lower_hex_string; [|apply hmac_hex_lower].
    destruct (hmac_hex_ok (Config.shopify_apiSecret config)
                (shop +:+ ":" +:+ Js.string_of_Z now)) as [H64 _].
    by apply andb_true_iff in H64 as [_ ?]. }
  split; [apply slice_length; lia|].
  split; [by apply slice_all_chars|].
  apply encodeURIComponent_hex. by apply slice_all_chars.
Qed.

(** X20.  The callback installs a shop only after every check: it ends
    in a redirect only if the query is signed with the API secret, names
    a well-formed shop and a code, agrees with the session on the state
    (both absent, or the same string), and the token endpoint granted a
    token; the shop is then stored with that token, and the redirect goes
    to the admin of that shop. *)
Theorem callback_installs_after_checks
    (exchange : string -> string -> Auth.TokenResponse) (nowIso : string)
    (config : Config.AppConfig) (query : VerifyShopify.Query)
    (session session' : option Auth.Session) (shops shops' : Store.Shops)
    (url : string) :
  Auth.callback exchange nowIso config query session shops
    = (shops', session', Auth.Redirect url) ->
  VerifyShopify.verifyShopifyQuery (Config.shopify_apiSecret config) query
    = VerifyPayzCore.Next /\
  exists shop code access_token scope,
    query !! "shop" = Some shop /\
    VerifyShopify.isValidShopDomain shop = true /\
    query !! "code" = Some code /\ Js.truthy code = true /\
    (forall s, session = Some s ->
       (query !! "state" = None /\ Auth.shopifyNonce s = Auth.Undefined) \/
       (exists n, query !! "state" = Some n /\ Auth.shopifyNonce s = Auth.Str n)) /\
    exchange shop code = Auth.Token access_token scope /\
    shops' = Store.saveShop shop
               {| Store.accessToken := access_token;
                  Store.scope := scope;
                  Store.installedAt := nowIso |} shops /\
    session' = cleared <$> session /\
    url = "https://" +:+ shop +:+ "/admin/apps".
Proof.
  unfold Auth.callback.
  destruct (VerifyShopify.verifyShopifyQuery _ query) eqn:Hv; [|done].
  destruct (query !! "shop") as [shop|]; [|done].
  destruct (Auth.bad_shop (Some shop)) eqn:Hbad; [done|].
  apply orb_false_iff in Hbad as [_ Hvalid%negb_false_iff].
  destruct (query !! "code") as [code|]; [|done].
  destruct (Js.truthy code) eqn:Hcode; [|done]. cbn [negb].
  destruct (match session with Some s => _ | None => false end) eqn:Hst; [done|].
  destruct (exchange shop code) as [| |access_token scope] eqn:Hex; [done..|].
  intros [= <- <- <-]. split; [done|].
  exists shop, code, access_token, scope. repeat split; try done.
  intros s ->. unfold Auth.state_differs in Hst.
  destruct (query !! "state") as [st|], (Auth.shopifyNonce s) as [| |n];
    try done; [right|by left].
  apply negb_false_iff, String.eqb_eq in Hst as ->. by exists n.
Qed.

Lemma callback_installs_after_checks_witness :
  let config := config_demo in
  let query := signed_callback config "demo.myshopify.com" "c0de" "n0nce" in
  let session := {| Auth.shopifyNonce := Auth.Str "n0nce";
                    Auth.shopDomain := Auth.Str "demo.myshopify.com";
                    Auth.returnUrl := Auth.Undefined |} in
  Auth.callback exchange_demo "2024-01-01T00:00:00.000Z" config query (Some session) ∅
    = (Store.saveShop "demo.myshopify.com"
         {| Store.accessToken := "shpat_demo";
            Store.scope := "read_orders,write_orders";
            Store.installedAt := "2024-01-01T00:00:00.000Z" |} ∅,
       Some (cleared session),
       Auth.Redirect "https://demo.myshopify.com/admin/apps") /\
  VerifyShopify.verifyShopifyQuery (Config.shopify_apiSecret config) query
    = VerifyPayzCore.Next.
Proof.
  intros config query session.
  assert (H : Auth.callback exchange_demo "2024-01-01T00:00:00.000Z" config query
                (Some session) ∅
              = (Store.saveShop "demo.myshopify.com"
                   {| Store.accessToken := "shpat_demo";
                      Store.scope := "read_orders,write_orders";
                      Store.installedAt := "2024-01-01T00:00:00.000Z" |} ∅,
                 Some (cleared session),
                 Auth.Redirect "https://demo.myshopify.com/admin/apps"))
    by (by vm_compute).
  split; [exact H|].
  exact (proj1 (callback_installs_after_checks _ _ _ _ _ _ _ _ _ H)).
Defined.

(** X21.  A callback that does not end in the redirect to the shop's
    admin leaves the shop store and the session as they were. *)
Theorem callback_refused_changes_nothing
    (exchange : string -> string -> Auth.TokenResponse) (nowIso : string)
    (config : Config.AppConfig) (query : VerifyShopify.Query)
    (session : option Auth.Session) (shops : Store.Shops) :
  let '(shops', session', response) :=
    Auth.callback exchange nowIso config query session shops in
  is_redirect response = true \/ (shops' = shops /\ session' = session).
Proof.
  unfold Auth.callback.
  destruct (VerifyShopify.verifyShopifyQuery _ query); [|by right].
  destruct (query !! "shop") as [shop|]; [|by right].
  destruct (Auth.bad_shop (Some shop)); [by right|].
  destruct (query !! "code") as [code|]; [|by right].
  destruct (negb (Js.truthy code)); [by right|].
  destruct (match session with Some s => _ | None => false end); [by right|].
  destruct (exchange shop code); [by right..|by left].
Qed.

(** X22.  The nonce is good for one installation: in the session a
    completed callback leaves behind, no callback goes through, whatever
    its query; the shop store stays as it is. *)
Theorem nonce_is_single_use
    (exchange : string -> string -> Auth.TokenResponse) (nowIso : string)
    (config : Config.AppConfig) (query : VerifyShopify.Query)
    (session : Auth.Session) (shops : Store.Shops) :
  let '(shops', session', response) :=
    Auth.callback exchange nowIso config query (Some (cleared session)) shops in
  is_redirect response = false /\ shops' = shops.
Proof.
  unfold Auth.callback.
  destruct (VerifyShopify.verifyShopifyQuery _ query); [|done].
  destruct (query !! "shop") as [shop|]; [|done].
  destruct (Auth.bad_shop (Some shop)); [done|].
  destruct (query !! "code") as [code|]; [|done].
  destruct (negb (Js.truthy code)); [done|].
  cbn [cleared Auth.shopifyNonce Auth.state_differs].
  by destruct (query !! "state").
Qed.

(** X23.  Install, then callback: when Shopify sends the merchant back
    with the state of the redirect, a code, and its signature, the state
    check passes in the session the install route left, and, the code
    granted, the shop is stored and [/auth/status] reports it installed. *)
Theorem install_then_callback
    (exchange : string -> string -> Auth.TokenResponse) (nowIso : string)
    (config : Config.AppConfig) (now : Z) (shop code access_token scope : string)
    (session : Auth.Session) (shops : Store.Shops) :
  VerifyShopify.isValidShopDomain shop = true ->
  Js.truthy code = true ->
  exchange shop code = Auth.Token access_token scope ->
  let session1 := fst (Auth.install config now (Some shop) (Some session)) in
  let query := signed_callback config shop code (Auth.nonce_of config shop now) in
  let '(shops', session', response) :=
    Auth.callback exchange nowIso config query session1 shops in
  response = Auth.Redirect ("https://" +:+ shop +:+ "/admin/apps") /\
  Store.getShop shop shops' =
    Some {| Store.accessToken := access_token;
            Store.scope := scope;
            Store.installedAt := nowIso |} /\
  session' = Some (cleared session) /\
  Auth.status (Some shop) shops' = Auth.JsonStatus shop true.
Proof.
  intros Hvalid Hcode Hex.
  assert (Hshop : Js.truthy shop = true) by (by destruct shop).
  assert (Hbad : Auth.bad_shop (Some shop) = false).
  { unfold Auth.bad_shop. by rewrite Hshop, Hvalid. }
  unfold Auth.install. rewrite Hbad. cbn [fst].
  set (nonce := Auth.nonce_of config shop now).
  assert (Hcb : Auth.callback exchange nowIso config
                  (signed_callback config shop code nonce)
                  (Some {| Auth.shopifyNonce := Auth.Str nonce;
                           Auth.shopDomain := Auth.Str shop;
                           Auth.returnUrl := Auth.returnUrl session |}) shops
                = (Store.saveShop shop
                     {| Store.accessToken := access_token;
                        Store.scope := scope;
                        Store.installedAt := nowIso |} shops,
                   Some (cleared session),
                   Auth.Redirect ("https://" +:+ shop +:+ "/admin/apps"))).
  { unfold Auth.callback, signed_callback.
    set (q := <["shop" := shop]> (<["code" := code]> _)).
    assert (Hq : delete "hmac" q = q).
    { apply delete_id. subst q. by rewrite !lookup_insert_ne. }
    pose proof (signed_query_holds (Config.shopify_apiSecret config) q) as Hv.
    rewrite Hq in Hv. rewrite Hv.
    rewrite !(lookup_insert_ne _ "hmac") by done.
    subst q. rewrite lookup_insert_eq, Hbad.
    rewrite (lookup_insert_ne _ "shop" "code") by done. rewrite lookup_insert_eq.
    rewrite Hcode.
    rewrite !(lookup_insert_ne _ _ "state") by done. rewrite lookup_insert_eq.
    cbn [negb Auth.shopifyNonce Auth.state_differs].
    rewrite String.eqb_refl. cbn [negb]. by rewrite Hex. }
  rewrite Hcb. unfold Auth.status. rewrite Hbad.
  unfold Store.getShop, Store.hasShop, Store.saveShop.
  by rewrite lookup_insert_eq.
Qed.

Lemma install_then_callback_witness :
  let session1 := fst (Auth.install config_demo 1704067200000
                         (Some "demo.myshopify.com") (Some fresh_session)) in
  let query := signed_callback config_demo "demo.myshopify.com" "c0de"
                 (Auth.nonce_of config_demo "demo.myshopify.com" 1704067200000) in
  let '(shops', session', response) :=
    Auth.callback exchange_demo "2024-01-01T00:00:05.000Z" config_demo query session1 ∅ in
  response = Auth.Redirect "https://demo.myshopify.com/admin/apps" /\
  Auth.status (Some "demo.myshopify.com") shops'
    = Auth.JsonStatus "demo.myshopify.com" true.
Proof.
  pose proof (install_then_callback exchange_demo "2024-01-01T00:00:05.000Z"
                config_demo 1704067200000 "demo.myshopify.com" "c0de"
                "shpat_demo" "read_orders,write_orders" fresh_session ∅
                eq_refl eq_refl eq_refl) as H.
  cbv zeta in H |- *.
  destruct (Auth.callback _ _ _ _ _ _) as [[shops' session'] response].
  destruct H as (Hr & _ & _ & Hs). by split.
Defined.

(* ===================================================================== *)
(** * What a delivery may send to the commerce system *)
(* ===================================================================== *)

Section Deliveries.
Import Proc.
Context {W : Type}.
Variable serve : W -> Shopify.Request -> W * Shopify.Reply.

Lemma dispatch_quiet (t : Effect) this mapping payload :
  may_fire t payload = false ->
  stable (quiet_rel (fires t)) (Webhooks.dispatch serve this mapping payload).
Proof.
  unfold may_fire, is_success_event.
  unfold Webhooks.dispatch, Webhooks.handlePaymentSuccess,
    Webhooks.handlePaymentExpired, Webhooks.handlePaymentCancelled,
    Webhooks.handlePaymentPartial, ShopifyClient.markOrderAsPaid,
    ShopifyClient.addOrderNote, ShopifyClient.addOrderTags,
    ShopifyClient.cancelOrder, ShopifyClient.getOrder.
  destruct t; intros H.
  - rewrite H. quiet_tac.
  - apply orb_false_iff in H as [H1 H2]. rewrite H1, H2. quiet_tac.
  - apply orb_false_iff in H as [H H3]. apply orb_false_iff in H as [H H2].
    apply orb_false_iff in H as [H0 H1]. rewrite H0, H1, H2, H3. quiet_tac.
  - apply orb_false_iff in H as [H1 H2]. rewrite H1, H2. quiet_tac.
Qed.

Lemma sends_only_refl (Q : Shopify.Request -> Prop) (e : Env W) :
  sends_only Q e e.
Proof. exists []. by rewrite app_nil_r. Qed.

Lemma sends_only_trans (Q : Shopify.Request -> Prop) (a b c : Env W) :
  sends_only Q a b -> sends_only Q b c -> sends_only Q a c.
Proof.
  intros (l & Hl & Ql) (l' & Hl' & Ql'). exists (l ++ l'). split.
  - by rewrite Hl', Hl, app_assoc.
  - by apply Forall_app.
Qed.

Lemma sends_only_sent (Q : Shopify.Request -> Prop) (env : Env W)
    (rq : Shopify.Request) :
  Q rq -> sends_only Q env (sent serve rq env).
Proof. intros HQ. exists [rq]. split; [done|]. by constructor. Qed.

End Deliveries.

(** Decide that a handler sends only requests satisfying a predicate,
    rule by rule. *)
Ltac sends_tac :=
  cbv beta zeta;
  lazymatch goal with
  | |- stable _ (Proc.ret _) => apply stable_ret, sends_only_refl
  | |- stable _ (Proc.throw _) => apply stable_throw, sends_only_refl
  | |- stable _ (Proc.bind _ _) =>
      apply stable_bind;
      [apply sends_only_trans | sends_tac | intros ?; sends_tac]
  | |- stable _ (Proc.try_catch _ _) =>
      apply stable_try_catch;
      [apply sends_only_trans | sends_tac | intros ?; sends_tac]
  | |- stable (sends_only ?Q) (ShopifyClient.request ?serve _ _) =>
      apply (stable_request serve (sends_only Q) Q (sends_only_sent serve Q));
      by repeat split
  | |- stable _ (if ?b then _ else _) => destruct b; sends_tac
  | |- stable _ (match ?d with _ => _ end) => destruct d; sends_tac
  end.

Section Addressed.
Import Proc.
Context {W : Type}.
Variable serve : W -> Shopify.Request -> W * Shopify.Reply.

Lemma dispatch_addressed (m : Store.PaymentMapping) (shop : Store.ShopData)
    (payload : Webhooks.WebhookPayload) :
  stable (sends_only (addressed_to m shop))
         (Webhooks.dispatch serve (client_of m shop) m payload).
Proof.
  unfold Webhooks.dispatch, Webhooks.handlePaymentSuccess,
    Webhooks.handlePaymentExpired, Webhooks.handlePaymentCancelled,
    Webhooks.handlePaymentPartial, ShopifyClient.markOrderAsPaid,
    ShopifyClient.addOrderNote, ShopifyClient.addOrderTags,
    ShopifyClient.cancelOrder, ShopifyClient.getOrder.
  sends_tac.
Qed.

End Addressed.

(** X24.  A delivery changes an order only in the ways of its event:
    only [payment.completed] and [payment.overpaid] capture, only
    [payment.expired] and [payment.cancelled] cancel, notes come with a
    success or a partial payment, and an event that is none of the five
    sends no change at all. *)
Theorem delivery_fires_by_event {W : Type}
    (serve : W -> Shopify.Request -> W * Shopify.Reply)
    (t : Effect) (payload : Webhooks.WebhookPayload) (env : Proc.Env W) :
  may_fire t payload = false ->
  count (fires t) (Proc.calls (Proc.run (Webhooks.payzcore serve payload) env))
  = count (fires t) (Proc.calls env).
Proof.
  intros Hno.
  unfold Proc.run, Webhooks.payzcore, Proc.bind, Proc.read, Proc.with_payments,
    Proc.try_catch. simpl.
  destruct (Store.getPaymentMapping _ _) as [m|]; simpl; [|done].
  destruct (Store.getShop _ _) as [sd|]; simpl; [|done].
  match goal with |- context [Webhooks.dispatch serve ?c ?m ?p ?e] =>
    pose proof (dispatch_quiet serve t c m p Hno e) as H;
    destruct (Webhooks.dispatch serve c m p e) as [env' [[]|err]]
  end; simpl in *; exact H.
Qed.

Lemma delivery_fires_by_event_witness :
  may_fire Capture (Sim.partial "40") = false /\
  count (fires Capture)
    (Proc.calls (Proc.run (Webhooks.payzcore Sim.serve (Sim.partial "40"))
                          (Sim.env0 "pending" 600 [])))
  = count (fires Capture) (Proc.calls (Sim.env0 "pending" 600 [])).
Proof.
  split; [reflexivity|].
  apply (delivery_fires_by_event Sim.serve Capture (Sim.partial "40")). reflexivity.
Defined.

(** X25.  Every request of a delivery goes to the shop of the stored
    record, under the access token stored for that shop, and is about the
    order of the record: nothing in the notification itself chooses the
    shop or the order. *)
Theorem delivery_requests_follow_the_record {W : Type}
    (serve : W -> Shopify.Request -> W * Shopify.Reply)
    (payload : Webhooks.WebhookPayload) (env : Proc.Env W)
    (m : Store.PaymentMapping) (shop : Store.ShopData) :
  Store.getPaymentMapping (Webhooks.payment_id payload) (Proc.payments env) = Some m ->
  Store.getShop (Store.shopDomain m) (Proc.shops env) = Some shop ->
  sends_only (addressed_to m shop) env
    (Proc.run (Webhooks.payzcore serve payload) env).
Proof.
  intros Hm Hs. unfold Proc.run.
  rewrite (payzcore_unfold serve payload env m shop Hm Hs).
  pose proof (dispatch_addressed serve m shop payload (status_stored payload env)) as H.
  by destruct (Webhooks.dispatch _ _ _ _ _) as [env' [[]|e]].
Qed.

Lemma delivery_requests_follow_the_record_witness :
  sends_only (addressed_to (Sim.mapping1001 "pending") Sim.shop_demo)
    (Sim.env0 "pending" 600 [])
    (Proc.run (Webhooks.payzcore Sim.serve (Sim.push "payment.completed" "paid" "100.00"))
              (Sim.env0 "pending" 600 [])).
Proof.
  apply (delivery_requests_follow_the_record Sim.serve); reflexivity.
Defined.

(** X26.  A delivery for a payment without a record, or for a shop that
    has not installed the app, is acknowledged with 200 and
    [processed: false]; nothing is sent to the commerce system. *)
Theorem unknown_delivery_is_acknowledged {W : Type}
    (serve : W -> Shopify.Request -> W * Shopify.Reply)
    (payload : Webhooks.WebhookPayload) (env : Proc.Env W) :
  known payload env = false ->
  Proc.calls (Proc.run (Webhooks.payzcore serve payload) env) = Proc.calls env /\
  Proc.world (Proc.run (Webhooks.payzcore serve payload) env) = Proc.world env /\
  exists r,
    Proc.result (Webhooks.payzcore serve payload) env = Proc.Val r /\
    Webhooks.code r = 200 /\ Webhooks.received r = true /\
    Webhooks.processed r = false.
Proof.
  unfold known, Proc.run, Proc.result, Webhooks.payzcore, Proc.bind, Proc.read,
    Proc.with_payments. simpl.
  destruct (Store.getPaymentMapping _ _) as [m|]; simpl.
  - destruct (Store.getShop _ _) as [sd|]; simpl; [done|].
    intros _. repeat split. by eexists.
  - intros _. repeat split. by eexists.
Qed.

Lemma unknown_delivery_is_acknowledged_witness :
  let payload := Sim.push "payment.completed" "paid" "100.00" in
  let env := Proc.mkEnv (Proc.payments (Sim.env0 "pending" 600 [])) ∅
               (Proc.world (Sim.env0 "pending" 600 [])) [] [] in
  known payload env = false /\
  Proc.calls (Proc.run (Webhooks.payzcore Sim.serve payload) env) = [].
Proof.
  intros payload env.
  assert (H : known payload env = false) by reflexivity.
  split; [exact H|].
  exact (proj1 (unknown_delivery_is_acknowledged Sim.serve payload env H)).
Defined.

(** X27.  An order that the commerce system reports as already cancelled
    or paid is left alone by [payment.expired] and [payment.cancelled]:
    the delivery reads the order and sends nothing else, and is answered
    200. *)
Theorem closed_order_is_left_alone {W : Type}
    (serve : W -> Shopify.Request -> W * Shopify.Reply)
    (payload : Webhooks.WebhookPayload) (env : Proc.Env W)
    (m : Store.PaymentMapping) (shop : Store.ShopData)
    (order : Shopify.ShopifyOrder) :
  Store.getPaymentMapping (Webhooks.payment_id payload) (Proc.payments env) = Some m ->
  Store.getShop (Store.shopDomain m) (Proc.shops env) = Some shop ->
  Webhooks.event payload = "payment.expired" \/
  Webhooks.event payload = "payment.cancelled" ->
  let get := rq_of (client_of m shop) (Shopify.GetOrder (Store.shopifyOrderId m)) in
  snd (serve (Proc.world env) get) = Shopify.OrderJson order ->
  closed order = true ->
  Proc.calls (Proc.run (Webhooks.payzcore serve payload) env) = Proc.calls env ++ [get] /\
  Proc.result (Webhooks.payzcore serve payload) env = Proc.Val processed_ok.
Proof.
  intros Hm Hs Hev get Hget Hclosed. unfold Proc.run, Proc.result.
  rewrite (payzcore_unfold serve payload env m shop Hm Hs).
  assert (Hd : Webhooks.dispatch serve (client_of m shop) m payload
                 (status_stored payload env)
               = (sent serve get (status_stored payload env), Proc.Val tt)).
  { unfold Webhooks.dispatch.
    destruct Hev as [-> | ->]; cbn [String.eqb Ascii.eqb Bool.eqb orb andb];
      [unfold Webhooks.handlePaymentExpired|unfold Webhooks.handlePaymentCancelled];
      unfold Proc.try_catch, Proc.bind, ShopifyClient.getOrder, Proc.bind,
        ShopifyClient.request, sent;
      fold (rq_of (client_of m shop) (Shopify.GetOrder (Store.shopifyOrderId m)));
      fold get; change (Proc.world (status_stored payload env)) with (Proc.world env);
      destruct (serve (Proc.world env) get) as [w' reply]; cbn [snd] in Hget;
      subst reply; cbn; unfold closed in Hclosed; by rewrite Hclosed. }
  rewrite Hd. done.
Qed.

Lemma closed_order_is_left_alone_witness :
  let payload := Sim.push "payment.expired" "expired" "0" in
  let env := Sim.env_of Sim.order1001_paid "paid" 600 [] in
  let get := rq_of (client_of (Sim.mapping1001 "paid") Sim.shop_demo)
                   (Shopify.GetOrder 1001) in
  Proc.calls (Proc.run (Webhooks.payzcore Sim.serve payload) env) = [get] /\
  Proc.result (Webhooks.payzcore Sim.serve payload) env = Proc.Val processed_ok.
Proof.
  intros payload env get.
  apply (closed_order_is_left_alone Sim.serve payload env
           (Sim.mapping1001 "paid") Sim.shop_demo Sim.order1001_paid);
    first [reflexivity | by left].
Defined.

(* ===================================================================== *)
(** * The answers of the status poll and of the hash submission *)
(* ===================================================================== *)

(** X28.  The status poll always answers: with 404 exactly when the
    payment has no record, else with 200 and a status document, in which
    a payment flagged as paid is also flagged as terminal. *)
Theorem get_status_answers {W : Type} (api : PayzCore.Api) (paymentId : string)
    (env : Proc.Env W) :
  match Proc.result (Payment.get_status api paymentId) env with
  | Proc.Val (Payment.SendStatus code body) =>
      code = 200 /\
      is_Some (Store.getPaymentMapping paymentId (Proc.payments env)) /\
      implb (Payment.is_paid body) (Payment.is_terminal body) = true
  | Proc.Val (Payment.SendError code _) =>
      code = 404 /\ Store.getPaymentMapping paymentId (Proc.payments env) = None
  | _ => False
  end.
Proof.
  unfold Proc.result, Payment.get_status, Proc.bind, Proc.read, Proc.try_catch,
    Payment.getPayment, Proc.with_payments, Proc.ret. simpl.
  destruct (Store.getPaymentMapping _ _) as [m|]; simpl; [|by split].
  destruct (PayzCore.getPayment api paymentId) as [pay|]; simpl.
  - split; [done|]. split; [by eexists|].
    unfold Payment.terminal. cbn [existsb].
    destruct (String.eqb (PayzCore.status pay) "paid"),
      (String.eqb (PayzCore.status pay) "overpaid"); done.
  - split; [done|]. split; [by eexists|done].
Qed.

Ltac unchanged := repeat split; try done; by left.

(** X29.  Submitting a transaction hash touches nothing the server
    keeps: the payment records, the shops and the commerce system are as
    before, and at most one request goes to the monitoring service, to
    the confirm endpoint of a record that asks for a hash. *)
Theorem post_confirm_frame {W : Type} (api : PayzCore.Api) (paymentId : string)
    (v : Payment.JsonValue) (env : Proc.Env W) :
  let env' := Proc.run (Payment.post_confirm api paymentId v) env in
  Proc.payments env' = Proc.payments env /\
  Proc.shops env' = Proc.shops env /\
  Proc.world env' = Proc.world env /\
  Proc.calls env' = Proc.calls env /\
  (Proc.upstream env' = Proc.upstream env \/
   exists m endpoint hash,
     Store.getPaymentMapping paymentId (Proc.payments env) = Some m /\
     Store.requiresTxid m = Some true /\
     Store.confirmEndpoint m = Some endpoint /\
     Proc.upstream env' = Proc.upstream env ++ [PayzCore.ConfirmPayment endpoint hash]).
Proof.
  unfold Proc.run, Payment.post_confirm, Proc.bind, Proc.read, Proc.try_catch,
    Payment.confirmPayment, Proc.ret. simpl.
  destruct (Store.getPaymentMapping _ _) as [m|] eqn:Hm; simpl; [|unchanged].
  destruct (Store.requiresTxid m) as [[|]|] eqn:Hr; simpl; [|unchanged..].
  destruct (Store.confirmEndpoint m) as [ep|] eqn:He; simpl; [|unchanged].
  destruct (Js.truthy ep); simpl; [|unchanged].
  destruct v as [| |b|n|s|]; simpl; [unchanged..| |unchanged].
  destruct (negb (Js.truthy s) || _); simpl; [unchanged|].
  destruct (Payment.is_tx_hash _); simpl; [|unchanged].
  destruct (PayzCore.confirmPayment api ep (Js.trim s)); simpl;
    (repeat split; try done; right; by exists m, ep, (Js.trim s)).
Qed.

(* ===================================================================== *)
(** * Merging tags *)
(* ===================================================================== *)

Lemma dedup_acc_In (seen xs : list string) (x : string) :
  In x (Js.dedup_acc seen xs) <-> In x xs /\ ~ In x seen.
Proof.
  revert seen. induction xs as [|y r IH]; intros seen; cbn [Js.dedup_acc].
  - cbn. tauto.
  - destruct (existsb (String.eqb y) seen) eqn:Hy.
    + rewrite IH. change (existsb (String.eqb y) seen) with (Js.includes seen y) in Hy.
      apply includes_In in Hy. cbn. split; [tauto|].
      intros [[<-|H] Hn]; [done|tauto].
    + assert (Hn : ~ In y seen).
      { intros H%includes_In. unfold Js.includes in H. congruence. }
      cbn [In]. rewrite IH. cbn [In].
      destruct (String.eqb_spec y x) as [->|Hne]; [tauto|].
      split; [intros [?|(? & ?)]; [done|tauto]|].
      intros [[?|?] ?]; [done|]. right. split; [done|]. intros [?|?]; done.
Qed.

Lemma dedup_acc_NoDup (seen xs : list string) : List.NoDup (Js.dedup_acc seen xs).
Proof.
  revert seen. induction xs as [|y r IH]; intros seen; cbn [Js.dedup_acc].
  - constructor.
  - destruct (existsb (String.eqb y) seen); [apply IH|].
    constructor; [|apply IH].
    rewrite dedup_acc_In. cbn. tauto.
Qed.

(** X30.  The tags [addOrderTags] writes back are the tags the order
    had and the new ones, each once: whenever the order can be read, the
    request that follows the read carries a list without duplicates whose
    members are exactly those of the two lists. *)
Theorem addOrderTags_merges {W : Type}
    (serve : W -> Shopify.Request -> W * Shopify.Reply)
    (this : ShopifyClient.Client) (orderId : Z) (tags : string)
    (env : Proc.Env W) (order : Shopify.ShopifyOrder) :
  snd (serve (Proc.world env) (rq_of this (Shopify.GetOrder orderId)))
    = Shopify.OrderJson order ->
  exists merged,
    Proc.calls (Proc.run (ShopifyClient.addOrderTags serve this orderId tags) env)
    = Proc.calls env ++ [rq_of this (Shopify.GetOrder orderId);
                         rq_of this (Shopify.PutTags orderId (Js.join ", " merged))] /\
    List.NoDup merged /\
    forall t, In t merged <-> In t (tags_of order) \/ In t (Js.split_comma tags).
Proof.
  intros Hget.
  exists (Js.dedup (tags_of order ++ Js.split_comma tags)). split; [|split].
  - unfold Proc.run, ShopifyClient.addOrderTags, ShopifyClient.getOrder, Proc.bind,
      ShopifyClient.request.
    fold (rq_of this (Shopify.GetOrder orderId)).
    destruct (serve (Proc.world env) _) as [w1 reply]. cbn [snd] in Hget. subst reply.
    cbn [Proc.ret Proc.world Proc.calls Proc.payments Proc.shops Proc.upstream].
    fold (tags_of order).
    match goal with |- context [serve w1 ?rq] =>
      destruct (serve w1 rq) as [w2 [e|o|]] end;
      cbn; by rewrite <- app_assoc.
  - apply dedup_acc_NoDup.
  - intros t. unfold Js.dedup. rewrite dedup_acc_In, in_app_iff. cbn. tauto.
Qed.

Lemma addOrderTags_merges_witness :
  let this := client_of (Sim.mapping1001 "pending") Sim.shop_demo in
  let order := Sim.apply_call Sim.order1001 (Shopify.PutTags 1001 "vip, payzcore") in
  let env := Sim.env_of order "pending" 600 [] in
  exists merged,
    Proc.calls (Proc.run (ShopifyClient.addOrderTags Sim.serve this 1001
                            "payzcore, crypto-paid, payzcore") env)
    = [rq_of this (Shopify.GetOrder 1001);
       rq_of this (Shopify.PutTags 1001 (Js.join ", " merged))] /\
    List.NoDup merged /\
    In "vip" merged /\ In "payzcore" merged /\ In "crypto-paid" merged /\
    Js.join ", " merged = "vip, payzcore, crypto-paid".
Proof.
  intros this order env.
  destruct (addOrderTags_merges Sim.serve this 1001 "payzcore, crypto-paid, payzcore"
              env order eq_refl)
    as (merged & Hc & Hn & Hin).
  exists merged. split; [exact Hc|]. split; [exact Hn|].
  split; [apply Hin; left; cbn; tauto|].
  split; [apply Hin; left; cbn; tauto|].
  split; [apply Hin; right; cbn; tauto|].
  assert (Hrun : Proc.calls (Proc.run (ShopifyClient.addOrderTags Sim.serve this 1001
                               "payzcore, crypto-paid, payzcore") env)
                 = [rq_of this (Shopify.GetOrder 1001);
                    rq_of this (Shopify.PutTags 1001 "vip, payzcore, crypto-paid")])
    by reflexivity.
  rewrite Hrun in Hc. by injection Hc.
Defined.
